(** * Melbourne housing pipeline: cleaning, features, cohort, aggregates

    A shallow embedding of the data pipeline of the repository
    (src/data_cleaning.py, src/feature_engineering.py,
    src/generate_insights.py and the table computations of
    src/create_dashboard.py), followed by the properties proved about it.

    Numbers.  A pandas float cell is modelled by [fval]: a finite value (an
    exact rational, so the rounding error of binary floating point is not
    modelled), the two infinities, or NaN, which pandas also uses for a
    missing cell.  Signed zeros are not distinguished.  Where a property
    depends on which way a value close to a half is rounded, or on a
    quotient staying finite, it is stated for prices in whole dollars
    ([whole_price]) and land sizes of at least one square metre, and only
    up to the choice between the two nearest whole numbers ([nearest]).

    Text.  Strings are sequences of 8-bit characters; the case and
    white-space functions follow Python on the ASCII range ([is_ascii]),
    which is what the suburb names of the data set use.  A cell of the
    Suburb column may be missing.

    Order of equal keys.  Where the scripts sort ([value_counts],
    [sort_values]), the order in which the library leaves rows with equal
    keys is not fixed by the scripts; the model keeps them in the order
    in which they come, and no property below depends on that order. *)

From Stdlib Require Import QArith Qround Qabs ZArith List Bool Ascii String.
From Stdlib Require Import Lia Lqa.
From Stdlib Require Import Sorted.
From stdpp Require Import gmap strings list fin_maps pretty.

(** ** pandas / numpy primitives used by the scripts *)

Module Pandas.

(** *** Float cells *)

Inductive fval : Type :=
| Fin (q : Q)
| PInf
| NInf
| NaN.

Definition isna (x : fval) : bool :=
  match x with NaN => true | _ => false end.

Definition notna (x : fval) : bool := negb (isna x).

Definition is_fin (x : fval) : bool :=
  match x with Fin _ => true | _ => false end.

Definition signed_inf (s : Z) : fval :=
  match s with
  | Z0 => NaN
  | Zpos _ => PInf
  | Zneg _ => NInf
  end.

Definition fsgn (x : fval) : Z :=
  match x with
  | Fin q => Z.sgn (Qnum q)
  | PInf => 1
  | NInf => -1
  | NaN => 0
  end.

Definition fneg (x : fval) : fval :=
  match x with
  | Fin q => Fin (- q)
  | PInf => NInf
  | NInf => PInf
  | NaN => NaN
  end.

Definition fadd (x y : fval) : fval :=
  match x, y with
  | NaN, _ | _, NaN => NaN
  | Fin a, Fin b => Fin (a + b)
  | PInf, NInf | NInf, PInf => NaN
  | PInf, _ | _, PInf => PInf
  | NInf, _ | _, NInf => NInf
  end.

Definition fsub (x y : fval) : fval := fadd x (fneg y).

Definition fmul (x y : fval) : fval :=
  match x, y with
  | NaN, _ | _, NaN => NaN
  | Fin a, Fin b => Fin (a * b)
  | _, _ => signed_inf (fsgn x * fsgn y)
  end.

(** IEEE division: a finite non-zero value over zero is an infinity, zero
    over zero and infinity over infinity are NaN. *)
Definition fdiv (x y : fval) : fval :=
  match x, y with
  | NaN, _ | _, NaN => NaN
  | Fin a, Fin b =>
      if Qeq_bool b 0 then signed_inf (fsgn x) else Fin (a / b)
  | Fin _, _ => Fin 0
  | _, Fin b =>
      signed_inf (fsgn x * (if Qeq_bool b 0 then 1 else fsgn y))
  | _, _ => NaN
  end.

(** Comparisons; every comparison with NaN is false. *)
Definition fleb (x y : fval) : bool :=
  match x, y with
  | NaN, _ | _, NaN => false
  | NInf, _ | _, PInf => true
  | Fin a, Fin b => Qle_bool a b
  | _, _ => false
  end.

Definition fltb (x y : fval) : bool :=
  match x, y with
  | NaN, _ | _, NaN => false
  | _, _ => negb (fleb y x)
  end.

Definition fgtb (x y : fval) : bool := fltb y x.

(** Equality of cells up to the representation of a rational. *)
Definition feq (x y : fval) : Prop :=
  match x, y with
  | Fin a, Fin b => a == b
  | PInf, PInf | NInf, NInf | NaN, NaN => True
  | _, _ => False
  end.

Definition feqb (x y : fval) : bool :=
  match x, y with
  | Fin a, Fin b => Qeq_bool a b
  | PInf, PInf | NInf, NInf | NaN, NaN => true
  | _, _ => false
  end.

(** Rounding to the nearest integer, ties to the even neighbour: what
    [numpy.round] (so [DataFrame.round(0)]) and Python's [round] do. *)
Definition round_half_even (q : Q) : Z :=
  let f := Qfloor q in
  match Qcompare (q - inject_Z f) (1 # 2) with
  | Lt => f
  | Gt => (f + 1)%Z
  | Eq => if Z.even f then f else (f + 1)%Z
  end.

(** [Series.round(0)]: infinities and NaN are left as they are. *)
Definition fround (x : fval) : fval :=
  match x with
  | Fin q => Fin (inject_Z (round_half_even q))
  | _ => x
  end.

Definition of_Z (z : Z) : fval := Fin (inject_Z z).

(** [fillna(v)] on one cell. *)
Definition fillna (v : fval) (x : fval) : fval :=
  if isna x then v else x.

(** *** Reductions over a column (all of them skip NaN) *)

Fixpoint insert_asc (x : fval) (l : list fval) : list fval :=
  match l with
  | [] => [x]
  | y :: t => if fleb x y then x :: l else y :: insert_asc x t
  end.

Fixpoint sort_asc (l : list fval) : list fval :=
  match l with
  | [] => []
  | x :: t => insert_asc x (sort_asc t)
  end.

Definition dropna (l : list fval) : list fval := List.filter notna l.

(** [Series.count()]: the number of cells that are not NaN. *)
Definition count (l : list fval) : nat := length (dropna l).

(** [Series.median()]: the middle of the sorted non-missing values, the
    mean of the two middle ones for an even number, NaN for none. *)
Definition median (l : list fval) : fval :=
  let s := sort_asc (dropna l) in
  let n := length s in
  match n with
  | O => NaN
  | _ =>
      if Nat.even n
      then fdiv (fadd (nth (n / 2 - 1) s NaN) (nth (n / 2) s NaN)) (Fin 2)
      else nth (n / 2) s NaN
  end.

Definition fsum (l : list fval) : fval := fold_left fadd l (Fin 0).

(** [Series.mean()]. *)
Definition mean (l : list fval) : fval :=
  match dropna l with
  | [] => NaN
  | s => fdiv (fsum s) (of_Z (Z.of_nat (length s)))
  end.

(** [GroupBy.first()]: the first non-missing value of the group. *)
Definition first (l : list fval) : fval :=
  match dropna l with
  | [] => NaN
  | x :: _ => x
  end.

(** [Series.ffill()]: a NaN takes the last value seen before it. *)
Fixpoint ffill_from (last : fval) (l : list fval) : list fval :=
  match l with
  | [] => []
  | x :: t =>
      let y := if isna x then last else x in
      y :: ffill_from y t
  end.

Definition ffill (l : list fval) : list fval := ffill_from NaN l.

(** [Series.shift(1)]. *)
Definition shift (l : list fval) : list fval :=
  match l with
  | [] => []
  | _ => NaN :: removelast l
  end.

(** [Series.pct_change()] over one period: [data / data.shift(1) - 1].
    Missing values are padded forward first, which the library did by
    default before its version 3; the properties below are stated for
    values that are present, where the padding changes nothing. *)
Definition pct_change (l : list fval) : list fval :=
  let d := ffill l in
  zip_with (fun x p => fsub (fdiv x p) (Fin 1)) d (shift d).

(** *** Keys: sorted distinct values, as [groupby] presents them *)

Section SortedKeys.
Context {K : Type} (eqb leb : K -> K -> bool).

Fixpoint insert_key (k : K) (l : list K) : list K :=
  match l with
  | [] => [k]
  | y :: t =>
      if eqb k y then l
      else if leb k y then k :: l
      else y :: insert_key k t
  end.

Definition sorted_keys (l : list K) : list K :=
  fold_right insert_key [] l.

(** Distinct values in the order in which they are first met, as the hash
    table behind [value_counts] and [unique] returns them. *)
Fixpoint mem_key (k : K) (l : list K) : bool :=
  match l with
  | [] => false
  | y :: t => eqb k y || mem_key k t
  end.

Fixpoint unique_from (seen : list K) (l : list K) : list K :=
  match l with
  | [] => []
  | x :: t =>
      if mem_key x seen then unique_from seen t
      else x :: unique_from (x :: seen) t
  end.

Definition unique (l : list K) : list K := unique_from [] l.

Definition count_key (k : K) (l : list K) : nat :=
  length (List.filter (eqb k) l).

End SortedKeys.

(** *** Sorting rows by a float column, largest first *)

Section SortValues.
Context {A : Type} (by_col : A -> fval).

(** Insertion that keeps an earlier row ahead of a later row with the same
    value. *)
Fixpoint insert_desc (x : A) (l : list A) : list A :=
  match l with
  | [] => [x]
  | y :: t =>
      if fltb (by_col x) (by_col y) then y :: insert_desc x t else x :: l
  end.

Definition sort_desc (l : list A) : list A := fold_right insert_desc [] l.

(** [sort_values(col, ascending=False)]: rows with a NaN key go last. *)
Definition sort_values_desc (l : list A) : list A :=
  sort_desc (List.filter (fun r => notna (by_col r)) l)
  ++ List.filter (fun r => isna (by_col r)) l.

End SortValues.

End Pandas.

(** ** Python string methods, on the ASCII range *)

Module PyStr.

Definition code (c : ascii) : nat := nat_of_ascii c.

(** [str.isspace] for one character: tab to carriage return, the four
    separators 28 to 31, and the space. *)
Definition is_space (c : ascii) : bool :=
  let n := code c in
  ((9 <=? n) && (n <=? 13)) || ((28 <=? n) && (n <=? 32)).

Definition is_upper (c : ascii) : bool :=
  let n := code c in (65 <=? n) && (n <=? 90).

Definition is_lower (c : ascii) : bool :=
  let n := code c in (97 <=? n) && (n <=? 122).

Definition is_cased (c : ascii) : bool := is_upper c || is_lower c.

Definition to_upper (c : ascii) : ascii :=
  if is_lower c then ascii_of_nat (code c - 32) else c.

Definition to_lower (c : ascii) : ascii :=
  if is_upper c then ascii_of_nat (code c + 32) else c.

Fixpoint lstrip (s : string) : string :=
  match s with
  | EmptyString => EmptyString
  | String c s' => if is_space c then lstrip s' else s
  end.

Fixpoint rstrip (s : string) : string :=
  match s with
  | EmptyString => EmptyString
  | String c s' =>
      match rstrip s' with
      | EmptyString => if is_space c then EmptyString else String c EmptyString
      | r => String c r
      end
  end.

(** [str.strip()] *)
Definition strip (s : string) : string := rstrip (lstrip s).

(** [str.title()]: a cased character is put in upper case when the
    character before it is not cased, in lower case otherwise. *)
Fixpoint title_from (previous_is_cased : bool) (s : string) : string :=
  match s with
  | EmptyString => EmptyString
  | String c s' =>
      String (if previous_is_cased then to_lower c else to_upper c)
             (title_from (is_cased c) s')
  end.

Definition title (s : string) : string := title_from false s.

(** [str.isascii()] *)
Fixpoint is_ascii (s : string) : bool :=
  match s with
  | EmptyString => true
  | String c s' => (code c <? 128) && is_ascii s'
  end.

Definition is_digit (c : ascii) : bool :=
  let n := code c in (48 <=? n) && (n <=? 57).

Definition digit_value (c : ascii) : Z := Z.of_nat (code c - 48).

(** The number written by a string of decimal digits. *)
Fixpoint digits_value (acc : Z) (s : string) : option Z :=
  match s with
  | EmptyString => Some acc
  | String c s' =>
      if is_digit c then digits_value (10 * acc + digit_value c)%Z s'
      else None
  end.

(** [s.split(sep)] for a one-character separator. *)
Fixpoint split_on (sep : ascii) (s : string) : list string :=
  match s with
  | EmptyString => [EmptyString]
  | String c s' =>
      if Ascii.eqb c sep then EmptyString :: split_on sep s'
      else
        match split_on sep s' with
        | [] => [String c EmptyString]
        | w :: ws => String c w :: ws
        end
  end.

End PyStr.

(** ** Dates and quarterly periods *)

Module Dates.

Record date : Type := mkdate { year : Z; month : Z; day : Z }.

Definition is_leap (y : Z) : bool :=
  ((y mod 4 =? 0) && negb (y mod 100 =? 0) || (y mod 400 =? 0))%Z.

Definition days_in_month (y m : Z) : Z :=
  if (m =? 2)%Z then (if is_leap y then 29 else 28)
  else if ((m =? 4) || (m =? 6) || (m =? 9) || (m =? 11))%Z then 30
  else 31.

Definition date_leb (a b : date) : bool :=
  ((year a <? year b)
   || ((year a =? year b)
       && ((month a <? month b)
           || ((month a =? month b) && (day a <=? day b)))))%Z.

(** The days that a nanosecond time stamp can hold in full. *)
Definition min_date : date := mkdate 1677 9 22.
Definition max_date : date := mkdate 2262 4 11.

Definition field (min_len max_len : nat) (s : string) : option Z :=
  if (min_len <=? String.length s) && (String.length s <=? max_len)
  then PyStr.digits_value 0 s else None.

(** [pd.to_datetime(text, format="%d/%m/%Y")] on one cell, for the texts
    that the library reads in one way whatever its version: a day of one
    or two digits, a month of one or two digits, a year of four digits,
    separated by slashes, naming a day of the calendar that a nanosecond
    time stamp can hold.  Every other text is refused here.  The library
    refuses most of them too, but not all (it reads an empty cell as a
    missing date, and a day written with a leading space as that day), so
    no property below is stated for a text that is refused. *)
Definition parse_date (s : string) : option date :=
  match PyStr.split_on "/" s with
  | [ds; ms; ys] =>
      d ← field 1 2 ds;
      m ← field 1 2 ms;
      y ← field 4 4 ys;
      let dt := mkdate y m d in
      if ((1 <=? m) && (m <=? 12) && (1 <=? d)
          && (d <=? days_in_month y m))%Z
         && date_leb min_date dt && date_leb dt max_date
      then Some dt else None
  | _ => None
  end.

(** The number of the quarter, as [Period] computes it for a calendar
    year ending in December. *)
Definition quarter_of_month (m : Z) : Z := ((m - 1) / 3 + 1)%Z.

(** [dt.to_period("Q").astype(str)] *)
Definition quarter_label (d : date) : string :=
  pretty (year d) +:+ "Q" +:+ pretty (quarter_of_month (month d)).

End Dates.

(** ** Python values, errors and tables shared by the scripts *)

Module Data.
Export Pandas.

Inductive error : Type :=
| KeyError (key : string)
| IndexError
| ValueError
| OverflowError
| ZeroDivisionError.

Inductive result (A : Type) : Type :=
| Ok (a : A)
| Err (e : error).
Arguments Ok {A} a.
Arguments Err {A} e.

Definition rbind {A B : Type} (m : result A) (k : A -> result B) : result B :=
  match m with
  | Ok a => k a
  | Err e => Err e
  end.

Notation "'try' x <- m 'in' k" := (rbind m (fun x => k))
  (at level 10, x name, m at level 100, k at level 200, only parsing).

Fixpoint rmap {A B : Type} (f : A -> result B) (l : list A) : result (list B) :=
  match l with
  | [] => Ok []
  | x :: t => try y <- f x in try ys <- rmap f t in Ok (y :: ys)
  end.

(** One transaction of the raw file.  The Suburb column holds text, and a
    cell of it may be missing.  [other] stands for the columns that no
    script reads (address, seller, postcode and so on). *)
Record raw_row : Type := mk_raw {
  Suburb : option string;
  Rooms : Z;
  Type_ : option string;
  Price : fval;
  Date : string;
  Distance : fval;
  Car : fval;
  Landsize : fval;
  other : list (string * string)
}.

(** A transaction with the columns that [add_features] computes.  The
    script stores the time stamp back into the [Date] column: [Date_parsed]
    is the [Date] column of the featured table, and [base] holds the other
    columns of the row together with the text that was read. *)
Record feat_row : Type := mk_feat {
  base : raw_row;
  Price_per_sqm : fval;
  Date_parsed : Dates.date;
  Year : Z;
  Month : Z;
  Quarter : string;
  PropertyType : option string
}.

Definition suburb (r : feat_row) : option string := Suburb (base r).
Definition price (r : feat_row) : fval := Price (base r).
Definition quarter (r : feat_row) : option string := Some (Quarter r).

(** [column == k] on one cell of a text column: false for a missing
    cell. *)
Definition cell_is (k : string) (c : option string) : bool :=
  match c with
  | Some k' => String.eqb k' k
  | None => false
  end.

(** [df.groupby(key)]: one group per distinct key, keys in sorted order,
    the rows of a group in their order in the table; the rows whose key is
    missing are in no group. *)
Definition group {A : Type} (key : A -> option string) (df : list A)
  (k : string) : list A :=
  List.filter (fun r => cell_is k (key r)) df.

Definition groupby {A : Type} (key : A -> option string) (df : list A)
  : list (string * list A) :=
  List.map (fun k => (k, group key df k))
           (sorted_keys String.eqb String.leb (omap key df)).

(** A [Series] indexed by text: [s.get(k)] and [column.map(s)]. *)
Fixpoint series_get (s : list (string * fval)) (k : string) : option fval :=
  match s with
  | [] => None
  | (k', v) :: t => if String.eqb k' k then Some v else series_get t k
  end.

Definition series_map (s : list (string * fval)) (k : string) : fval :=
  match series_get s k with
  | Some v => v
  | None => NaN
  end.

(** [column.map(s)] on one cell: a missing cell maps to NaN. *)
Definition column_map (s : list (string * fval)) (c : option string) : fval :=
  match c with
  | Some k => series_map s k
  | None => NaN
  end.

(** [column.isin(values)] on one cell; a missing cell is in no list of
    texts. *)
Definition isin (values : list string) (c : option string) : bool :=
  match c with
  | Some k => mem_key String.eqb k values
  | None => false
  end.

(** [sort_values(col)] on a text column, smallest first. *)
Section SortText.
Context {A : Type} (by_col : A -> string).

Fixpoint insert_text (x : A) (l : list A) : list A :=
  match l with
  | [] => [x]
  | y :: t =>
      if String.leb (by_col x) (by_col y) then x :: l
      else y :: insert_text x t
  end.

Definition sort_text (l : list A) : list A := fold_right insert_text [] l.

End SortText.

End Data.

(** ** src/data_cleaning.py *)

Module DataCleaning.
Import Data.

Record cleaning_stats : Type := mk_stats {
  initial_rows : nat;
  final_rows : nat;
  removed_rows : nat;
  suburb_name_fixes : nat;
  removed_invalid_landsize : nat
}.

Definition set_Suburb (s : option string) (r : raw_row) : raw_row :=
  mk_raw s (Rooms r) (Type_ r) (Price r) (Date r) (Distance r) (Car r)
         (Landsize r) (other r).

Definition set_Car (c : fval) (r : raw_row) : raw_row :=
  mk_raw (Suburb r) (Rooms r) (Type_ r) (Price r) (Date r) (Distance r) c
         (Landsize r) (other r).

(** [.str.strip().str.title()] on a text, and on a cell: a missing cell
    stays missing. *)
Definition standardize (s : string) : string := PyStr.title (PyStr.strip s).

Definition standardize_cell (c : option string) : option string :=
  option_map standardize c.

(** [a != b] on two cells of a text column: a missing cell differs from
    every cell, itself included. *)
Definition cell_ne (a b : option string) : bool :=
  match a, b with
  | Some x, Some y => negb (String.eqb x y)
  | _, _ => true
  end.

Definition invalid_landsize (r : raw_row) : bool := fleb (Landsize r) (Fin 0).
Definition extreme_landsize (r : raw_row) : bool :=
  fgtb (Landsize r) (Fin 50000).

Definition count_true {A : Type} (p : A -> bool) (l : list A) : nat :=
  length (List.filter p l).

(** [clean_data]: the cleaned table and the statistics.  The two
    completeness percentages of the statistics are left out: they are read
    from every column of the file and take no part in the cleaned table. *)
Definition clean_data (df : list raw_row) : list raw_row * cleaning_stats :=
  let initial := length df in
  let suburb_fixes :=
    count_true (fun r => cell_ne (standardize_cell (Suburb r)) (Suburb r)) df in
  let df_clean :=
    List.map (fun r => set_Suburb (standardize_cell (Suburb r)) r) df in
  let removed_landsize :=
    (count_true invalid_landsize df_clean
     + count_true extreme_landsize df_clean)%nat in
  let df_clean :=
    List.filter (fun r => negb (invalid_landsize r || extreme_landsize r))
                df_clean in
  let df_clean := List.map (fun r => set_Car (fillna (Fin 0) (Car r)) r) df_clean in
  (df_clean,
   mk_stats initial (length df_clean) (initial - length df_clean)
            suburb_fixes removed_landsize).

End DataCleaning.

(** ** src/feature_engineering.py *)

Module FeatureEngineering.
Import Data.

Definition type_map : gmap string string :=
  <["h" := "House"]> (<["u" := "Unit"]> (<["t" := "Townhouse"]> ∅)).

Definition add_features_row (r : raw_row) : result feat_row :=
  match Dates.parse_date (Date r) with
  | None => Err ValueError
  | Some d =>
      Ok {| base := r;
            Price_per_sqm := fdiv (Price r) (Landsize r);
            Date_parsed := d;
            Year := Dates.year d;
            Month := Dates.month d;
            Quarter := Dates.quarter_label d;
            PropertyType :=
              match Type_ r with
              | Some t => type_map !! t
              | None => None
              end |}
  end.

(** [add_features]: one featured row per row; a date that
    [Dates.parse_date] refuses ends the run. *)
Definition add_features (df : list raw_row) : result (list feat_row) :=
  rmap add_features_row df.

(** [Series.value_counts()]: the distinct values of the cells that are
    not missing, with their number of occurrences, sorted by that number,
    largest first.  The library does not fix the order of values with the
    same number; here they stay in the order in which they are first met,
    which is one of the orders it can leave them in. *)
Definition value_counts (col : list (option string)) : list (string * nat) :=
  let present := omap id col in
  sort_desc (fun kc => of_Z (Z.of_nat (snd kc)))
    (List.map (fun k => (k, count_key String.eqb k present))
              (unique String.eqb present)).

Definition get_top_suburbs (df : list feat_row) (n : nat) : list string :=
  List.map fst (take n (value_counts (List.map suburb df))).

(** *** Tables as objects

    [add_outlier_detection] copies the table it is given and assigns two
    columns to the copy.  A table object holds its rows and the columns
    assigned to it by name; the store maps an object reference to its
    current content. *)

Record frame : Type := mk_frame {
  rows : list feat_row;
  extra : gmap string (list fval)
}.

Abbreviation ref := positive.
Abbreviation store := (gmap positive frame).

Definition M (A : Type) : Type := store -> option (A * store).

Definition ret {A : Type} (a : A) : M A := fun h => Some (a, h).

Definition bind {A B : Type} (m : M A) (k : A -> M B) : M B :=
  fun h =>
    match m h with
    | Some (a, h') => k a h'
    | None => None
    end.

Notation "'do' x <- m 'in' k" := (bind m (fun x => k))
  (at level 10, x name, m at level 100, k at level 200, only parsing).

(** Reading the table behind a reference. *)
Definition read (l : ref) : M frame :=
  fun h => match h !! l with Some f => Some (f, h) | None => None end.

(** [df.copy()]: a new object with the same content. *)
Definition copy (l : ref) : M ref :=
  fun h =>
    match h !! l with
    | Some f => let l' := fresh (dom h) in Some (l', <[l' := f]> h)
    | None => None
    end.

(** [df[name] = values]: the object is changed in place. *)
Definition setitem (l : ref) (name : string) (values : list fval) : M unit :=
  fun h =>
    match h !! l with
    | Some f =>
        Some (tt, <[l := mk_frame (rows f) (<[name := values]> (extra f))]> h)
    | None => None
    end.

(** [df[name]] for a column assigned earlier. *)
Definition getitem (l : ref) (name : string) : M (list fval) :=
  fun h =>
    match h !! l with
    | Some f =>
        match extra f !! name with
        | Some c => Some (c, h)
        | None => None
        end
    | None => None
    end.

(** [df.groupby("Suburb")["Price"].median()] *)
Definition suburb_medians (df : list feat_row) : list (string * fval) :=
  List.map (fun g => (fst g, median (List.map price (snd g))))
           (groupby suburb df).

Definition add_outlier_detection (df : ref) : M ref :=
  do df <- copy df in
  do f <- read df in
  let medians := suburb_medians (rows f) in
  do _ <- setitem df "Suburb_Median"
            (List.map (fun r => column_map medians (suburb r)) (rows f)) in
  do f <- read df in
  do m <- getitem df "Suburb_Median" in
  do _ <- setitem df "Price_Deviation"
            (zip_with (fun p sm => fdiv (fsub p sm) sm)
                      (List.map price (rows f)) m) in
  ret df.

(** The part of [main] after the features are added: the cohort of the
    [n] busiest suburbs (20 in the script), the rows of the cohort, and
    their annotation.  The filtered copy is the first object of an empty
    store; the result is the content of the annotated object. *)
Definition analysis_subset (df : list feat_row) (n : nat) : list feat_row :=
  let top_suburbs := get_top_suburbs df n in
  List.filter (fun r => isin top_suburbs (suburb r)) df.

Definition analysis_dataset (df : list feat_row) (n : nat) : option frame :=
  let df_analysis : ref := 1%positive in
  let h : store := {[ df_analysis := mk_frame (analysis_subset df n) ∅ ]} in
  match add_outlier_detection df_analysis h with
  | Some (l, h') => h' !! l
  | None => None
  end.

(** The counts of the two outlier classes printed by [main]. *)
Definition outlier_counts (f : frame) : nat * nat :=
  match extra f !! "Price_Deviation" with
  | Some dev =>
      (length (List.filter (fun d => fltb d (Fin (-3 # 10))) dev),
       length (List.filter (fun d => fgtb d (Fin (1 # 2))) dev))
  | None => (O, O)
  end.

(** [main], from the cleaned table to the table that is saved.  Before
    saving, the script prints the share of the rows that are kept,
    [len(df_analysis) / len(df) * 100], which divides by zero on an empty
    table. *)
Definition main (cleaned : list raw_row) : result (option frame) :=
  try df <- add_features cleaned in
  let df_analysis := analysis_dataset df 20 in
  if Nat.eqb (length df) 0 then Err ZeroDivisionError
  else Ok df_analysis.

End FeatureEngineering.

(** ** src/generate_insights.py *)

Module GenerateInsights.
Import Data.

(** *** Summary by suburb *)

Module SuburbRow.
Record t : Type := mk {
  Suburb : string;
  Median_Price : fval;
  Mean_Price : fval;
  Transaction_Count : nat;
  Median_Price_per_sqm : fval;
  Median_Rooms : fval;
  Distance_to_CBD : fval
}.
End SuburbRow.

(** [suburb_comparison]: the statistics of each suburb, rounded to whole
    numbers (the count is a whole number already), the dearest suburb
    first. *)
Definition suburb_comparison (df : list feat_row) : list SuburbRow.t :=
  let stats :=
    List.map
      (fun g =>
         let rs := snd g in
         SuburbRow.mk (fst g)
           (fround (median (List.map price rs)))
           (fround (mean (List.map price rs)))
           (count (List.map price rs))
           (fround (median (List.map Price_per_sqm rs)))
           (fround (median (List.map (fun r => of_Z (Rooms (base r))) rs)))
           (fround (first (List.map (fun r => Distance (base r)) rs))))
      (groupby suburb df) in
  sort_values_desc SuburbRow.Median_Price stats.

(** *** Summary by quarter *)

Module QuarterRow.
Record t : Type := mk {
  Quarter : string;
  Median_Price : fval;
  Mean_Price : fval;
  Transaction_Count : nat;
  Median_Price_per_sqm : fval
}.
End QuarterRow.

Definition quarterly_trends (df : list feat_row) : list QuarterRow.t :=
  List.map
    (fun g =>
       let rs := snd g in
       QuarterRow.mk (fst g)
         (fround (median (List.map price rs)))
         (fround (mean (List.map price rs)))
         (count (List.map price rs))
         (fround (median (List.map Price_per_sqm rs))))
    (groupby quarter df).

(** *** Pivot of the median price: one row per suburb, one column per
    value of a second key.  Rows whose suburb or second key is missing
    take no part; a cell without transactions is NaN. *)

Section Pivot.
Context {K : Type} `{Countable K} (keqb kleb : K -> K -> bool).
Context (key2 : feat_row -> option K).

Record pivot_row : Type := mk_pivot_row {
  index : string;
  cells : gmap K fval
}.

Record pivot : Type := mk_pivot {
  columns : list K;
  body : list pivot_row
}.

Definition has_keys (r : feat_row) : bool :=
  match suburb r, key2 r with Some _, Some _ => true | _, _ => false end.

Definition in_cell (s : string) (c : K) (r : feat_row) : bool :=
  cell_is s (suburb r)
  && match key2 r with Some c' => keqb c' c | None => false end.

Definition cell_median (df : list feat_row) (s : string) (c : K) : fval :=
  median (List.map price (List.filter (in_cell s c) df)).

(** [df.groupby(["Suburb", key2])["Price"].median().unstack()] *)
Definition median_pivot (df : list feat_row) : pivot :=
  let valid := List.filter has_keys df in
  let cols := sorted_keys keqb kleb (omap key2 valid) in
  mk_pivot cols
    (List.map
       (fun s =>
          mk_pivot_row s
            (list_to_map (List.map (fun c => (c, cell_median df s c)) cols)))
       (sorted_keys String.eqb String.leb (omap suburb valid))).

(** [pivot[c]] on one row, for a column [c] of the pivot. *)
Definition cell (r : pivot_row) (c : K) : fval :=
  match cells r !! c with
  | Some v => v
  | None => NaN
  end.

Record premium_row : Type := mk_premium_row {
  entity : pivot_row;
  premium : fval
}.

(** The premium of column [a] over column [b], in percent, rounded; then
    [dropna(subset=[a, b])] and [sort_values(premium, ascending=False)]. *)
Definition premium_table (p : pivot) (a b : K) : list premium_row :=
  let with_premium :=
    List.map
      (fun r =>
         mk_premium_row r
           (fround (fmul (fdiv (fsub (cell r a) (cell r b)) (cell r b))
                         (Fin 100))))
      (body p) in
  sort_values_desc premium
    (List.filter
       (fun r => notna (cell (entity r) a) && notna (cell (entity r) b))
       with_premium).

End Pivot.

Arguments pivot_row K {_ _}.
Arguments pivot K {_ _}.
Arguments premium_row K {_ _}.

Definition has_column (cols : list string) (c : string) : bool :=
  mem_key String.eqb c cols.

(** [property_type_premium]: reading a column that the pivot does not
    have raises [KeyError]. *)
Definition property_type_premium (df : list feat_row)
  : result (list (premium_row string)) :=
  let pivot := median_pivot String.eqb String.leb PropertyType df in
  if negb (has_column (columns pivot) "House") then Err (KeyError "House")
  else if negb (has_column (columns pivot) "Unit") then Err (KeyError "Unit")
  else Ok (premium_table pivot "House" "Unit").

(** [bedroom_premium]: houses only, pivot by number of rooms; an empty
    table when no house has 3 rooms or none has 4. *)
Definition bedroom_premium (df : list feat_row) : list (premium_row Z) :=
  let houses :=
    List.filter
      (fun r => match PropertyType r with
                | Some t => String.eqb t "House"
                | None => false
                end) df in
  let pivot := median_pivot Z.eqb Z.leb (fun r => Some (Rooms (base r))) houses in
  if mem_key Z.eqb 3%Z (columns pivot) && mem_key Z.eqb 4%Z (columns pivot)
  then premium_table pivot 4%Z 3%Z
  else [].

(** *** Gaps between named suburbs *)

Inductive pyval : Type :=
| PStr (s : string)
| PFloat (x : fval)
| PInt (z : Z).

Definition to_float (v : pyval) : option fval :=
  match v with
  | PFloat x => Some x
  | PInt z => Some (of_Z z)
  | PStr _ => None
  end.

(** Python's [round(x)] on a float: an integer; NaN and the infinities
    raise. *)
Definition py_round (x : fval) : result Z :=
  match x with
  | Fin q => Ok (round_half_even q)
  | NaN => Err ValueError
  | _ => Err OverflowError
  end.

(** [suburb_stats.get(name, 0)] *)
Definition get_or_zero (stats : list (string * fval)) (name : string) : pyval :=
  match series_get stats name with
  | Some v => PFloat v
  | None => PInt 0
  end.

Definition comparison (stats : list (string * fval)) (value premium : string)
  : gmap string pyval :=
  <["value_suburb" := PStr value]>
    (<["premium_suburb" := PStr premium]>
       (<["value_price" := get_or_zero stats value]>
          (<["premium_price" := get_or_zero stats premium]> ∅))).

(** The body of the loop over the comparisons. *)
Definition add_discount (comp : gmap string pyval)
  : result (gmap string pyval) :=
  match comp !! "premium_price" ≫= to_float,
        comp !! "value_price" ≫= to_float with
  | Some premium_price, Some value_price =>
      if fgtb premium_price (Fin 0) then
        try d <- py_round
                   (fmul (fdiv (fsub premium_price value_price) premium_price)
                         (Fin 100)) in
        Ok (<["discount_pct" := PInt d]> comp)
      else Ok comp
  | None, _ => Err (KeyError "premium_price")
  | _, None => Err (KeyError "value_price")
  end.

Definition pairs : list (string * (string * string)) :=
  [ ("Reservoir_vs_Northcote", ("Reservoir", "Northcote"));
    ("Glenroy_vs_MooneePonds", ("Glenroy", "Moonee Ponds"));
    ("Coburg_vs_Brunswick", ("Coburg", "Brunswick")) ].

Definition value_suburb_gaps (df : list feat_row)
  : result (list (string * gmap string pyval)) :=
  let suburb_stats := FeatureEngineering.suburb_medians df in
  rmap (fun p =>
          try comp <- add_discount
                        (comparison suburb_stats (fst (snd p)) (snd (snd p))) in
          Ok (fst p, comp))
       pairs.

(** *** What [main] reports *)

(** The discount shown on a line of the report:
    [comp.get('discount_pct', 0)]. *)
Definition shown_discount (comp : gmap string pyval) : pyval :=
  match comp !! "discount_pct" with
  | Some v => v
  | None => PInt 0
  end.

Record gap_line : Type := mk_gap_line {
  value_suburb : option pyval;
  value_price : option pyval;
  discount : pyval;
  premium_suburb : option pyval
}.

Definition report_gap (comp : gmap string pyval) : gap_line :=
  mk_gap_line (comp !! "value_suburb") (comp !! "value_price")
              (shown_discount comp) (comp !! "premium_suburb").

(** [series.values[0]] *)
Definition values0 (l : list fval) : result fval :=
  match l with
  | [] => Err IndexError
  | x :: _ => Ok x
  end.

Definition median_of_quarter (quarterly : list QuarterRow.t) (q : string)
  : result fval :=
  values0
    (List.map QuarterRow.Median_Price
       (List.filter (fun r => String.eqb (QuarterRow.Quarter r) q) quarterly)).

Record trend : Type := mk_trend {
  q2_2016 : fval;
  q3_2017 : fval;
  growth : fval
}.

Definition market_trend (df : list feat_row) : result trend :=
  let quarterly := quarterly_trends df in
  try q2 <- median_of_quarter quarterly "2016Q2" in
  try q3 <- median_of_quarter quarterly "2017Q3" in
  Ok (mk_trend q2 q3 (fmul (fdiv (fsub q3 q2) q2) (Fin 100))).

Record report : Type := mk_report {
  undervalued : list gap_line;
  house_vs_unit : list (string * fval);
  four_vs_three : list (string * fval);
  market : trend
}.

Definition top5 {K : Type} `{Countable K} (t : list (premium_row K))
  : list (string * fval) :=
  List.map (fun r => (index (entity r), premium r)) (take 5 t).

Definition main (df : list feat_row) : result report :=
  try gaps <- value_suburb_gaps df in
  let lines := List.map (fun kc => report_gap (snd kc)) gaps in
  try type_premium <- property_type_premium df in
  let br_premium := bedroom_premium df in
  try m <- market_trend df in
  Ok (mk_report lines (top5 type_premium) (top5 br_premium) m).

End GenerateInsights.

(** ** src/create_dashboard.py: the tables behind the sheets *)

Module CreateDashboard.
Import Data.

Module TrendRow.
Record t : Type := mk {
  Quarter : string;
  Median_Price : fval;
  Mean_Price : fval;
  Volume : nat;
  Price_per_sqm : fval;
  QoQ_Growth : fval
}.
End TrendRow.

(** The table of [create_quarterly_trends]: the rounded statistics of
    each quarter, sorted by quarter, and the change of the median price
    from one row to the next. *)
Definition quarterly_stats (df : list feat_row)
  : list GenerateInsights.QuarterRow.t :=
  sort_text GenerateInsights.QuarterRow.Quarter
            (GenerateInsights.quarterly_trends df).

Definition create_quarterly_trends (df : list feat_row) : list TrendRow.t :=
  let quarterly := quarterly_stats df in
  zip_with
    (fun r g =>
       TrendRow.mk (GenerateInsights.QuarterRow.Quarter r)
                   (GenerateInsights.QuarterRow.Median_Price r)
                   (GenerateInsights.QuarterRow.Mean_Price r)
                   (GenerateInsights.QuarterRow.Transaction_Count r)
                   (GenerateInsights.QuarterRow.Median_Price_per_sqm r)
                   g)
    quarterly
    (pct_change (List.map GenerateInsights.QuarterRow.Median_Price quarterly)).


(** The table of [create_property_type_analysis]: the pivot of median
    prices with the premium of houses over units as a fraction, the
    suburbs without a House or a Unit median dropped, the largest premium
    first.  Reading a column that the pivot does not have raises
    [KeyError]. *)
Definition house_premium_table (p : GenerateInsights.pivot string)
  : list (GenerateInsights.premium_row string) :=
  let with_premium :=
    List.map
      (fun r =>
         GenerateInsights.mk_premium_row r
           (fdiv (fsub (GenerateInsights.cell r "House")
                       (GenerateInsights.cell r "Unit"))
                 (GenerateInsights.cell r "Unit")))
      (GenerateInsights.body p) in
  sort_values_desc GenerateInsights.premium
    (List.filter
       (fun r =>
          notna (GenerateInsights.cell (GenerateInsights.entity r) "House")
          && notna (GenerateInsights.cell (GenerateInsights.entity r) "Unit"))
       with_premium).

Definition create_property_type_analysis (df : list feat_row)
  : result (list (GenerateInsights.premium_row string)) :=
  let pivot :=
    GenerateInsights.median_pivot String.eqb String.leb PropertyType df in
  if negb (GenerateInsights.has_column (GenerateInsights.columns pivot) "House")
  then Err (KeyError "House")
  else if negb (GenerateInsights.has_column
                  (GenerateInsights.columns pivot) "Unit")
  then Err (KeyError "Unit")
  else Ok (house_premium_table pivot).

(** The "Suburbs Analyzed" figure of the Executive Summary:
    [df['Suburb'].nunique()]. *)
Definition suburbs_analyzed (df : list feat_row) : nat :=
  length (unique String.eqb (omap suburb df)).

(** The suburb preselected in the Suburb Lookup Tool:
    [df['Suburb'].value_counts().index[0]]. *)
Definition default_suburb (df : list feat_row) : result string :=
  match FeatureEngineering.value_counts (List.map suburb df) with
  | [] => Err IndexError
  | kc :: _ => Ok (fst kc)
  end.

End CreateDashboard.

(** ** Notions used to state the properties *)

Module Spec.
Import Data.

(** The quarter of a month as the specification words it: the month
    divided by three, rounded up. *)
Definition quarter_number (m : Z) : Z := Qceiling (inject_Z m / 3).

(** A land size that the cleaning lets through: missing, or positive and
    at most 50,000. *)
Definition landsize_kept (x : fval) : Prop :=
  x = NaN \/ exists q, x = Fin q /\ (0 < q)%Q /\ (q <= 50000)%Q.

(** A row with its suburb name trimmed and in title case (a missing name
    stays missing) and a missing number of car spaces replaced by 0. *)
Definition normalised (r : raw_row) : raw_row :=
  mk_raw (option_map DataCleaning.standardize (Suburb r)) (Rooms r) (Type_ r)
         (Price r) (Date r) (Distance r) (fillna (Fin 0) (Car r)) (Landsize r)
         (other r).

(** A string that does not start with white space. *)
Definition starts_clean (s : string) : Prop :=
  match s with
  | EmptyString => True
  | String c _ => PyStr.is_space c = false
  end.

(** The case given to a character by [title]. *)
Definition title_char (previous_is_cased : bool) (c : ascii) : ascii :=
  if previous_is_cased then PyStr.to_lower c else PyStr.to_upper c.

(** The position at which a value is first met in a column (the length of
    the column when it is not there). *)
Fixpoint first_index (k : string) (col : list string) : nat :=
  match col with
  | [] => O
  | x :: t => if String.eqb x k then O else S (first_index k t)
  end.

(** The number of cells of a column that hold a value. *)
Definition occurrences (k : string) (col : list (option string)) : nat :=
  count_key String.eqb k (omap id col).

(** The order in which a stable descending sort leaves two rows: the
    larger key first, and for keys that compare equal the row that
    entered first. *)
Definition ranks_before {A : Type} (key : A -> fval)
  (before : A -> A -> Prop) (x y : A) : Prop :=
  fltb (key y) (key x) = true
  \/ (fleb (key x) (key y) = true /\ fleb (key y) (key x) = true
      /\ before x y).

(** The median price of a suburb as the gap comparison reads it: zero for
    a suburb that the table of medians does not have. *)
Definition price_or_zero (stats : list (string * fval)) (name : string)
  : fval :=
  match series_get stats name with
  | Some v => v
  | None => Fin 0
  end.

(** The discount of a value suburb against a premium suburb, in percent. *)
Definition discount_percent (premium_price value_price : fval) : fval :=
  fmul (fdiv (fsub premium_price value_price) premium_price) (Fin 100).

(** The premium of one price over another, in percent. *)
Definition premium_percent (a b : fval) : fval :=
  fmul (fdiv (fsub a b) b) (Fin 100).

(** A price in whole dollars, at most a thousand million, or no price.
    With such prices the quotients above, computed in binary floating
    point, are either exactly half-way between two whole numbers or on
    the same side of every half as the exact quotient. *)
Definition whole_price (x : fval) : Prop :=
  x = NaN \/ exists z : Z, x = of_Z z /\ (0 <= z <= 1000000000)%Z.

(** A whole number nearest to a finite value: at most one half away. *)
Definition nearest (z : Z) (x : fval) : Prop :=
  exists q, x = Fin q /\ (Qabs (inject_Z z - q) <= 1 # 2)%Q.

(** [y] is [x] rounded to a whole number: a whole number nearest to [x]
    when [x] is finite (either neighbour when [x] is half-way), and [x]
    itself when it is an infinity or is missing. *)
Definition rounded (x y : fval) : Prop :=
  match x with
  | Fin _ => exists z, y = of_Z z /\ nearest z x
  | _ => y = x
  end.

(** A column in descending order, the missing values at the end. *)
Definition descending_nan_last (l : list fval) : Prop :=
  forall (i j : nat) (x y : fval),
    (i < j)%nat -> l !! i = Some x -> l !! j = Some y ->
    y = NaN \/ (x <> NaN /\ fleb y x = true).

(** The rows of a suburb, and those of a suburb in one category. *)
Definition records_of (df : list feat_row) (s : string) : list feat_row :=
  List.filter (fun r => cell_is s (suburb r)) df.

Definition records_of_type (df : list feat_row) (s t : string)
  : list feat_row :=
  List.filter
    (fun r => cell_is s (suburb r)
              && match PropertyType r with
                 | Some t' => String.eqb t' t
                 | None => false
                 end) df.

Definition records_of_quarter (df : list feat_row) (q : string)
  : list feat_row :=
  List.filter (fun r => String.eqb (Quarter r) q) df.

(** The median price of the suburb of a row among the rows of a table;
    NaN for a row without a suburb. *)
Definition suburb_median (rs : list feat_row) (r : feat_row) : fval :=
  match suburb r with
  | Some s => median (List.map price (records_of rs s))
  | None => NaN
  end.

(** The two columns that the annotation assigns, as functions of the rows. *)
Definition median_column (rs : list feat_row) : list fval :=
  List.map (suburb_median rs) rs.

Definition deviation_column (rs : list feat_row) : list fval :=
  List.map
    (fun r =>
       let m := suburb_median rs r in
       fdiv (fsub (price r) m) m) rs.

Definition annotated (f : FeatureEngineering.frame) : FeatureEngineering.frame :=
  FeatureEngineering.mk_frame (FeatureEngineering.rows f)
    (<["Price_Deviation" := deviation_column (FeatureEngineering.rows f)]>
       (<["Suburb_Median" := median_column (FeatureEngineering.rows f)]>
          (FeatureEngineering.extra f))).

End Spec.

(** ** Sample tables *)

Module Samples.
Import Data.

Definition lot (s : string) (landsize : fval) : raw_row :=
  mk_raw (Some s) 3 (Some "h") (Fin 700000) "17/06/2016" (Fin 5) NaN landsize [].

(** Four raw rows: a land size that is missing, one in range, a zero and
    one above the ceiling. *)
Definition raw_lots : list raw_row :=
  [ lot "  reservoir " NaN; lot "moonee  PONDS" (Fin 450);
    lot "Kew" (Fin 0); lot "Kew" (Fin 50001) ].

Definition cleaned_unknown_lot : raw_row :=
  mk_raw (Some "Reservoir") 3 (Some "h") (Fin 700000) "17/06/2016" (Fin 5)
         (Fin 0) NaN [].

Definition cleaned_lot : raw_row :=
  mk_raw (Some "Moonee  Ponds") 3 (Some "h") (Fin 700000) "17/06/2016"
         (Fin 5) (Fin 0) (Fin 450) [].

Definition sale (s : string) (t : string) (p : Z) (date : string) : raw_row :=
  mk_raw (Some s) 3 (Some t) (of_Z p) date (Fin 5) (Fin 1) (Fin 400) [].

Definition sale_june : raw_row := sale "Kew" "h" 900000 "17/06/2016".

Definition cleaned_sales : list raw_row :=
  [ sale "Kew" "u" 500000 "3/02/2016"; sale_june;
    sale "Reservoir" "h" 600000 "28/10/2017" ].

Definition featured_sales : list feat_row :=
  match FeatureEngineering.add_features cleaned_sales with
  | Ok df => df
  | Err _ => []
  end.

Definition listing (s : string) (t : option string) (rooms : Z) (p : fval)
  (q : string) : feat_row :=
  mk_feat (mk_raw (Some s) rooms None p "17/06/2016" (Fin 5) (Fin 1)
                  (Fin 400) [])
          (fdiv p (Fin 400)) (Dates.mkdate 2016 6 17) 2016 6 q t.

(** Two sales in one suburb, the first without a price. *)
Definition unpriced : list feat_row :=
  [ listing "Kew" (Some "House") 3 NaN "2016Q2";
    listing "Kew" (Some "House") 3 (Fin 900000) "2016Q2" ].

Definition kew_summary : GenerateInsights.SuburbRow.t :=
  GenerateInsights.SuburbRow.mk "Kew" (Fin 900000) (Fin 900000) 1 (Fin 2250)
                                (Fin 3) (Fin 5).

(** Three sales in two suburbs and two quarters; none in Northcote. *)
Definition three_sales : list feat_row :=
  [ listing "Kew" (Some "House") 4 (Fin 1200000) "2016Q2";
    listing "Reservoir" (Some "Unit") 2 (Fin 400000) "2016Q2";
    listing "Kew" (Some "Unit") 2 (Fin 600000) "2017Q3" ].

(** A store with one table. *)
Definition sales_table : FeatureEngineering.frame :=
  FeatureEngineering.mk_frame three_sales
    (<["Note" := [Fin 1; Fin 2; Fin 3]]> ∅).

(** Sales in Reservoir and in Northcote. *)
Definition north_sales : list feat_row :=
  [ listing "Reservoir" (Some "House") 3 (Fin 600000) "2016Q2";
    listing "Northcote" (Some "House") 3 (Fin 1000000) "2016Q2";
    listing "Northcote" (Some "Unit") 2 (Fin 1400000) "2017Q3" ].

Definition sales_store : FeatureEngineering.store :=
  <[1%positive := sales_table]> ∅.

(** One suburb with a house at 900,000 and a unit at 800,000: the premium
    of houses over units is 12.5 percent. *)
Definition house_and_unit : list feat_row :=
  [ listing "Kew" (Some "House") 3 (Fin 900000) "2016Q2";
    listing "Kew" (Some "Unit") 2 (Fin 800000) "2016Q2";
    listing "Reservoir" (Some "House") 3 (Fin 600000) "2016Q2" ].

(** Two houses in one suburb, of three and of four rooms, and a unit. *)
Definition bedroom_sales : list feat_row :=
  [ listing "Kew" (Some "House") 3 (Fin 800000) "2016Q2";
    listing "Kew" (Some "House") 4 (Fin 1000000) "2016Q2";
    listing "Kew" (Some "Unit") 4 (Fin 500000) "2016Q2" ].

(** Two quarters; the median price of the first, 1,000,001.5, is not a
    whole number. *)
Definition half_dollar_sales : list feat_row :=
  [ listing "Kew" (Some "House") 3 (Fin 1000001) "2016Q2";
    listing "Kew" (Some "House") 3 (Fin 1000002) "2016Q2";
    listing "Kew" (Some "House") 3 (Fin 2000000) "2016Q3" ].

(** One sale in Northcote and none in Reservoir. *)
Definition northcote_only : list feat_row :=
  [ listing "Northcote" (Some "House") 3 (Fin 1000000) "2016Q2" ].

(** A sale in Northcote, and a sale in Reservoir without a price. *)
Definition reservoir_unpriced : list feat_row :=
  [ listing "Reservoir" (Some "House") 3 NaN "2016Q2";
    listing "Northcote" (Some "House") 3 (Fin 1000000) "2016Q2" ].

End Samples.

(** * Properties *)

Import Data Spec.

(** ** Text normalisation *)

Section TitleCase.
Import PyStr.

Lemma is_space_title_char (b : bool) (c : ascii) :
  is_space (title_char b c) = is_space c.
Proof. destruct b, c as [[] [] [] [] [] [] [] []]; reflexivity. Qed.

Lemma is_cased_title_char (b : bool) (c : ascii) :
  is_cased (title_char b c) = is_cased c.
Proof. destruct b, c as [[] [] [] [] [] [] [] []]; reflexivity. Qed.

Lemma title_char_idem (b : bool) (c : ascii) :
  title_char b (title_char b c) = title_char b c.
Proof. destruct b, c as [[] [] [] [] [] [] [] []]; reflexivity. Qed.

Lemma title_from_cons (b : bool) (c : ascii) (s : string) :
  title_from b (String c s) = String (title_char b c) (title_from (is_cased c) s).
Proof. reflexivity. Qed.

Lemma title_from_idem (s : string) :
  forall b, title_from b (title_from b s) = title_from b s.
Proof.
  induction s as [|c s IH]; intro b; [reflexivity|].
  rewrite !title_from_cons, title_char_idem, is_cased_title_char, IH.
  reflexivity.
Qed.

Lemma rstrip_title_from (s : string) :
  forall b, rstrip (title_from b s) = title_from b (rstrip s).
Proof.
  induction s as [|c s IH]; intro b; [reflexivity|].
  rewrite title_from_cons. cbn [rstrip]. rewrite IH.
  destruct (rstrip s) as [|a r].
  - cbn [title_from]. rewrite is_space_title_char.
    destruct (is_space c); reflexivity.
  - rewrite (title_from_cons (is_cased c)). rewrite !title_from_cons.
    reflexivity.
Qed.

Lemma rstrip_idem (s : string) : rstrip (rstrip s) = rstrip s.
Proof.
  induction s as [|c s IH]; [reflexivity|].
  cbn [rstrip]. destruct (rstrip s) as [|a r] eqn:E.
  - destruct (is_space c) eqn:Hc; [reflexivity|].
    cbn [rstrip]. rewrite Hc. reflexivity.
  - change (rstrip (String c (String a r))) with
      (match rstrip (String a r) with
       | EmptyString =>
           if is_space c then EmptyString else String c EmptyString
       | r' => String c r'
       end).
    rewrite IH. reflexivity.
Qed.

Lemma lstrip_clean (s : string) : starts_clean s -> lstrip s = s.
Proof. destruct s as [|c s]; [reflexivity|]. cbn. intros ->. reflexivity. Qed.

Lemma lstrip_starts_clean (s : string) : starts_clean (lstrip s).
Proof.
  induction s as [|c s IH]; [exact I|].
  cbn [lstrip]. destruct (is_space c) eqn:Hc; [exact IH | exact Hc].
Qed.

Lemma rstrip_starts_clean (s : string) :
  starts_clean s -> starts_clean (rstrip s).
Proof.
  destruct s as [|c s]; [intros; exact I|].
  cbn [starts_clean rstrip]. intros Hc.
  destruct (rstrip s); rewrite ?Hc; exact Hc.
Qed.

Lemma title_from_starts_clean (b : bool) (s : string) :
  starts_clean s -> starts_clean (title_from b s).
Proof.
  destruct s as [|c s]; [intros; exact I|].
  rewrite title_from_cons. cbn [starts_clean].
  fold (title_char b c). rewrite is_space_title_char. tauto.
Qed.

Lemma strip_title_strip (s : string) :
  strip (title (strip s)) = title (strip s).
Proof.
  unfold strip, title.
  rewrite lstrip_clean.
  - rewrite rstrip_title_from, rstrip_idem. reflexivity.
  - apply title_from_starts_clean, rstrip_starts_clean, lstrip_starts_clean.
Qed.

End TitleCase.

(** Standardising a suburb name twice is standardising it once. *)
Lemma standardize_idem (s : string) :
  DataCleaning.standardize (DataCleaning.standardize s)
  = DataCleaning.standardize s.
Proof.
  unfold DataCleaning.standardize.
  rewrite strip_title_strip. apply title_from_idem.
Qed.

(** ** Cleaning *)

Lemma fleb_zero_false (q : Q) : fleb (Fin q) (Fin 0) = false -> (0 < q)%Q.
Proof.
  cbn [fleb]. intros H.
  destruct (Qlt_le_dec 0 q) as [Hlt|Hle]; [exact Hlt|].
  apply Qle_bool_iff in Hle. congruence.
Qed.

Lemma fgtb_ceiling_false (q c : Q) : fgtb (Fin q) (Fin c) = false -> (q <= c)%Q.
Proof.
  unfold fgtb. cbn [fltb fleb]. intros H.
  apply negb_false_iff in H. apply Qle_bool_iff. exact H.
Qed.

(** The two tests of the filter, read as one condition on the land size:
    a row passes both when its land size is missing or is positive and at
    most 50,000; an infinite land size fails one of them. *)
Lemma landsize_tests (r : raw_row) :
  DataCleaning.invalid_landsize r = false
  /\ DataCleaning.extreme_landsize r = false
  <-> landsize_kept (Landsize r).
Proof.
  unfold DataCleaning.invalid_landsize, DataCleaning.extreme_landsize,
    landsize_kept.
  destruct (Landsize r) as [q| | |].
  - split.
    + intros (Hi & He). right. exists q. split; [reflexivity|]. split.
      * apply fleb_zero_false. exact Hi.
      * apply fgtb_ceiling_false. exact He.
    + intros [H|(q' & E & H0 & H1)]; [discriminate|]. injection E as <-.
      split.
      * cbn [fleb]. apply not_true_iff_false. intros H.
        apply Qle_bool_iff in H. exact (Qlt_not_le _ _ H0 H).
      * unfold fgtb. cbn [fltb fleb]. apply negb_false_iff.
        apply Qle_bool_iff. exact H1.
  - split; [intros (_ & H); discriminate H|].
    intros [H|(q & H & _)]; discriminate H.
  - split; [intros (H & _); discriminate H|].
    intros [H|(q & H & _)]; discriminate H.
  - split; [intros _; left; reflexivity|intros _; split; reflexivity].
Qed.

(** Every row of the cleaned table is a row of the input, normalised, that
    passes the two tests. *)
Lemma clean_row_facts (df : list raw_row) (r : raw_row) :
  In r (fst (DataCleaning.clean_data df)) ->
  exists r0,
    In r0 df
    /\ r = normalised r0
    /\ DataCleaning.invalid_landsize r = false
    /\ DataCleaning.extreme_landsize r = false.
Proof.
  unfold DataCleaning.clean_data. cbn [fst].
  intros H. apply in_map_iff in H as (r1 & <- & H).
  apply filter_In in H as (H & Hkeep).
  apply in_map_iff in H as (r0 & <- & H).
  apply negb_true_iff, orb_false_iff in Hkeep as (Hinv & Hext).
  exists r0. repeat split; assumption.
Qed.

(** Every row of the input that passes the two tests is in the cleaned
    table, normalised. *)
Lemma clean_row_kept (df : list raw_row) (r0 : raw_row) :
  In r0 df -> landsize_kept (Landsize r0) ->
  In (normalised r0) (fst (DataCleaning.clean_data df)).
Proof.
  intros H Hk. unfold DataCleaning.clean_data. cbn [fst].
  apply in_map_iff.
  exists (DataCleaning.set_Suburb
            (DataCleaning.standardize_cell (Suburb r0)) r0).
  split; [reflexivity|]. apply filter_In. split.
  - apply in_map_iff. exists r0. split; [reflexivity | exact H].
  - apply landsize_tests in Hk as (Hi & He).
    apply negb_true_iff, orb_false_iff. split; assumption.
Qed.

(** C2, amended.  Every row of the cleaned table is a row of the input,
    normalised, and either has no land size or has one that is positive
    and at most 50,000; when the suburb name it comes from is written in
    ASCII, its suburb name is already in standard form (trimmed, in title
    case), and when that name is missing it stays missing.  Conversely,
    every row of the input whose land size is missing, or is positive and
    at most 50,000, stays in the cleaned table. *)
Theorem C2_clean_data_invariant (df : list raw_row) :
  let out := fst (DataCleaning.clean_data df) in
  (forall r, In r out ->
     landsize_kept (Landsize r)
     /\ exists r0,
          In r0 df /\ r = normalised r0
          /\ (Suburb r0 = None -> Suburb r = None)
          /\ (forall s0, Suburb r0 = Some s0 -> PyStr.is_ascii s0 = true ->
                exists s, Suburb r = Some s
                          /\ DataCleaning.standardize s = s))
  /\ (forall r0, In r0 df -> landsize_kept (Landsize r0) ->
        In (normalised r0) out).
Proof.
  intros out. split.
  - intros r H. apply clean_row_facts in H as (r0 & H0 & Hr & Hinv & Hext).
    split; [apply landsize_tests; split; assumption|].
    exists r0. split; [exact H0|]. split; [exact Hr|]. rewrite Hr.
    cbn [normalised Suburb]. split.
    + intros ->. reflexivity.
    + intros s0 -> _. exists (DataCleaning.standardize s0).
      split; [reflexivity | apply standardize_idem].
  - intros r0 H0 Hk. apply clean_row_kept; assumption.
Qed.

Lemma C2_clean_data_invariant_witness :
  In Samples.cleaned_unknown_lot (fst (DataCleaning.clean_data Samples.raw_lots))
  /\ landsize_kept (Landsize Samples.cleaned_lot)
  /\ exists r0, In r0 Samples.raw_lots /\ Samples.cleaned_lot = normalised r0.
Proof.
  pose proof (C2_clean_data_invariant Samples.raw_lots) as (Hout & Hin).
  split; [|split].
  - apply (Hin (Samples.lot "  reservoir " NaN)).
    + left. reflexivity.
    + left. reflexivity.
  - apply (Hout Samples.cleaned_lot). vm_compute. right. left. reflexivity.
  - destruct (Hout Samples.cleaned_lot) as (_ & r0 & H0 & Hr & _).
    + vm_compute. right. left. reflexivity.
    + exists r0. split; assumption.
Defined.

(** C2 as stated fails: a row without a land size passes both tests of the
    filter and stays in the cleaned table, where its land size is not
    greater than zero. *)
Lemma C2_counterexample :
  ~ (forall r, In r (fst (DataCleaning.clean_data Samples.raw_lots)) ->
               fgtb (Landsize r) (Fin 0) = true
               /\ fleb (Landsize r) (Fin 50000) = true).
Proof.
  intros H.
  destruct (H Samples.cleaned_unknown_lot) as [H0 _].
  - vm_compute. left. reflexivity.
  - vm_compute in H0. discriminate.
Qed.

(** ** Features *)

Lemma rmap_lookup {A B : Type} (f : A -> result B) (l : list A) :
  forall (l' : list B) (i : nat) (x : A),
    rmap f l = Ok l' -> l !! i = Some x ->
    exists y, l' !! i = Some y /\ f x = Ok y.
Proof.
  induction l as [|a l IH]; intros l' i x Hm Hi; [discriminate|].
  cbn [rmap rbind] in Hm.
  destruct (f a) as [b|e] eqn:Hfa; [|discriminate].
  cbn [rbind] in Hm.
  destruct (rmap f l) as [bs|e] eqn:Hl; [|discriminate].
  cbn [rbind] in Hm. injection Hm as <-.
  destruct i as [|i].
  - injection Hi as <-. exists b. split; [reflexivity | exact Hfa].
  - exact (IH bs i x eq_refl Hi).
Qed.

Lemma rmap_total {A B : Type} (f : A -> result B) (l : list A) :
  (forall x, In x l -> exists y, f x = Ok y) -> exists l', rmap f l = Ok l'.
Proof.
  induction l as [|a l IH]; intros H; [exists []; reflexivity|].
  destruct (H a (or_introl eq_refl)) as [b Hb].
  destruct IH as [bs Hbs]; [intros x Hx; apply H; right; exact Hx|].
  exists (b :: bs). cbn [rmap rbind]. rewrite Hb. cbn [rbind].
  rewrite Hbs. reflexivity.
Qed.

(** The quarter computed for a period is the month over three, rounded
    up. *)
Lemma quarter_of_month_ceiling (m : Z) :
  Dates.quarter_of_month m = quarter_number m.
Proof.
  unfold Dates.quarter_of_month, quarter_number, Qceiling, Qfloor.
  cbn. rewrite Z.mul_1_r. change (Z.pos (1 * 3)) with 3%Z.
  pose proof (Z.div_mod (m - 1) 3 ltac:(lia)).
  pose proof (Z.mod_pos_bound (m - 1) 3 ltac:(lia)).
  pose proof (Z.div_mod (- m) 3 ltac:(lia)).
  pose proof (Z.mod_pos_bound (- m) 3 ltac:(lia)).
  lia.
Qed.

Lemma add_features_row_quarter (r : raw_row) (d : Dates.date) :
  Dates.parse_date (Date r) = Some d ->
  exists r',
    FeatureEngineering.add_features_row r = Ok r'
    /\ base r' = r
    /\ Quarter r'
       = pretty (Dates.year d) +:+ "Q"
         +:+ pretty (quarter_number (Dates.month d)).
Proof.
  intros Hd. unfold FeatureEngineering.add_features_row. rewrite Hd.
  eexists. split; [reflexivity|]. split; [reflexivity|].
  cbn [Quarter]. unfold Dates.quarter_label.
  rewrite quarter_of_month_ceiling. reflexivity.
Qed.

(** Every date in the format gives a featured table. *)
Lemma add_features_total (df : list raw_row) :
  (forall r, In r df -> exists d, Dates.parse_date (Date r) = Some d) ->
  exists df', FeatureEngineering.add_features df = Ok df'.
Proof.
  intros H. apply rmap_total. intros r Hr.
  destruct (H r Hr) as [d Hd].
  destruct (add_features_row_quarter r d Hd) as (r' & Hr' & _).
  exists r'. exact Hr'.
Qed.

(** C7.  In the featured table, the quarter of a row whose date reads as
    day [d] of the format is the year, the letter Q, and the month over
    three rounded up. *)
Theorem C7_quarter_label
  (df : list raw_row) (df' : list feat_row) (i : nat) (r : raw_row)
  (d : Dates.date) :
  FeatureEngineering.add_features df = Ok df' ->
  df !! i = Some r ->
  Dates.parse_date (Date r) = Some d ->
  exists r',
    df' !! i = Some r'
    /\ base r' = r
    /\ Quarter r'
       = pretty (Dates.year d) +:+ "Q"
         +:+ pretty (quarter_number (Dates.month d)).
Proof.
  intros Hdf Hi Hd.
  destruct (rmap_lookup _ _ _ _ _ Hdf Hi) as (r' & Hi' & Hr').
  destruct (add_features_row_quarter r d Hd) as (r'' & Hr'' & Hb & Hq).
  rewrite Hr' in Hr''. injection Hr'' as ->.
  exists r''. repeat split; assumption.
Qed.

Lemma C7_quarter_label_witness :
  exists r',
    Samples.featured_sales !! 1%nat = Some r'
    /\ base r' = Samples.sale_june
    /\ Quarter r' = "2016Q2".
Proof.
  exact (C7_quarter_label Samples.cleaned_sales Samples.featured_sales 1
           Samples.sale_june (Dates.mkdate 2016 6 17)
           eq_refl eq_refl eq_refl).
Defined.

(** ** Keys and sorted tables *)

Section KeyFacts.
Context {K : Type} (eqb leb : K -> K -> bool).
Hypothesis eqb_eq : forall a b, eqb a b = true <-> a = b.

Lemma insert_key_In (k x : K) (l : list K) :
  In k (insert_key eqb leb x l) <-> k = x \/ In k l.
Proof.
  induction l as [|y t IH]; cbn [insert_key].
  - cbn. intuition.
  - destruct (eqb x y) eqn:E.
    + apply eqb_eq in E as ->. cbn. intuition.
    + destruct (leb x y); cbn [In]; [intuition|].
      rewrite IH. intuition.
Qed.

Lemma sorted_keys_In (k : K) (l : list K) :
  In k (sorted_keys eqb leb l) <-> In k l.
Proof.
  induction l as [|x t IH]; [reflexivity|].
  cbn [sorted_keys fold_right]. rewrite insert_key_In.
  fold (sorted_keys eqb leb t). rewrite IH. cbn. intuition.
Qed.

Lemma mem_key_In (k : K) (l : list K) :
  mem_key eqb k l = true <-> In k l.
Proof using eqb_eq.
  induction l as [|y t IH]; cbn [mem_key In];
    [split; [discriminate|intros []]|].
  rewrite orb_true_iff, IH, eqb_eq.
  split; (intros [E|E]; [left; symmetry; exact E|right; exact E]).
Qed.

End KeyFacts.

Section SortFacts.
Context {A : Type} (by_col : A -> fval).

Lemma insert_desc_In (x y : A) (l : list A) :
  In y (insert_desc by_col x l) <-> y = x \/ In y l.
Proof.
  induction l as [|z t IH]; cbn [insert_desc].
  - cbn. intuition.
  - destruct (fltb (by_col x) (by_col z)); cbn [In]; [|intuition].
    rewrite IH. intuition.
Qed.

Lemma sort_desc_In (y : A) (l : list A) :
  In y (sort_desc by_col l) <-> In y l.
Proof.
  induction l as [|x t IH]; [reflexivity|].
  cbn [sort_desc fold_right]. rewrite insert_desc_In.
  fold (sort_desc by_col t). rewrite IH. cbn. intuition.
Qed.

Lemma sort_values_desc_In (y : A) (l : list A) :
  In y (sort_values_desc by_col l) <-> In y l.
Proof.
  unfold sort_values_desc.
  rewrite in_app_iff, sort_desc_In, !filter_In. unfold notna.
  destruct (isna (by_col y)); cbn; intuition discriminate.
Qed.

End SortFacts.

Lemma In_omap {A B : Type} (f : A -> option B) (l : list A) (y : B) :
  In y (omap f l) <-> exists x, In x l /\ f x = Some y.
Proof.
  induction l as [|a l IH]; cbn [omap list_omap In].
  - split; [intros []|intros (x & [] & _)].
  - destruct (f a) as [b|] eqn:E; cbn [In]; rewrite IH; split.
    + intros [<-|(x & Hx & Hf)]; [exists a|exists x]; auto.
    + intros (x & [<-|Hx] & Hf); [left; congruence|right; exists x; auto].
    + intros (x & Hx & Hf). exists x. auto.
    + intros (x & [<-|Hx] & Hf); [congruence|exists x; auto].
Qed.

(** The keys that are present in a column. *)
Lemma In_present {A : Type} (key : A -> option string) (df : list A)
  (k : string) :
  In k (omap key df) <-> In (Some k) (List.map key df).
Proof.
  rewrite In_omap, in_map_iff. split; intros (x & H1 & H2); exists x; auto.
Qed.

Lemma In_present_id (col : list (option string)) (k : string) :
  In k (omap id col) <-> In (Some k) col.
Proof. rewrite In_present, List.map_id. reflexivity. Qed.

Lemma omap_Some {A B : Type} (f : A -> B) (l : list A) :
  omap (fun x => Some (f x)) l = List.map f l.
Proof.
  induction l as [|a l IH]; [reflexivity|].
  cbn [omap list_omap List.map]. rewrite <- IH. reflexivity.
Qed.

Lemma groupby_In {A : Type} (key : A -> option string) (df : list A)
  (g : string * list A) :
  In g (groupby key df) ->
  snd g = group key df (fst g) /\ In (Some (fst g)) (List.map key df).
Proof.
  unfold groupby. intros H. apply in_map_iff in H as (k & <- & Hk).
  split; [reflexivity|]. apply In_present.
  exact (proj1 (sorted_keys_In String.eqb String.leb String.eqb_eq k _) Hk).
Qed.

Lemma groupby_key_In {A : Type} (key : A -> option string) (df : list A)
  (k : string) :
  In (Some k) (List.map key df) -> In (k, group key df k) (groupby key df).
Proof.
  intros Hk. unfold groupby. apply in_map_iff. exists k.
  split; [reflexivity|]. apply In_present in Hk.
  exact (proj2 (sorted_keys_In String.eqb String.leb String.eqb_eq k _) Hk).
Qed.

Lemma quarter_present (df : list feat_row) (q : string) :
  In (Some q) (List.map quarter df) <-> In q (List.map Quarter df).
Proof.
  rewrite !in_map_iff. unfold quarter.
  split; intros (r & E & Hr); exists r; (split; [congruence | exact Hr]).
Qed.

Lemma filter_none {A : Type} (p : A -> bool) (l : list A) :
  (forall x, In x l -> p x = false) -> List.filter p l = [].
Proof.
  induction l as [|x t IH]; intros H; [reflexivity|].
  cbn [List.filter]. rewrite (H x (or_introl eq_refl)).
  apply IH. intros y Hy. apply H. right. exact Hy.
Qed.

Lemma filter_some {A : Type} (p : A -> bool) (l : list A) (x : A) :
  In x l -> p x = true -> List.filter p l <> [].
Proof.
  intros Hx Hp E.
  assert (H : In x (List.filter p l)) by (apply filter_In; auto).
  rewrite E in H. exact H.
Qed.

Lemma count_map {A : Type} (f : A -> fval) (l : list A) :
  count (List.map f l) = length (List.filter (fun r => notna (f r)) l).
Proof.
  unfold count, dropna.
  induction l as [|x t IH]; [reflexivity|].
  cbn [List.map List.filter]. destruct (notna (f x)); cbn [length]; lia.
Qed.

Lemma filter_all {A : Type} (p : A -> bool) (l : list A) :
  (forall x, In x l -> p x = true) -> List.filter p l = l.
Proof.
  induction l as [|x t IH]; intros H; [reflexivity|].
  cbn [List.filter]. rewrite (H x (or_introl eq_refl)).
  f_equal. apply IH. intros y Hy. apply H. right. exact Hy.
Qed.

(** ** Summary by suburb *)

Lemma suburb_comparison_rows (df : list feat_row)
  (row : GenerateInsights.SuburbRow.t) :
  In row (GenerateInsights.suburb_comparison df) ->
  In (Some (GenerateInsights.SuburbRow.Suburb row)) (List.map suburb df)
  /\ GenerateInsights.SuburbRow.Transaction_Count row
     = count (List.map price
                (records_of df (GenerateInsights.SuburbRow.Suburb row))).
Proof.
  unfold GenerateInsights.suburb_comparison. intros H.
  apply sort_values_desc_In in H.
  apply in_map_iff in H as (g & <- & Hg).
  apply groupby_In in Hg as (Hs & Hk).
  cbn [GenerateInsights.SuburbRow.Suburb
       GenerateInsights.SuburbRow.Transaction_Count].
  rewrite Hs. split; [exact Hk | reflexivity].
Qed.

(** C9, amended.  The count of a suburb in the summary is the number of
    its rows that have a price; when none of its rows lacks a price, it is
    the number of its rows. *)
Theorem C9_transaction_count (df : list feat_row)
  (row : GenerateInsights.SuburbRow.t) :
  In row (GenerateInsights.suburb_comparison df) ->
  let s := GenerateInsights.SuburbRow.Suburb row in
  GenerateInsights.SuburbRow.Transaction_Count row
  = length (List.filter (fun r => notna (price r)) (records_of df s))
  /\ ((forall r, In r (records_of df s) -> price r <> NaN) ->
      GenerateInsights.SuburbRow.Transaction_Count row
      = length (records_of df s)).
Proof.
  intros H s. apply suburb_comparison_rows in H as (_ & Hc).
  fold s in Hc. rewrite count_map in Hc. split; [exact Hc|].
  intros Hp. rewrite Hc. f_equal. apply filter_all.
  intros r Hr. specialize (Hp r Hr).
  destruct (price r); try reflexivity. congruence.
Qed.

Lemma C9_transaction_count_witness :
  In Samples.kew_summary (GenerateInsights.suburb_comparison Samples.unpriced)
  /\ GenerateInsights.SuburbRow.Transaction_Count Samples.kew_summary
     = length (List.filter (fun r => notna (price r))
                 (records_of Samples.unpriced "Kew")).
Proof.
  assert (H : In Samples.kew_summary
                 (GenerateInsights.suburb_comparison Samples.unpriced)).
  { vm_compute. left. reflexivity. }
  split; [exact H|].
  exact (proj1 (C9_transaction_count Samples.unpriced Samples.kew_summary H)).
Defined.

(** C9 as stated fails: a row without a price is a record of its suburb
    but is not counted. *)
Lemma C9_counterexample :
  In Samples.kew_summary (GenerateInsights.suburb_comparison Samples.unpriced)
  /\ GenerateInsights.SuburbRow.Transaction_Count Samples.kew_summary = 1%nat
  /\ length (records_of Samples.unpriced "Kew") = 2%nat.
Proof.
  split; [vm_compute; left; reflexivity|]. split; reflexivity.
Qed.

(** ** Summary by quarter and the market trend *)

Lemma quarterly_trends_rows (df : list feat_row)
  (row : GenerateInsights.QuarterRow.t) :
  In row (GenerateInsights.quarterly_trends df) ->
  In (GenerateInsights.QuarterRow.Quarter row) (List.map Quarter df)
  /\ GenerateInsights.QuarterRow.Median_Price row
     = fround (median (List.map price
                         (records_of_quarter df
                            (GenerateInsights.QuarterRow.Quarter row)))).
Proof.
  unfold GenerateInsights.quarterly_trends. intros H.
  apply in_map_iff in H as (g & <- & Hg).
  apply groupby_In in Hg as (Hs & Hk). apply quarter_present in Hk.
  cbn [GenerateInsights.QuarterRow.Quarter
       GenerateInsights.QuarterRow.Median_Price].
  rewrite Hs. split; [exact Hk | reflexivity].
Qed.

Lemma median_of_quarter_absent (df : list feat_row) (q : string) :
  ~ In q (List.map Quarter df) ->
  GenerateInsights.median_of_quarter (GenerateInsights.quarterly_trends df) q
  = Err IndexError.
Proof.
  intros Hq. unfold GenerateInsights.median_of_quarter.
  rewrite filter_none; [reflexivity|].
  intros row Hrow. apply quarterly_trends_rows in Hrow as (Hin & _).
  destruct (String.eqb (GenerateInsights.QuarterRow.Quarter row) q) eqn:E;
    [|reflexivity].
  apply String.eqb_eq in E. subst q. contradiction.
Qed.

Lemma median_of_quarter_present (df : list feat_row) (q : string) :
  In q (List.map Quarter df) ->
  exists m,
    GenerateInsights.median_of_quarter (GenerateInsights.quarterly_trends df) q
    = Ok m.
Proof.
  intros Hq. unfold GenerateInsights.median_of_quarter.
  destruct (List.filter _ (GenerateInsights.quarterly_trends df))
    as [|row rest] eqn:E.
  - exfalso. revert E.
    apply (filter_some _ _
             (GenerateInsights.QuarterRow.mk q
                (fround (median (List.map price (group quarter df q))))
                (fround (mean (List.map price (group quarter df q))))
                (count (List.map price (group quarter df q)))
                (fround (median (List.map Price_per_sqm (group quarter df q)))))).
    + unfold GenerateInsights.quarterly_trends. apply in_map_iff.
      exists (q, group quarter df q). split; [reflexivity|].
      apply groupby_key_In, quarter_present. exact Hq.
    + cbn. apply String.eqb_refl.
  - eexists. reflexivity.
Qed.

Lemma median_of_quarter_error (l : list GenerateInsights.QuarterRow.t)
  (q : string) (e : error) :
  GenerateInsights.median_of_quarter l q = Err e -> e = IndexError.
Proof.
  unfold GenerateInsights.median_of_quarter, GenerateInsights.values0.
  destruct (List.map _ _); congruence.
Qed.

(** With both quarters in the data the trend is computed. *)
Lemma market_trend_defined (df : list feat_row) :
  In "2016Q2" (List.map Quarter df) -> In "2017Q3" (List.map Quarter df) ->
  exists t, GenerateInsights.market_trend df = Ok t.
Proof.
  intros H2 H3. unfold GenerateInsights.market_trend.
  destruct (median_of_quarter_present df _ H2) as [q2 ->].
  destruct (median_of_quarter_present df _ H3) as [q3 ->].
  eexists. reflexivity.
Qed.

(** C6.  When one of the two quarters named by the market trend is not in
    the data, the computation stops with an index error, and so does
    [main]: no value stands in for the missing quarter. *)
Theorem C6_missing_bucket (df : list feat_row) :
  ~ In "2016Q2" (List.map Quarter df) \/ ~ In "2017Q3" (List.map Quarter df) ->
  GenerateInsights.market_trend df = Err IndexError
  /\ forall r, GenerateInsights.main df <> Ok r.
Proof.
  intros H.
  assert (Hm : GenerateInsights.market_trend df = Err IndexError).
  { unfold GenerateInsights.market_trend. destruct H as [H|H].
    - rewrite (median_of_quarter_absent df _ H). reflexivity.
    - destruct (GenerateInsights.median_of_quarter _ "2016Q2") as [q2|e] eqn:E.
      + cbn [rbind]. rewrite (median_of_quarter_absent df _ H). reflexivity.
      + apply median_of_quarter_error in E. subst e. reflexivity. }
  split; [exact Hm|].
  intros r. unfold GenerateInsights.main.
  destruct (GenerateInsights.value_suburb_gaps df); cbn [rbind];
    [|discriminate].
  destruct (GenerateInsights.property_type_premium df); cbn [rbind];
    [|discriminate].
  rewrite Hm. discriminate.
Qed.

Lemma C6_missing_bucket_witness :
  GenerateInsights.market_trend Samples.featured_sales = Err IndexError
  /\ forall r, GenerateInsights.main Samples.featured_sales <> Ok r.
Proof.
  apply (C6_missing_bucket Samples.featured_sales).
  right. vm_compute. intros [H|[H|[H|[]]]]; discriminate H.
Defined.

(** ** The outlier annotation *)

Lemma series_get_keys (F : string -> fval) (keys : list string) (k : string) :
  In k keys ->
  series_get (List.map (fun k' => (k', F k')) keys) k = Some (F k).
Proof.
  induction keys as [|k0 keys IH]; intros Hk; [destruct Hk|].
  cbn [List.map series_get].
  destruct (String.eqb k0 k) eqn:E.
  - apply String.eqb_eq in E. subst k0. reflexivity.
  - destruct Hk as [->|Hk]; [rewrite String.eqb_refl in E; discriminate|].
    exact (IH Hk).
Qed.

(** The median looked up for a suburb of the table is the median price of
    the rows of that suburb. *)
Lemma suburb_medians_lookup (df : list feat_row) (s : string) :
  In (Some s) (List.map suburb df) ->
  series_map (FeatureEngineering.suburb_medians df) s
  = median (List.map price (records_of df s)).
Proof.
  intros Hs. unfold series_map, FeatureEngineering.suburb_medians, groupby.
  rewrite List.map_map. cbn [fst snd].
  rewrite (series_get_keys
             (fun k => median (List.map price (group suburb df k)))).
  - reflexivity.
  - apply In_present in Hs.
    exact (proj2 (sorted_keys_In String.eqb String.leb String.eqb_eq s _) Hs).
Qed.

Lemma map_ext_In' {A B : Type} (f g : A -> B) (l : list A) :
  (forall x, In x l -> f x = g x) -> List.map f l = List.map g l.
Proof.
  induction l as [|x t IH]; intros H; [reflexivity|].
  cbn [List.map]. rewrite (H x (or_introl eq_refl)). f_equal.
  apply IH. intros y Hy. apply H. right. exact Hy.
Qed.

Lemma median_column_code (rs : list feat_row) :
  List.map (fun r => column_map (FeatureEngineering.suburb_medians rs)
                                (suburb r)) rs
  = median_column rs.
Proof.
  apply map_ext_In'. intros r Hr. unfold column_map, suburb_median.
  destruct (suburb r) as [s|] eqn:E; [|reflexivity].
  apply suburb_medians_lookup. rewrite <- E. apply in_map. exact Hr.
Qed.

Lemma zip_with_map_map {A B C D : Type} (h : B -> C -> D) (f : A -> B)
  (g : A -> C) (l : list A) :
  zip_with h (List.map f l) (List.map g l) = List.map (fun x => h (f x) (g x)) l.
Proof. induction l as [|x t IH]; [reflexivity|]. cbn. rewrite IH. reflexivity. Qed.

Lemma deviation_column_code (rs : list feat_row) :
  zip_with (fun p sm => fdiv (fsub p sm) sm) (List.map price rs)
           (median_column rs)
  = deviation_column rs.
Proof.
  exact (zip_with_map_map (fun p sm => fdiv (fsub p sm) sm) price
           (suburb_median rs) rs).
Qed.

Section StoreSteps.
Import FeatureEngineering.

Lemma bind_run {A B : Type} (m : M A) (k : A -> M B) (h h' : store) (a : A) :
  m h = Some (a, h') -> bind m k h = k a h'.
Proof. unfold bind. intros ->. reflexivity. Qed.

Lemma copy_run (h : store) (l : ref) (f : frame) :
  h !! l = Some f ->
  copy l h = Some (fresh (dom h), <[fresh (dom h) := f]> h).
Proof. unfold copy. intros ->. reflexivity. Qed.

Lemma read_run (h : store) (l : ref) (f : frame) :
  h !! l = Some f -> read l h = Some (f, h).
Proof. unfold read. intros ->. reflexivity. Qed.

Lemma setitem_run (h : store) (l : ref) (f : frame) (c : string)
  (v : list fval) :
  h !! l = Some f ->
  setitem l c v h
  = Some (tt, <[l := mk_frame (rows f) (<[c := v]> (extra f))]> h).
Proof. unfold setitem. intros ->. reflexivity. Qed.

Lemma getitem_run (h : store) (l : ref) (f : frame) (c : string)
  (v : list fval) :
  h !! l = Some f -> extra f !! c = Some v -> getitem l c h = Some (v, h).
Proof. unfold getitem. intros -> ->. reflexivity. Qed.

End StoreSteps.

(** The run of [add_outlier_detection] on a table of the store: a new
    object is allocated and holds the rows with the two columns; nothing
    else is written. *)
Lemma add_outlier_detection_run (h : FeatureEngineering.store)
  (l : FeatureEngineering.ref) (f : FeatureEngineering.frame) :
  h !! l = Some f ->
  FeatureEngineering.add_outlier_detection l h
  = Some (fresh (dom h), <[fresh (dom h) := annotated f]> h).
Proof.
  intros Hl. unfold FeatureEngineering.add_outlier_detection.
  set (l' := fresh (dom h)).
  rewrite (bind_run _ _ _ _ _ (copy_run h l f Hl)). fold l'.
  rewrite (bind_run _ _ _ _ _
             (read_run _ l' f (lookup_insert_eq h l' f))).
  rewrite (bind_run _ _ _ _ _
             (setitem_run _ l' f _ _ (lookup_insert_eq h l' f))).
  rewrite insert_insert_eq.
  rewrite (bind_run _ _ _ _ _ (read_run _ l' _ (lookup_insert_eq h l' _))).
  rewrite (bind_run _ _ _ _ _
             (getitem_run _ l' _ "Suburb_Median" _
                (lookup_insert_eq h l' _) (lookup_insert_eq _ _ _))).
  rewrite (bind_run _ _ _ _ _
             (setitem_run _ l' _ _ _ (lookup_insert_eq h l' _))).
  rewrite insert_insert_eq.
  cbn [FeatureEngineering.rows FeatureEngineering.extra].
  rewrite median_column_code, deviation_column_code.
  reflexivity.
Qed.

Lemma fresh_ref_new (h : FeatureEngineering.store)
  (l : FeatureEngineering.ref) (f : FeatureEngineering.frame) :
  h !! l = Some f -> fresh (dom h) <> l.
Proof.
  intros Hl E. pose proof (is_fresh (dom h)) as Hf. rewrite E in Hf.
  apply Hf, elem_of_dom. exists f. exact Hl.
Qed.

(** C10.  The annotation returns a new table with the rows of its input,
    in their order, and the columns of its input unchanged, to which the
    columns Suburb_Median and Price_Deviation are added; the input table,
    like every other table of the store, is left as it was. *)
Theorem C10_annotation_frame (h : FeatureEngineering.store)
  (l : FeatureEngineering.ref) (f : FeatureEngineering.frame) :
  h !! l = Some f ->
  exists l' h' f',
    FeatureEngineering.add_outlier_detection l h = Some (l', h')
    /\ h' !! l' = Some f'
    /\ l' <> l
    /\ h' !! l = Some f
    /\ (forall k, k <> l' -> h' !! k = h !! k)
    /\ FeatureEngineering.rows f' = FeatureEngineering.rows f
    /\ (forall c, c <> "Suburb_Median" -> c <> "Price_Deviation" ->
                  FeatureEngineering.extra f' !! c
                  = FeatureEngineering.extra f !! c)
    /\ dom (FeatureEngineering.extra f')
       = dom (FeatureEngineering.extra f)
         ∪ {[ "Suburb_Median"; "Price_Deviation" ]}.
Proof.
  intros Hl.
  exists (fresh (dom h)), (<[fresh (dom h) := annotated f]> h), (annotated f).
  pose proof (fresh_ref_new h l f Hl) as Hne.
  split; [apply add_outlier_detection_run; exact Hl|].
  split; [apply lookup_insert_eq|].
  split; [exact Hne|].
  split; [rewrite lookup_insert_ne; [exact Hl | exact Hne]|].
  split; [intros k Hk; apply lookup_insert_ne; congruence|].
  split; [reflexivity|].
  split.
  - intros c H1 H2. unfold annotated. cbn [FeatureEngineering.extra].
    rewrite lookup_insert_ne by congruence.
    rewrite lookup_insert_ne by congruence. reflexivity.
  - unfold annotated. cbn [FeatureEngineering.extra].
    rewrite !dom_insert_L. set_solver.
Qed.

Lemma C10_annotation_frame_witness :
  exists l' h' f',
    FeatureEngineering.add_outlier_detection 1%positive Samples.sales_store
    = Some (l', h')
    /\ h' !! l' = Some f'
    /\ l' <> 1%positive
    /\ h' !! 1%positive = Some Samples.sales_table
    /\ (forall k, k <> l' -> h' !! k = Samples.sales_store !! k)
    /\ FeatureEngineering.rows f'
       = FeatureEngineering.rows Samples.sales_table
    /\ (forall c, c <> "Suburb_Median" -> c <> "Price_Deviation" ->
                  FeatureEngineering.extra f' !! c
                  = FeatureEngineering.extra Samples.sales_table !! c)
    /\ dom (FeatureEngineering.extra f')
       = dom (FeatureEngineering.extra Samples.sales_table)
         ∪ {[ "Suburb_Median"; "Price_Deviation" ]}.
Proof.
  exact (C10_annotation_frame Samples.sales_store 1%positive
           Samples.sales_table eq_refl).
Defined.

(** ** The analysis data set of [main] *)

Lemma lookup_map {A B : Type} (f : A -> B) (l : list A) :
  forall (i : nat) (x : A), l !! i = Some x -> List.map f l !! i = Some (f x).
Proof.
  induction l as [|a l IH]; intros [|i] x H; try discriminate.
  - injection H as <-. reflexivity.
  - exact (IH i x H).
Qed.

Lemma lookup_In {A : Type} (l : list A) :
  forall (i : nat) (x : A), l !! i = Some x -> In x l.
Proof.
  induction l as [|a l IH]; intros [|i] x H; try discriminate.
  - injection H as <-. left. reflexivity.
  - right. exact (IH i x H).
Qed.

Lemma In_lookup {A : Type} (l : list A) (x : A) :
  In x l -> exists i : nat, l !! i = Some x.
Proof.
  induction l as [|a l IH]; [intros []|].
  intros [H|H].
  - exists O. rewrite H. reflexivity.
  - destruct (IH H) as (i & Hi). exists (S i). exact Hi.
Qed.

Lemma analysis_dataset_run (df : list feat_row) (n : nat) :
  FeatureEngineering.analysis_dataset df n
  = Some (annotated (FeatureEngineering.mk_frame
                       (FeatureEngineering.analysis_subset df n) ∅)).
Proof.
  unfold FeatureEngineering.analysis_dataset.
  rewrite (add_outlier_detection_run _ 1%positive _
             (lookup_singleton_eq _ _)).
  apply lookup_insert_eq.
Qed.

(** Membership in a list of names, as [isin] tests it. *)
Lemma isin_In (values : list string) (c : option string) :
  isin values c = true <-> exists s, c = Some s /\ In s values.
Proof.
  destruct c as [k|]; cbn [isin].
  - rewrite (mem_key_In String.eqb String.eqb_eq). split.
    + intros H. exists k. split; [reflexivity | exact H].
    + intros (s & E & H). injection E as ->. exact H.
  - split; [discriminate|]. intros (s & E & _). discriminate E.
Qed.

Lemma cell_is_Some (s : string) (c : option string) :
  cell_is s c = true <-> c = Some s.
Proof.
  destruct c as [k|]; cbn [cell_is].
  - rewrite String.eqb_eq. split; congruence.
  - split; discriminate.
Qed.

(** The rows of a cohort suburb in the cohort subset are all the rows of
    that suburb: the cohort keeps or drops a suburb as a whole. *)
Remark cohort_keeps_suburbs_whole (df : list feat_row) (n : nat) (s : string) :
  isin (FeatureEngineering.get_top_suburbs df n) (Some s) = true ->
  records_of (FeatureEngineering.analysis_subset df n) s = records_of df s.
Proof.
  intros Hs. unfold records_of, FeatureEngineering.analysis_subset.
  cbv zeta.
  set (top := FeatureEngineering.get_top_suburbs df n) in *.
  clearbody top.
  induction df as [|x l IH]; [reflexivity|].
  cbn [List.filter].
  destruct (cell_is s (suburb x)) eqn:E.
  - pose proof (proj1 (cell_is_Some s _) E) as Ex.
    assert (Hx : isin top (suburb x) = true) by (rewrite Ex; exact Hs).
    rewrite Hx. cbn [List.filter]. rewrite E. f_equal. exact IH.
  - destruct (isin top (suburb x)); cbn [List.filter]; rewrite ?E; exact IH.
Qed.

(** C3.  The annotation of the analysis data set is computed after the
    cohort filter, on the rows that pass it: the rows of the data set are
    the rows of the featured table whose suburb is one of the cohort
    returned by [get_top_suburbs], in their order; the Suburb_Median of a
    row is the median price of the rows of its suburb among these rows,
    and its Price_Deviation is the price less that median, over that
    median. *)
Theorem C3_deviation_after_cohort (df : list feat_row) (n : nat) :
  let cohort := FeatureEngineering.get_top_suburbs df n in
  exists f sm dev,
    FeatureEngineering.analysis_dataset df n = Some f
    /\ FeatureEngineering.rows f
       = List.filter (fun r => isin cohort (suburb r)) df
    /\ (forall r, In r (FeatureEngineering.rows f)
                  <-> In r df /\ exists s, suburb r = Some s /\ In s cohort)
    /\ FeatureEngineering.extra f !! "Suburb_Median" = Some sm
    /\ FeatureEngineering.extra f !! "Price_Deviation" = Some dev
    /\ forall (i : nat) (r : feat_row),
         FeatureEngineering.rows f !! i = Some r ->
         exists s,
           suburb r = Some s
           /\ let m :=
                median
                  (List.map price (records_of (FeatureEngineering.rows f) s)) in
              sm !! i = Some m
              /\ dev !! i = Some (fdiv (fsub (price r) m) m).
Proof.
  intros cohort.
  set (sub := FeatureEngineering.analysis_subset df n).
  assert (Hsub : forall r, In r sub
                           <-> In r df
                               /\ exists s, suburb r = Some s /\ In s cohort).
  { intros r. unfold sub, FeatureEngineering.analysis_subset.
    rewrite filter_In, isin_In. reflexivity. }
  exists (annotated (FeatureEngineering.mk_frame sub ∅)),
         (median_column sub), (deviation_column sub).
  split; [apply analysis_dataset_run|].
  split; [reflexivity|].
  split; [exact Hsub|].
  split; [unfold annotated; cbn [FeatureEngineering.extra
                                   FeatureEngineering.rows];
          rewrite lookup_insert_ne by discriminate; apply lookup_insert_eq|].
  split; [apply lookup_insert_eq|].
  intros i r Hr. cbn [annotated FeatureEngineering.rows] in Hr |- *.
  destruct (proj1 (Hsub r) (lookup_In _ _ _ Hr)) as (_ & s & Es & _).
  exists s. split; [exact Es|]. cbv zeta. split.
  - unfold median_column.
    rewrite (lookup_map (suburb_median sub) _ _ _ Hr).
    unfold suburb_median. rewrite Es. reflexivity.
  - pose proof (lookup_map
                  (fun r => let m := suburb_median sub r in
                            fdiv (fsub (price r) m) m) _ _ _ Hr) as Hd.
    cbv beta zeta in Hd. unfold suburb_median at 3 4 in Hd.
    rewrite Es in Hd. exact Hd.
Qed.

(** ** Descending sorts *)

Section FloatOrder.

Lemma fltb_true (x y : fval) :
  fltb x y = true -> fleb y x = false /\ notna x = true /\ notna y = true.
Proof. destruct x, y; cbn; try discriminate; intros H;
         repeat split; try reflexivity; now apply negb_true_iff. Qed.

Lemma fleb_notna (x y : fval) :
  fleb x y = true -> notna x = true /\ notna y = true.
Proof. destruct x, y; cbn; try discriminate; intros _; split; reflexivity. Qed.

Lemma fltb_false (x y : fval) :
  notna x = true -> notna y = true -> fltb x y = false -> fleb y x = true.
Proof.
  destruct x, y; cbn; try discriminate; intros _ _ H;
    try reflexivity; now apply negb_false_iff.
Qed.

Lemma fleb_false (x y : fval) :
  notna x = true -> notna y = true -> fleb x y = false -> fltb y x = true.
Proof.
  destruct x, y; cbn; try discriminate; intros _ _ H;
    try reflexivity; now apply negb_true_iff.
Qed.

Lemma fleb_trans (x y z : fval) :
  fleb x y = true -> fleb y z = true -> fleb x z = true.
Proof.
  destruct x, y, z; cbn; try discriminate; try reflexivity.
  rewrite !Qle_bool_iff. apply Qle_trans.
Qed.

Lemma fltb_fleb_trans (x y z : fval) :
  fltb x y = true -> fleb y z = true -> fltb x z = true.
Proof.
  intros Hxy Hyz.
  destruct (fltb_true _ _ Hxy) as (Hyx & Hx & _).
  destruct (fleb_notna _ _ Hyz) as (_ & Hz).
  apply fleb_false; [exact Hz|exact Hx|].
  destruct (fleb z x) eqn:E; [|reflexivity].
  rewrite (fleb_trans _ _ _ Hyz E) in Hyx. discriminate.
Qed.

End FloatOrder.

Section StableSort.
Context {A : Type} (key : A -> fval) (before : A -> A -> Prop).

Lemma ranks_before_fleb (x y : A) :
  ranks_before key before x y -> fleb (key y) (key x) = true.
Proof.
  intros [H|(_ & H & _)]; [|exact H].
  destruct (fltb_true _ _ H) as (_ & Hy & Hx).
  apply fltb_false; try assumption.
  destruct (fltb (key x) (key y)) eqn:E; [|reflexivity].
  destruct (fltb_true _ _ E) as (E' & _).
  apply fltb_true in H as (H & _).
  destruct (key x), (key y); cbn in *; try discriminate.
  apply not_true_iff_false in H, E'. rewrite Qle_bool_iff in H, E'.
  destruct (Qlt_le_dec q q0) as [L|L]; [|contradiction].
  apply Qlt_le_weak in L. contradiction.
Qed.

Lemma insert_desc_sorted (x : A) (l : list A) :
  notna (key x) = true ->
  Forall (fun y => notna (key y) = true) l ->
  Forall (before x) l ->
  StronglySorted (ranks_before key before) l ->
  StronglySorted (ranks_before key before) (insert_desc key x l).
Proof.
  intros Hx Hl Hb Hs.
  induction l as [|y t IH]; cbn [insert_desc].
  - constructor; constructor.
  - apply Forall_cons_iff in Hl as (Hy & Ht).
    apply Forall_cons_iff in Hb as (Hxy & Hxt).
    apply StronglySorted_inv in Hs as (Hst & Hyt).
    destruct (fltb (key x) (key y)) eqn:E.
    + constructor; [exact (IH Ht Hxt Hst)|].
      apply List.Forall_forall. intros z Hz.
      apply insert_desc_In in Hz as [->|Hz].
      * left. exact E.
      * rewrite List.Forall_forall in Hyt. exact (Hyt z Hz).
    + pose proof (fltb_false _ _ Hx Hy E) as Hle.
      constructor; [constructor; assumption|].
      constructor.
      * destruct (fleb (key x) (key y)) eqn:E2.
        -- right. repeat split; assumption.
        -- left. apply fleb_false; assumption.
      * apply List.Forall_forall. intros z Hz.
        rewrite List.Forall_forall in Hyt, Hxt, Ht.
        pose proof (ranks_before_fleb _ _ (Hyt z Hz)) as Hzy.
        pose proof (fleb_trans _ _ _ Hzy Hle) as Hzx.
        destruct (fleb (key x) (key z)) eqn:E2.
        -- right. repeat split; auto.
        -- left. apply fleb_false; auto.
Qed.

Lemma sort_desc_sorted (l : list A) :
  Forall (fun y => notna (key y) = true) l ->
  StronglySorted before l ->
  StronglySorted (ranks_before key before) (sort_desc key l).
Proof.
  induction l as [|x t IH]; intros Hl Hs; [constructor|].
  cbn [sort_desc fold_right]. fold (sort_desc key t).
  apply Forall_cons_iff in Hl as (Hx & Ht).
  apply StronglySorted_inv in Hs as (Hst & Hxt).
  apply insert_desc_sorted.
  - exact Hx.
  - apply List.Forall_forall. intros y Hy. apply sort_desc_In in Hy.
    rewrite List.Forall_forall in Ht. exact (Ht y Hy).
  - apply List.Forall_forall. intros y Hy. apply sort_desc_In in Hy.
    rewrite List.Forall_forall in Hxt. exact (Hxt y Hy).
  - exact (IH Ht Hst).
Qed.

Lemma insert_desc_length (x : A) (l : list A) :
  length (insert_desc key x l) = S (length l).
Proof.
  induction l as [|y t IH]; cbn [insert_desc]; [reflexivity|].
  destruct (fltb (key x) (key y)); cbn [length]; [rewrite IH|]; reflexivity.
Qed.

Lemma sort_desc_length (l : list A) : length (sort_desc key l) = length l.
Proof.
  induction l as [|x t IH]; [reflexivity|].
  cbn [sort_desc fold_right]. fold (sort_desc key t).
  rewrite insert_desc_length, IH. reflexivity.
Qed.

End StableSort.

Lemma StronglySorted_lookup {A : Type} (R : A -> A -> Prop) (l : list A) :
  StronglySorted R l ->
  forall (i j : nat) (x y : A),
    (i < j)%nat -> l !! i = Some x -> l !! j = Some y -> R x y.
Proof.
  induction 1 as [|a l Hs IH Ha]; intros i j x y Hij Hi Hj.
  - destruct i; discriminate.
  - destruct j as [|j]; [lia|]. cbn in Hj.
    destruct i as [|i]; cbn in Hi.
    + injection Hi as <-. rewrite List.Forall_forall in Ha. apply Ha.
      exact (lookup_In _ _ _ Hj).
    + apply (IH i j); [lia|assumption..].
Qed.

Lemma StronglySorted_map {A B : Type} (R : B -> B -> Prop) (f : A -> B)
  (l : list A) :
  StronglySorted (fun a b => R (f a) (f b)) l ->
  StronglySorted R (List.map f l).
Proof.
  induction 1 as [|a l Hs IH Ha]; cbn [List.map]; constructor; [exact IH|].
  apply List.Forall_forall. intros b Hb. apply in_map_iff in Hb as (c & <- & Hc).
  rewrite List.Forall_forall in Ha. exact (Ha c Hc).
Qed.

Lemma StronglySorted_weaken {A : Type} (R S : A -> A -> Prop) (l : list A) :
  (forall x y, In x l -> In y l -> R x y -> S x y) ->
  StronglySorted R l -> StronglySorted S l.
Proof.
  intros HRS Hs. induction Hs as [|a l Hs IH Ha]; constructor.
  - apply IH. intros x y Hx Hy. apply HRS; right; assumption.
  - apply List.Forall_forall. intros y Hy. rewrite List.Forall_forall in Ha.
    apply HRS; [left; reflexivity|right; exact Hy|exact (Ha y Hy)].
Qed.

(** ** Cohort selection *)

Lemma first_index_app (k : string) (pre l : list string) :
  ~ In k pre ->
  first_index k (pre ++ l) = (length pre + first_index k l)%nat.
Proof.
  induction pre as [|x pre IH]; intros Hk; [reflexivity|].
  cbn [app first_index length].
  destruct (String.eqb x k) eqn:E.
  - apply String.eqb_eq in E. exfalso. apply Hk. left. exact E.
  - rewrite IH; [reflexivity|]. intros H. apply Hk. right. exact H.
Qed.

Lemma first_index_head (k : string) (l : list string) :
  first_index k (k :: l) = O.
Proof. cbn. rewrite String.eqb_refl. reflexivity. Qed.

Lemma unique_from_sorted (l : list string) :
  forall (pre seen : list string),
    (forall x, mem_key String.eqb x seen = true <-> In x pre) ->
    StronglySorted
      (fun a b => (first_index a (pre ++ l) < first_index b (pre ++ l))%nat)
      (unique_from String.eqb seen l)
    /\ Forall (fun a => (length pre <= first_index a (pre ++ l))%nat)
              (unique_from String.eqb seen l).
Proof.
  induction l as [|x t IH]; intros pre seen Hseen; cbn [unique_from].
  - split; constructor.
  - assert (Hcol : pre ++ x :: t = (pre ++ [x]) ++ t)
      by (rewrite <- List.app_assoc; reflexivity).
    destruct (mem_key String.eqb x seen) eqn:E.
    + destruct (IH (pre ++ [x]) seen) as (Hs & Hf).
      { intros y. rewrite Hseen, in_app_iff. cbn.
        apply Hseen in E. intuition congruence. }
      rewrite Hcol. split; [exact Hs|].
      eapply List.Forall_impl; [|exact Hf].
      intros a. rewrite length_app. cbn. lia.
    + destruct (IH (pre ++ [x]) (x :: seen)) as (Hs & Hf).
      { intros y. cbn [mem_key]. rewrite orb_true_iff, Hseen, in_app_iff,
          String.eqb_eq. cbn. intuition. }
      assert (Hx : first_index x (pre ++ x :: t) = length pre).
      { rewrite first_index_app, first_index_head; [lia|].
        intros H. apply Hseen in H. congruence. }
      rewrite <- Hcol in Hs, Hf.
      split.
      * constructor; [exact Hs|].
        eapply List.Forall_impl; [|exact Hf].
        intros a. rewrite length_app, Hx. cbn. lia.
      * constructor; [lia|].
        eapply List.Forall_impl; [|exact Hf].
        intros a. rewrite length_app. cbn. lia.
Qed.

Lemma unique_sorted (col : list string) :
  StronglySorted
    (fun a b => (first_index a col < first_index b col)%nat)
    (unique String.eqb col).
Proof.
  apply (unique_from_sorted col [] []).
  intros x. cbn. intuition discriminate.
Qed.

Lemma unique_from_In (l : list string) :
  forall (seen : list string) (k : string),
    In k (unique_from String.eqb seen l)
    <-> In k l /\ mem_key String.eqb k seen = false.
Proof.
  induction l as [|x t IH]; intros seen k; cbn [unique_from].
  - cbn. intuition.
  - destruct (mem_key String.eqb x seen) eqn:E.
    + rewrite IH. cbn [In]. intuition. subst. congruence.
    + cbn [In]. rewrite IH. cbn [mem_key]. rewrite orb_false_iff.
      destruct (String.eqb_spec k x) as [->|N]; intuition congruence.
Qed.

Lemma unique_In (col : list string) (k : string) :
  In k (unique String.eqb col) <-> In k col.
Proof. unfold unique. rewrite unique_from_In. cbn. intuition. Qed.

Lemma fleb_of_Z (a b : Z) : fleb (of_Z a) (of_Z b) = (a <=? b)%Z.
Proof.
  unfold of_Z, fleb, Qle_bool. cbn [Qnum Qden inject_Z].
  rewrite !Z.mul_1_r. reflexivity.
Qed.

Lemma fltb_of_Z (a b : Z) : fltb (of_Z a) (of_Z b) = (a <? b)%Z.
Proof.
  change (fltb (of_Z a) (of_Z b)) with (negb (fleb (of_Z b) (of_Z a))).
  rewrite fleb_of_Z. symmetry. apply Z.ltb_antisym.
Qed.

Lemma StronglySorted_take {A : Type} (R : A -> A -> Prop) (n : nat)
  (l : list A) :
  StronglySorted R l -> StronglySorted R (take n l).
Proof.
  intros Hs. revert n.
  induction Hs as [|a l Hs IH Ha]; intros [|n]; cbn; try constructor.
  - apply IH.
  - apply List.Forall_forall. intros y Hy.
    rewrite List.Forall_forall in Ha. apply Ha.
    destruct (In_lookup _ _ Hy) as (i & Hi).
    apply lookup_take_Some in Hi as (Hi & _). exact (lookup_In _ _ _ Hi).
Qed.

Lemma StronglySorted_NoDup {A : Type} (R : A -> A -> Prop) (l : list A) :
  (forall x, ~ R x x) -> StronglySorted R l -> List.NoDup l.
Proof.
  intros Hirr Hs. induction Hs as [|a l Hs IH Ha]; constructor; [|exact IH].
  intros Hin. rewrite List.Forall_forall in Ha. exact (Hirr a (Ha a Hin)).
Qed.

Lemma unique_NoDup (col : list string) :
  List.NoDup (unique String.eqb col).
Proof.
  apply (StronglySorted_NoDup
           (fun a b => (first_index a col < first_index b col)%nat)).
  - intros x H. lia.
  - apply unique_sorted.
Qed.

Lemma StronglySorted_any {A : Type} (l : list A) :
  StronglySorted (fun _ _ => True) l.
Proof.
  induction l as [|a l IH]; constructor; [exact IH|].
  apply List.Forall_forall. intros _ _. exact I.
Qed.

(** ** Sorting keeps the rows *)

Section SortPermutation.
Context {A : Type} (key : A -> fval).

Lemma insert_desc_perm (x : A) (l : list A) :
  Permutation (insert_desc key x l) (x :: l).
Proof.
  induction l as [|y t IH]; cbn [insert_desc]; [reflexivity|].
  destruct (fltb (key x) (key y)); [|reflexivity].
  rewrite IH. apply perm_swap.
Qed.

Lemma sort_desc_perm (l : list A) : Permutation (sort_desc key l) l.
Proof.
  induction l as [|x t IH]; [reflexivity|].
  cbn [sort_desc fold_right]. fold (sort_desc key t).
  rewrite insert_desc_perm, IH. reflexivity.
Qed.

Lemma sort_values_desc_perm (l : list A) :
  Permutation (sort_values_desc key l) l.
Proof.
  unfold sort_values_desc. rewrite sort_desc_perm.
  induction l as [|x t IH]; [reflexivity|].
  cbn [List.filter]. unfold notna at 1.
  destruct (isna (key x)); cbn [negb app].
  - rewrite <- Permutation_middle. constructor. exact IH.
  - constructor. exact IH.
Qed.

End SortPermutation.

Lemma value_counts_In (col : list (option string)) (kc : string * nat) :
  In kc (FeatureEngineering.value_counts col)
  <-> In (Some (fst kc)) col /\ snd kc = occurrences (fst kc) col.
Proof.
  unfold FeatureEngineering.value_counts, occurrences. cbv zeta.
  rewrite sort_desc_In, in_map_iff, <- In_present_id.
  split.
  - intros (k & <- & Hk). apply (proj1 (unique_In _ _)) in Hk.
    split; [exact Hk|reflexivity].
  - intros (Hk & Hc). exists (fst kc). split.
    + destruct kc as (k & c). cbn in *. rewrite Hc. reflexivity.
    + apply unique_In. exact Hk.
Qed.

(** The values of [value_counts] come by falling number of occurrences. *)
Lemma value_counts_falling (col : list (option string)) :
  StronglySorted (fun a b => (occurrences b col <= occurrences a col)%nat)
    (List.map fst (FeatureEngineering.value_counts col)).
Proof.
  apply StronglySorted_map.
  apply (StronglySorted_weaken
           (ranks_before
              (fun kc : string * nat => of_Z (Z.of_nat (snd kc)))
              (fun _ _ => True))).
  - intros p q Hp Hq Hr. apply ranks_before_fleb in Hr.
    apply value_counts_In in Hp as (_ & Hp).
    apply value_counts_In in Hq as (_ & Hq).
    rewrite fleb_of_Z, Z.leb_le, Hp, Hq in Hr. lia.
  - apply sort_desc_sorted; [|apply StronglySorted_any].
    apply List.Forall_forall. intros kc _. reflexivity.
Qed.

(** They are the distinct values of the column. *)
Lemma value_counts_keys (col : list (option string)) :
  Permutation (List.map fst (FeatureEngineering.value_counts col))
              (unique String.eqb (omap id col)).
Proof.
  unfold FeatureEngineering.value_counts. cbv zeta.
  rewrite sort_desc_perm, List.map_map. cbn [fst].
  rewrite List.map_id. reflexivity.
Qed.

Lemma value_counts_NoDup (col : list (option string)) :
  List.NoDup (List.map fst (FeatureEngineering.value_counts col)).
Proof.
  apply (Permutation_NoDup (Permutation_sym (value_counts_keys col))).
  apply unique_NoDup.
Qed.

Lemma NoDup_take {A : Type} (n : nat) (l : list A) :
  List.NoDup l -> List.NoDup (take n l).
Proof.
  intros H. revert n. induction H as [|x l Hx Hl IH]; intros [|n]; cbn;
    try constructor.
  - intros Hin. apply Hx. destruct (In_lookup _ _ Hin) as (i & Hi).
    apply lookup_take_Some in Hi as (Hi & _). exact (lookup_In _ _ _ Hi).
  - apply IH.
Qed.

Lemma top_is_prefix (df : list feat_row) (n : nat) :
  FeatureEngineering.get_top_suburbs df n
  = take n (List.map fst
              (FeatureEngineering.value_counts (List.map suburb df))).
Proof.
  unfold FeatureEngineering.get_top_suburbs.
  generalize (FeatureEngineering.value_counts (List.map suburb df)).
  intros l. revert n. induction l as [|x l IH]; intros [|n]; cbn;
    try reflexivity.
  rewrite IH. reflexivity.
Qed.

Lemma ranked_In (col : list (option string)) (k : string) :
  In k (List.map fst (FeatureEngineering.value_counts col))
  <-> In (Some k) col.
Proof.
  rewrite in_map_iff. split.
  - intros (kc & <- & H). apply value_counts_In in H as (H & _). exact H.
  - intros H. exists (k, occurrences k col). split; [reflexivity|].
    apply value_counts_In. split; [exact H|reflexivity].
Qed.

(** X25.  The cohort of size [n] is made of suburbs of the table, without
    repetition; it has [n] of them unless the table has fewer suburbs, and
    then it has them all; it lists them by falling number of transactions;
    and no suburb left out has more transactions than a suburb of the
    cohort.  Rows without a suburb are not counted.  (Nothing is said of
    the order, or of the choice, among suburbs with the same number of
    transactions.) *)
Theorem X25_top_suburbs_by_count (df : list feat_row) (n : nat) :
  let col := List.map suburb df in
  let top := FeatureEngineering.get_top_suburbs df n in
  (length top <= n)%nat
  /\ List.NoDup top
  /\ (forall a, In a top -> In (Some a) col)
  /\ ((length top < n)%nat -> forall b, In (Some b) col -> In b top)
  /\ (forall (i j : nat) (a b : string),
        (i < j)%nat -> top !! i = Some a -> top !! j = Some b ->
        (occurrences b col <= occurrences a col)%nat)
  /\ (forall a b, In a top -> In (Some b) col -> ~ In b top ->
                  (occurrences b col <= occurrences a col)%nat).
Proof.
  intros col top. subst top. rewrite top_is_prefix. fold col.
  set (ranked := List.map fst (FeatureEngineering.value_counts col)).
  pose proof (value_counts_NoDup col) as Hr. fold ranked in Hr.
  pose proof (value_counts_falling col) as Hs. fold ranked in Hs.
  pose proof (StronglySorted_take _ n _ Hs) as Hst.
  assert (Hsub : forall a, In a (take n ranked) -> In a ranked).
  { intros a Ha. destruct (In_lookup _ _ Ha) as (i & Hi).
    apply lookup_take_Some in Hi as (Hi & _). exact (lookup_In _ _ _ Hi). }
  repeat split.
  - rewrite length_take. lia.
  - exact (NoDup_take n _ Hr).
  - intros a Ha. apply (ranked_In col). exact (Hsub a Ha).
  - rewrite length_take. intros Hlen b Hb.
    rewrite take_ge by lia. apply ranked_In. exact Hb.
  - intros i j a b Hij Hi Hj.
    exact (StronglySorted_lookup _ _ Hst i j a b Hij Hi Hj).
  - intros a b Ha Hb Hnb.
    destruct (In_lookup _ _ Ha) as (i & Hi).
    apply lookup_take_Some in Hi as (Hi & Hin).
    apply (proj2 (ranked_In col b)) in Hb.
    destruct (In_lookup _ _ Hb) as (j & Hj).
    destruct (Nat.lt_ge_cases j n) as [Hjn|Hjn].
    + exfalso. apply Hnb. apply (lookup_In _ j).
      apply lookup_take_Some. split; assumption.
    + apply (StronglySorted_lookup _ _ Hs i j); [lia|assumption..].
Qed.

(** ** Premium tables *)

Lemma StronglySorted_app {A : Type} (R : A -> A -> Prop) (l1 l2 : list A) :
  StronglySorted R l1 -> StronglySorted R l2 ->
  (forall x y, In x l1 -> In y l2 -> R x y) ->
  StronglySorted R (l1 ++ l2).
Proof.
  intros H1 H2 H12. induction H1 as [|a l Hs IH Ha]; [exact H2|].
  cbn [app]. constructor.
  - apply IH. intros x y Hx. apply H12. right. exact Hx.
  - apply List.Forall_forall. intros y Hy. apply in_app_iff in Hy as [Hy|Hy].
    + rewrite List.Forall_forall in Ha. exact (Ha y Hy).
    + apply H12; [left; reflexivity|exact Hy].
Qed.

Lemma sort_values_desc_descending {A : Type} (key : A -> fval) (l : list A) :
  descending_nan_last (List.map key (sort_values_desc key l)).
Proof.
  intros i j x y Hij Hi Hj. revert i j x y Hij Hi Hj.
  apply StronglySorted_lookup. apply StronglySorted_map.
  unfold sort_values_desc. apply StronglySorted_app.
  - apply (StronglySorted_weaken (ranks_before key (fun _ _ => True))).
    + intros x y Hx _ Hr. right. split.
      * apply sort_desc_In, filter_In in Hx as (_ & Hx).
        intros E. rewrite E in Hx. discriminate.
      * exact (ranks_before_fleb _ _ _ _ Hr).
    + apply sort_desc_sorted; [|apply StronglySorted_any].
      apply List.Forall_forall. intros y Hy.
      apply filter_In in Hy as (_ & Hy). exact Hy.
  - apply (StronglySorted_weaken (fun _ _ => True));
      [|apply StronglySorted_any].
    intros x y _ Hy _. left. apply filter_In in Hy as (_ & Hy).
    destruct (key y); try discriminate. reflexivity.
  - intros x y _ Hy. left. apply filter_In in Hy as (_ & Hy).
    destruct (key y); try discriminate. reflexivity.
Qed.

Section PivotFacts.
Import GenerateInsights.
Context {K : Type} `{Countable K} (keqb kleb : K -> K -> bool).
Context (key2 : feat_row -> option K).
Hypothesis keqb_eq : forall a b, keqb a b = true <-> a = b.

Lemma lookup_tabulate (f : K -> fval) (cols : list K) (c : K) :
  In c cols ->
  (list_to_map (List.map (fun c => (c, f c)) cols) : gmap K fval) !! c
  = Some (f c).
Proof.
  induction cols as [|x t IH]; [intros []|].
  intros Hc. cbn [List.map list_to_map foldr fst snd].
  destruct (decide (c = x)) as [->|N].
  - apply lookup_insert_eq.
  - rewrite lookup_insert_ne by congruence. apply IH.
    destruct Hc as [Hc|Hc]; [congruence|exact Hc].
Qed.

Lemma pivot_cell (df : list feat_row) (pr : pivot_row K) (c : K) :
  In pr (body (median_pivot keqb kleb key2 df)) ->
  mem_key keqb c (columns (median_pivot keqb kleb key2 df)) = true ->
  cell pr c = cell_median keqb key2 df (index pr) c.
Proof.
  unfold median_pivot. cbn [body columns].
  intros Hpr Hc. apply in_map_iff in Hpr as (s & <- & _).
  apply (proj1 (mem_key_In keqb keqb_eq _ _)) in Hc.
  unfold cell. cbn [cells index].
  rewrite (lookup_tabulate _ _ _ Hc). reflexivity.
Qed.

Lemma premium_table_rows (p : pivot K) (a b : K) (r : premium_row K) :
  In r (premium_table p a b) ->
  In (entity r) (body p)
  /\ premium r
     = fround (fmul (fdiv (fsub (cell (entity r) a) (cell (entity r) b))
                          (cell (entity r) b)) (Fin 100))
  /\ cell (entity r) a <> NaN /\ cell (entity r) b <> NaN.
Proof.
  unfold premium_table. intros Hr.
  apply sort_values_desc_In, filter_In in Hr as (Hr & Hd).
  apply andb_true_iff in Hd as (Ha & Hb).
  apply in_map_iff in Hr as (pr & <- & Hpr). cbn [entity premium] in *.
  repeat split; try assumption.
  - intros E. rewrite E in Ha. discriminate.
  - intros E. rewrite E in Hb. discriminate.
Qed.

End PivotFacts.

Lemma property_type_premium_ok (df : list feat_row)
  (t : list (GenerateInsights.premium_row string)) :
  GenerateInsights.property_type_premium df = Ok t ->
  let pivot :=
    GenerateInsights.median_pivot String.eqb String.leb PropertyType df in
  mem_key String.eqb "House" (GenerateInsights.columns pivot) = true
  /\ mem_key String.eqb "Unit" (GenerateInsights.columns pivot) = true
  /\ t = GenerateInsights.premium_table pivot "House" "Unit".
Proof.
  intros H pivot.
  unfold GenerateInsights.property_type_premium, GenerateInsights.has_column
    in H.
  fold pivot in H.
  destruct (mem_key String.eqb "House" (GenerateInsights.columns pivot));
    [|discriminate].
  destruct (mem_key String.eqb "Unit" (GenerateInsights.columns pivot));
    [|discriminate].
  injection H as <-. repeat split.
Qed.

(** *** Rounding *)

Lemma round_half_even_near (q : Q) :
  (Qabs (inject_Z (round_half_even q) - q) <= 1 # 2)%Q.
Proof.
  unfold round_half_even.
  pose proof (Qfloor_le q) as Hl. pose proof (Qlt_floor q) as Hu.
  rewrite inject_Z_plus in Hu. change (inject_Z 1) with 1%Q in Hu.
  apply Qabs_Qle_condition.
  destruct (Qcompare (q - inject_Z (Qfloor q)) (1 # 2)) eqn:C.
  - apply Qeq_alt in C.
    destruct (Z.even (Qfloor q)); rewrite ?inject_Z_plus;
      change (inject_Z 1) with 1%Q; split; lra.
  - apply Qlt_alt in C. split; lra.
  - apply Qgt_alt in C. rewrite inject_Z_plus.
    change (inject_Z 1) with 1%Q. split; lra.
Qed.

Lemma fround_rounded (x : fval) : rounded x (fround x).
Proof.
  destruct x as [q| | |]; cbn [rounded fround]; try reflexivity.
  exists (round_half_even q). split; [reflexivity|].
  exists q. split; [reflexivity | apply round_half_even_near].
Qed.

Lemma py_round_nearest (x : fval) (z : Z) :
  GenerateInsights.py_round x = Ok z -> nearest z x.
Proof.
  destruct x as [q| | |]; cbn [GenerateInsights.py_round]; try discriminate.
  intros H. injection H as <-. exists q.
  split; [reflexivity | apply round_half_even_near].
Qed.

(** The rows of the premium table of houses over units: both medians are
    present, and the premium is the percentage rounded. *)
Lemma house_unit_rows (df : list feat_row)
  (t : list (GenerateInsights.premium_row string)) :
  GenerateInsights.property_type_premium df = Ok t ->
  forall row, In row t ->
    let e := GenerateInsights.entity row in
    let h :=
      median (List.map price
                (records_of_type df (GenerateInsights.index e) "House")) in
    let u :=
      median (List.map price
                (records_of_type df (GenerateInsights.index e) "Unit")) in
    GenerateInsights.cell e "House" = h
    /\ GenerateInsights.cell e "Unit" = u
    /\ h <> NaN /\ u <> NaN
    /\ GenerateInsights.premium row = fround (premium_percent h u).
Proof.
  intros H. apply property_type_premium_ok in H as (HH & HU & ->).
  intros row Hrow e h u.
  apply premium_table_rows in Hrow as (He & Hp & Hh & Hu).
  fold e in He, Hp, Hh, Hu.
  pose proof (pivot_cell String.eqb String.leb PropertyType String.eqb_eq
                df e "House" He HH) as Eh.
  pose proof (pivot_cell String.eqb String.leb PropertyType String.eqb_eq
                df e "Unit" He HU) as Eu.
  change (GenerateInsights.cell e "House" = h) in Eh.
  change (GenerateInsights.cell e "Unit" = u) in Eu.
  rewrite Eh, Eu in Hp. rewrite Eh in Hh. rewrite Eu in Hu.
  repeat split; assumption.
Qed.

(** C8, amended.  When the premium table of houses over units is built
    from prices in whole dollars, every row of it has a House median and
    a Unit median that are both present, the median prices of the houses
    and of the units of its suburb; its premium is the percentage
    (House - Unit) / Unit times 100 rounded to a whole number of percent
    (a nearest whole number; an infinite percentage, from a Unit median of
    zero, stays as it is); and the table is in descending order of
    premium, rows without a premium last. *)
Theorem C8_house_unit_premium (df : list feat_row)
  (t : list (GenerateInsights.premium_row string)) :
  (forall r, In r df -> whole_price (price r)) ->
  GenerateInsights.property_type_premium df = Ok t ->
  (forall row, In row t ->
     let e := GenerateInsights.entity row in
     let h :=
       median (List.map price
                 (records_of_type df (GenerateInsights.index e) "House")) in
     let u :=
       median (List.map price
                 (records_of_type df (GenerateInsights.index e) "Unit")) in
     GenerateInsights.cell e "House" = h
     /\ GenerateInsights.cell e "Unit" = u
     /\ h <> NaN /\ u <> NaN
     /\ rounded (premium_percent h u) (GenerateInsights.premium row))
  /\ descending_nan_last (List.map GenerateInsights.premium t).
Proof.
  intros _ H. split.
  - intros row Hrow e h u.
    destruct (house_unit_rows df t H row Hrow) as (Eh & Eu & Hh & Hu & Hp).
    fold e h u in Eh, Eu, Hh, Hu, Hp.
    repeat split; try assumption. rewrite Hp. apply fround_rounded.
  - apply property_type_premium_ok in H as (_ & _ & ->).
    apply sort_values_desc_descending.
Qed.

Lemma C8_house_unit_premium_witness :
  exists t,
    GenerateInsights.property_type_premium Samples.house_and_unit = Ok t
    /\ (forall row, In row t ->
          let e := GenerateInsights.entity row in
          let h :=
            median (List.map price
                      (records_of_type Samples.house_and_unit
                                       (GenerateInsights.index e) "House")) in
          let u :=
            median (List.map price
                      (records_of_type Samples.house_and_unit
                                       (GenerateInsights.index e) "Unit")) in
          GenerateInsights.cell e "House" = h
          /\ GenerateInsights.cell e "Unit" = u
          /\ h <> NaN /\ u <> NaN
          /\ rounded (premium_percent h u) (GenerateInsights.premium row))
    /\ descending_nan_last (List.map GenerateInsights.premium t).
Proof.
  exists (GenerateInsights.premium_table
            (GenerateInsights.median_pivot String.eqb String.leb PropertyType
               Samples.house_and_unit) "House" "Unit").
  assert (H : GenerateInsights.property_type_premium Samples.house_and_unit
              = Ok (GenerateInsights.premium_table
                      (GenerateInsights.median_pivot String.eqb String.leb
                         PropertyType Samples.house_and_unit)
                      "House" "Unit")) by reflexivity.
  split; [exact H|].
  apply (C8_house_unit_premium Samples.house_and_unit _); [|exact H].
  intros r [<-|[<-|[<-|[]]]]; right;
    [exists 900000%Z|exists 800000%Z|exists 600000%Z];
    (split; [reflexivity | lia]).
Defined.

(** C8 as stated fails: with a house median of 900,000 and a unit median
    of 800,000 the premium in the table is 12, not the 12.5 percent that
    (House - Unit) / Unit amounts to. *)
Lemma C8_counterexample :
  exists t,
    GenerateInsights.property_type_premium Samples.house_and_unit = Ok t
    /\ List.map
         (fun row =>
            (GenerateInsights.index (GenerateInsights.entity row),
             GenerateInsights.cell (GenerateInsights.entity row) "House",
             GenerateInsights.cell (GenerateInsights.entity row) "Unit",
             GenerateInsights.premium row)) t
       = [("Kew", Fin 900000, Fin 800000, Fin 12)]
    /\ ~ feq (Fin 12)
             (fmul (fdiv (fsub (Fin 900000) (Fin 800000)) (Fin 800000))
                   (Fin 100)).
Proof.
  eexists. split; [reflexivity|]. split; [vm_compute; reflexivity|].
  vm_compute. discriminate.
Qed.

(** ** Gaps between named suburbs *)

Lemma rmap_In {A B : Type} (f : A -> result B) (l : list A) :
  forall (l' : list B) (y : B),
    rmap f l = Ok l' -> In y l' -> exists x, In x l /\ f x = Ok y.
Proof.
  induction l as [|a l IH]; intros l' y Hm Hy; cbn [rmap rbind] in Hm.
  - injection Hm as <-. destruct Hy.
  - destruct (f a) as [b|e] eqn:Hfa; [|discriminate]. cbn [rbind] in Hm.
    destruct (rmap f l) as [bs|e] eqn:Hl; [|discriminate].
    cbn [rbind] in Hm. injection Hm as <-.
    destruct Hy as [<-|Hy].
    + exists a. split; [left; reflexivity|exact Hfa].
    + destruct (IH bs y eq_refl Hy) as (x & Hx & Hfx).
      exists x. split; [right; exact Hx|exact Hfx].
Qed.

Lemma to_float_get_or_zero (stats : list (string * fval)) (name : string) :
  GenerateInsights.to_float (GenerateInsights.get_or_zero stats name)
  = Some (price_or_zero stats name).
Proof.
  unfold GenerateInsights.get_or_zero, price_or_zero.
  destruct (series_get stats name); reflexivity.
Qed.

Lemma comparison_no_discount (stats : list (string * fval)) (v p : string) :
  GenerateInsights.comparison stats v p !! "discount_pct" = None.
Proof.
  unfold GenerateInsights.comparison.
  rewrite !lookup_insert_ne by discriminate. apply lookup_empty.
Qed.

Lemma add_discount_comparison (stats : list (string * fval)) (v p : string) :
  let comp := GenerateInsights.comparison stats v p in
  let premium_price := price_or_zero stats p in
  let value_price := price_or_zero stats v in
  GenerateInsights.add_discount comp
  = if fgtb premium_price (Fin 0) then
      try d <- GenerateInsights.py_round
                 (discount_percent premium_price value_price) in
      Ok (<["discount_pct" := GenerateInsights.PInt d]> comp)
    else Ok comp.
Proof.
  intros comp premium_price value_price.
  unfold GenerateInsights.add_discount.
  assert (Hp : comp !! "premium_price"
               = Some (GenerateInsights.get_or_zero stats p)).
  { unfold comp, GenerateInsights.comparison.
    rewrite !lookup_insert_ne by discriminate. apply lookup_insert_eq. }
  assert (Hv : comp !! "value_price"
               = Some (GenerateInsights.get_or_zero stats v)).
  { unfold comp, GenerateInsights.comparison.
    rewrite !lookup_insert_ne by discriminate. apply lookup_insert_eq. }
  rewrite Hp, Hv. cbn [mbind option_bind].
  rewrite !to_float_get_or_zero. reflexivity.
Qed.

(** C5, amended.  In the result of the gap comparison on prices in whole
    dollars, every entry is one of the configured pairs.  When the median
    price of its premium suburb is not greater than zero (zero, or absent
    and so read as zero, or missing) the entry has no discount, and the
    report of [main] shows a discount of 0 for it.  When it is greater
    than zero, the discount is (premium price - value price) / premium
    price times 100 rounded to an integer (a nearest integer), and the
    report shows it. *)
Theorem C5_gap_discount (df : list feat_row)
  (gaps : list (string * gmap string GenerateInsights.pyval))
  (key : string) (comp : gmap string GenerateInsights.pyval) :
  (forall r, In r df -> whole_price (price r)) ->
  GenerateInsights.value_suburb_gaps df = Ok gaps ->
  In (key, comp) gaps ->
  exists v p,
    In (key, (v, p)) GenerateInsights.pairs
    /\ comp !! "value_suburb" = Some (GenerateInsights.PStr v)
    /\ comp !! "premium_suburb" = Some (GenerateInsights.PStr p)
    /\ let stats := FeatureEngineering.suburb_medians df in
       let premium_price := price_or_zero stats p in
       let value_price := price_or_zero stats v in
       (fgtb premium_price (Fin 0) = false ->
        comp !! "discount_pct" = None
        /\ GenerateInsights.discount (GenerateInsights.report_gap comp)
           = GenerateInsights.PInt 0)
       /\ (fgtb premium_price (Fin 0) = true ->
           exists z,
             nearest z (discount_percent premium_price value_price)
             /\ comp !! "discount_pct" = Some (GenerateInsights.PInt z)
             /\ GenerateInsights.discount (GenerateInsights.report_gap comp)
                = GenerateInsights.PInt z).
Proof.
  intros _ Hg Hin. unfold GenerateInsights.value_suburb_gaps in Hg.
  destruct (rmap_In _ _ _ _ Hg Hin) as ((k & v & p) & Hp & Hx).
  cbn [fst snd] in Hx.
  destruct (GenerateInsights.add_discount _) as [c|e] eqn:E; [|discriminate].
  cbn [rbind] in Hx. injection Hx as <- <-.
  rewrite add_discount_comparison in E.
  exists v, p. split; [exact Hp|].
  assert (Hv0 : GenerateInsights.comparison
                  (FeatureEngineering.suburb_medians df) v p !! "value_suburb"
                = Some (GenerateInsights.PStr v)).
  { apply lookup_insert_eq. }
  assert (Hp0 : GenerateInsights.comparison
                  (FeatureEngineering.suburb_medians df) v p
                !! "premium_suburb"
                = Some (GenerateInsights.PStr p)).
  { unfold GenerateInsights.comparison.
    rewrite lookup_insert_ne by discriminate. apply lookup_insert_eq. }
  pose proof (comparison_no_discount
                (FeatureEngineering.suburb_medians df) v p) as Hd0.
  unfold GenerateInsights.report_gap, GenerateInsights.shown_discount.
  cbn [GenerateInsights.discount].
  destruct (fgtb (price_or_zero (FeatureEngineering.suburb_medians df) p)
                 (Fin 0)) eqn:Hpos.
  - destruct (GenerateInsights.py_round _) as [z|e] eqn:Hz;
      cbn [rbind] in E; [|discriminate].
    injection E as <-.
    rewrite !lookup_insert_ne by discriminate.
    split; [exact Hv0|]. split; [exact Hp0|].
    split; [discriminate|]. intros _. exists z.
    rewrite lookup_insert_eq.
    split; [exact (py_round_nearest _ _ Hz)|]. split; reflexivity.
  - injection E as <-.
    split; [exact Hv0|]. split; [exact Hp0|].
    split; [|discriminate]. intros _. rewrite Hd0. split; reflexivity.
Qed.

Lemma C5_gap_discount_witness :
  let stats := FeatureEngineering.suburb_medians Samples.north_sales in
  let comp :=
    <["discount_pct" := GenerateInsights.PInt 50]>
      (GenerateInsights.comparison stats "Reservoir" "Northcote") in
  let gaps :=
    [ ("Reservoir_vs_Northcote", comp);
      ("Glenroy_vs_MooneePonds",
       GenerateInsights.comparison stats "Glenroy" "Moonee Ponds");
      ("Coburg_vs_Brunswick",
       GenerateInsights.comparison stats "Coburg" "Brunswick") ] in
  GenerateInsights.value_suburb_gaps Samples.north_sales = Ok gaps
  /\ exists v p,
       In ("Reservoir_vs_Northcote", (v, p)) GenerateInsights.pairs
       /\ comp !! "value_suburb" = Some (GenerateInsights.PStr v)
       /\ comp !! "premium_suburb" = Some (GenerateInsights.PStr p)
       /\ let premium_price := price_or_zero stats p in
          let value_price := price_or_zero stats v in
          (fgtb premium_price (Fin 0) = false ->
           comp !! "discount_pct" = None
           /\ GenerateInsights.discount (GenerateInsights.report_gap comp)
              = GenerateInsights.PInt 0)
          /\ (fgtb premium_price (Fin 0) = true ->
              exists z,
                nearest z (discount_percent premium_price value_price)
                /\ comp !! "discount_pct" = Some (GenerateInsights.PInt z)
                /\ GenerateInsights.discount
                     (GenerateInsights.report_gap comp)
                   = GenerateInsights.PInt z).
Proof.
  intros stats comp gaps.
  assert (Hg : GenerateInsights.value_suburb_gaps Samples.north_sales
               = Ok gaps).
  { unfold GenerateInsights.value_suburb_gaps, GenerateInsights.pairs.
    cbn [rmap fst snd]. rewrite !add_discount_comparison. fold stats.
    change (price_or_zero stats "Northcote") with (Fin (2400000 # 2)).
    change (price_or_zero stats "Reservoir") with (Fin 600000).
    change (price_or_zero stats "Moonee Ponds") with (Fin 0).
    change (price_or_zero stats "Brunswick") with (Fin 0).
    change (fgtb (Fin (2400000 # 2)) (Fin 0)) with true.
    change (fgtb (Fin 0) (Fin 0)) with false.
    change (GenerateInsights.py_round
              (discount_percent (Fin (2400000 # 2)) (Fin 600000)))
      with (Ok (A := Z) 50%Z).
    reflexivity. }
  split; [exact Hg|].
  apply (C5_gap_discount Samples.north_sales gaps "Reservoir_vs_Northcote"
           comp); [|exact Hg|left; reflexivity].
  intros r [<-|[<-|[<-|[]]]]; right;
    [exists 600000%Z|exists 1000000%Z|exists 1400000%Z];
    (split; [reflexivity | lia]).
Defined.

(** C5 as stated fails: no sale is in Northcote, the comparison of
    Reservoir with Northcote has no discount, and the report of [main]
    shows a discount of 0 percent for it. *)
Lemma C5_counterexample :
  exists rep line,
    GenerateInsights.main Samples.three_sales = Ok rep
    /\ GenerateInsights.undervalued rep !! O = Some line
    /\ GenerateInsights.value_suburb line
       = Some (GenerateInsights.PStr "Reservoir")
    /\ GenerateInsights.premium_suburb line
       = Some (GenerateInsights.PStr "Northcote")
    /\ series_get (FeatureEngineering.suburb_medians Samples.three_sales)
                  "Northcote" = None
    /\ GenerateInsights.discount line = GenerateInsights.PInt 0.
Proof.
  eexists. eexists. split; [vm_compute; reflexivity|].
  repeat split.
Qed.

(** * Further properties of the scripts *)

(** ** Cleaning *)

Lemma landsize_tests_disjoint (r : raw_row) :
  DataCleaning.invalid_landsize r && DataCleaning.extreme_landsize r = false.
Proof.
  unfold DataCleaning.invalid_landsize, DataCleaning.extreme_landsize, fgtb.
  destruct (Landsize r) as [q| | |]; cbn; try reflexivity.
  destruct (Qle_bool q 0) eqn:E0; [|reflexivity].
  destruct (Qle_bool q 50000) eqn:E1; [reflexivity|]. exfalso.
  apply Qle_bool_iff in E0. apply not_true_iff_false in E1. apply E1.
  apply Qle_bool_iff. apply (Qle_trans _ 0); [exact E0|]. discriminate.
Qed.

Lemma count_split {A : Type} (p q : A -> bool) (l : list A) :
  (forall x, p x && q x = false) ->
  (DataCleaning.count_true p l + DataCleaning.count_true q l
   + length (List.filter (fun x => negb (p x || q x)) l))%nat
  = length l.
Proof.
  intros Hd. unfold DataCleaning.count_true.
  induction l as [|x l IH]; [reflexivity|].
  cbn [List.filter]. specialize (Hd x).
  destruct (p x), (q x); cbn in Hd |- *; try discriminate; lia.
Qed.

Lemma filter_length_le {A : Type} (p : A -> bool) (l : list A) :
  (length (List.filter p l) <= length l)%nat.
Proof.
  induction l as [|x l IH]; [reflexivity|].
  cbn [List.filter]. destruct (p x); cbn [length]; lia.
Qed.

(** X1.  The statistics of a cleaning run account for every row: the rows
    kept and the rows removed add up to the rows read, and the number
    reported as removed for their land size is the number of rows
    removed (no row is counted by both land-size tests). *)
Theorem X1_cleaning_accounts (df : list raw_row) :
  let out := fst (DataCleaning.clean_data df) in
  let st := snd (DataCleaning.clean_data df) in
  DataCleaning.initial_rows st = length df
  /\ DataCleaning.final_rows st = length out
  /\ (DataCleaning.final_rows st + DataCleaning.removed_rows st)%nat
     = DataCleaning.initial_rows st
  /\ DataCleaning.removed_invalid_landsize st = DataCleaning.removed_rows st
  /\ (DataCleaning.suburb_name_fixes st <= DataCleaning.initial_rows st)%nat.
Proof.
  unfold DataCleaning.clean_data.
  cbn [fst snd DataCleaning.initial_rows DataCleaning.final_rows
       DataCleaning.removed_rows DataCleaning.removed_invalid_landsize
       DataCleaning.suburb_name_fixes].
  set (l1 := List.map _ df).
  pose proof (count_split DataCleaning.invalid_landsize
                DataCleaning.extreme_landsize l1 landsize_tests_disjoint)
    as Hc.
  assert (Hl : length l1 = length df) by apply length_map.
  rewrite !length_map. rewrite Hl in Hc.
  pose proof (filter_length_le
                (fun r => DataCleaning.cell_ne
                            (DataCleaning.standardize_cell (Suburb r))
                            (Suburb r)) df) as Hf.
  unfold DataCleaning.count_true at 3.
  repeat split; try lia.
Qed.

Lemma fillna_notna (v x : fval) : v <> NaN -> fillna v x <> NaN.
Proof. unfold fillna. destruct x; cbn; congruence. Qed.

Lemma fillna_present (v x : fval) : x <> NaN -> fillna v x = x.
Proof. unfold fillna. destruct x; cbn; congruence. Qed.

(** X2.  Every row of the cleaned table is a row of the input in which
    the suburb name is put in standard form (a missing name stays
    missing) and a missing number of car spaces is replaced by 0; no
    other field changes, and the number of car spaces is never missing. *)
Theorem X2_cleaning_frame (df : list raw_row) (r : raw_row) :
  In r (fst (DataCleaning.clean_data df)) ->
  exists r0,
    In r0 df
    /\ Suburb r = option_map DataCleaning.standardize (Suburb r0)
    /\ Car r = fillna (Fin 0) (Car r0)
    /\ Car r <> NaN
    /\ Rooms r = Rooms r0 /\ Type_ r = Type_ r0 /\ Price r = Price r0
    /\ Date r = Date r0 /\ Distance r = Distance r0
    /\ Landsize r = Landsize r0 /\ other r = other r0.
Proof.
  intros H. apply clean_row_facts in H as (r0 & H0 & -> & _).
  exists r0. cbn. repeat split; try assumption.
  apply fillna_notna. discriminate.
Qed.

Lemma X2_cleaning_frame_witness :
  exists r0,
    In r0 Samples.raw_lots
    /\ Suburb Samples.cleaned_lot
       = option_map DataCleaning.standardize (Suburb r0)
    /\ Car Samples.cleaned_lot = fillna (Fin 0) (Car r0)
    /\ Car Samples.cleaned_lot <> NaN
    /\ Rooms Samples.cleaned_lot = Rooms r0
    /\ Type_ Samples.cleaned_lot = Type_ r0
    /\ Price Samples.cleaned_lot = Price r0
    /\ Date Samples.cleaned_lot = Date r0
    /\ Distance Samples.cleaned_lot = Distance r0
    /\ Landsize Samples.cleaned_lot = Landsize r0
    /\ other Samples.cleaned_lot = other r0.
Proof.
  apply (X2_cleaning_frame Samples.raw_lots Samples.cleaned_lot).
  vm_compute. right. left. reflexivity.
Defined.

Lemma map_id_on {A : Type} (f : A -> A) (l : list A) :
  (forall x, In x l -> f x = x) -> List.map f l = l.
Proof.
  induction l as [|x l IH]; intros H; [reflexivity|].
  cbn [List.map]. rewrite (H x (or_introl eq_refl)), IH; [reflexivity|].
  intros y Hy. apply H. right. exact Hy.
Qed.

Lemma count_true_none {A : Type} (p : A -> bool) (l : list A) :
  (forall x, In x l -> p x = false) -> DataCleaning.count_true p l = O.
Proof.
  intros H. unfold DataCleaning.count_true. rewrite filter_none; [reflexivity|].
  exact H.
Qed.

(** A table in which every row is already clean is left as it is. *)
Lemma clean_data_fixed (l : list raw_row) :
  (forall r, In r l ->
             (exists s, Suburb r = Some s /\ DataCleaning.standardize s = s)
             /\ DataCleaning.invalid_landsize r = false
             /\ DataCleaning.extreme_landsize r = false
             /\ Car r <> NaN) ->
  DataCleaning.clean_data l
  = (l, DataCleaning.mk_stats (length l) (length l) 0 0 0).
Proof.
  intros H. unfold DataCleaning.clean_data.
  assert (H1 : List.map
                 (fun r => DataCleaning.set_Suburb
                             (DataCleaning.standardize_cell (Suburb r)) r) l
               = l).
  { apply map_id_on. intros r Hr. destruct (H r Hr) as ((s & Es & Hs) & _).
    rewrite Es. cbn [DataCleaning.standardize_cell option_map].
    rewrite Hs, <- Es. destruct r; reflexivity. }
  rewrite H1.
  assert (H2 : List.filter
                 (fun r => negb (DataCleaning.invalid_landsize r
                                 || DataCleaning.extreme_landsize r)) l = l).
  { apply filter_all. intros r Hr. destruct (H r Hr) as (_ & Hi & He & _).
    rewrite Hi, He. reflexivity. }
  rewrite H2.
  assert (H3 : List.map
                 (fun r => DataCleaning.set_Car (fillna (Fin 0) (Car r)) r) l
               = l).
  { apply map_id_on. intros r Hr. destruct (H r Hr) as (_ & _ & _ & Hc).
    rewrite (fillna_present _ _ Hc). destruct r; reflexivity. }
  rewrite H3.
  rewrite !count_true_none.
  - rewrite Nat.sub_diag. reflexivity.
  - intros r Hr. destruct (H r Hr) as (_ & _ & He & _). exact He.
  - intros r Hr. destruct (H r Hr) as (_ & Hi & _). exact Hi.
  - intros r Hr. destruct (H r Hr) as ((s & Es & Hs) & _). rewrite Es.
    cbn [DataCleaning.standardize_cell option_map DataCleaning.cell_ne].
    rewrite Hs, String.eqb_refl. reflexivity.
Qed.

(** X3.  Cleaning is idempotent on a table in which every row has a
    suburb name, written in ASCII: cleaning the cleaned table returns the
    same table, and the statistics of that second run report no suburb
    name fixed and no row removed.  (A row without a suburb name is
    counted as a name fixed by every run.) *)
Theorem X3_cleaning_idempotent (df : list raw_row) :
  (forall r, In r df ->
             exists s, Suburb r = Some s /\ PyStr.is_ascii s = true) ->
  let out := fst (DataCleaning.clean_data df) in
  DataCleaning.clean_data out
  = (out, DataCleaning.mk_stats (length out) (length out) 0 0 0).
Proof.
  intros Hs out. apply clean_data_fixed. intros r Hr.
  apply clean_row_facts in Hr as (r0 & H0 & Hr & Hi & He).
  destruct (Hs r0 H0) as (s & Es & _).
  repeat split; try assumption.
  - exists (DataCleaning.standardize s). rewrite Hr.
    cbn [normalised Suburb]. rewrite Es.
    split; [reflexivity | apply standardize_idem].
  - rewrite Hr. cbn [normalised Car]. apply fillna_notna. discriminate.
Qed.

Lemma X3_cleaning_idempotent_witness :
  DataCleaning.clean_data (fst (DataCleaning.clean_data Samples.raw_lots))
  = (fst (DataCleaning.clean_data Samples.raw_lots),
     DataCleaning.mk_stats
       (length (fst (DataCleaning.clean_data Samples.raw_lots)))
       (length (fst (DataCleaning.clean_data Samples.raw_lots))) 0 0 0).
Proof.
  apply (X3_cleaning_idempotent Samples.raw_lots).
  intros r [<-|[<-|[<-|[<-|[]]]]]; eexists; split; reflexivity.
Defined.

(** ** Features *)

Lemma rmap_err {A B : Type} (f : A -> result B) (l : list A) (e : error) :
  rmap f l = Err e ->
  exists (i : nat) (x : A),
    l !! i = Some x /\ f x = Err e
    /\ forall (j : nat) (y : A),
         (j < i)%nat -> l !! j = Some y -> exists z, f y = Ok z.
Proof.
  induction l as [|a l IH]; intros H; cbn [rmap rbind] in H; [discriminate|].
  destruct (f a) as [b|e'] eqn:Hfa; cbn [rbind] in H.
  - destruct (rmap f l) as [bs|e''] eqn:Hl; cbn [rbind] in H; [discriminate|].
    injection H as ->. destruct (IH eq_refl) as (i & x & Hi & Hx & Hbefore).
    exists (S i), x. split; [exact Hi|]. split; [exact Hx|].
    intros [|j] y Hj Hy.
    + injection Hy as <-. exists b. exact Hfa.
    + apply (Hbefore j y); [lia|exact Hy].
  - injection H as ->. exists O, a. split; [reflexivity|].
    split; [exact Hfa|]. intros j y Hj. lia.
Qed.

Lemma rmap_length {A B : Type} (f : A -> result B) (l : list A) :
  forall l', rmap f l = Ok l' -> length l' = length l.
Proof.
  induction l as [|a l IH]; intros l' H; cbn [rmap rbind] in H.
  - injection H as <-. reflexivity.
  - destruct (f a) as [b|e] eqn:Hfa; [|discriminate]. cbn [rbind] in H.
    destruct (rmap f l) as [bs|e] eqn:Hl; [|discriminate].
    cbn [rbind] in H. injection H as <-.
    cbn [length]. rewrite (IH bs eq_refl). reflexivity.
Qed.

Lemma add_features_row_ok (r : raw_row) (fr : feat_row) :
  FeatureEngineering.add_features_row r = Ok fr ->
  exists d,
    Dates.parse_date (Date r) = Some d
    /\ fr = mk_feat r (fdiv (Price r) (Landsize r)) d (Dates.year d)
                    (Dates.month d) (Dates.quarter_label d)
                    (match Type_ r with
                     | Some t => FeatureEngineering.type_map !! t
                     | None => None
                     end).
Proof.
  unfold FeatureEngineering.add_features_row.
  destruct (Dates.parse_date (Date r)) as [d|]; [|discriminate].
  intros H. injection H as <-. exists d. split; reflexivity.
Qed.

(** X5.  When [add_features] succeeds, the featured table has one row
    for each row of its input, in the same order.  In a row, the Date
    column is replaced by the day that its text names, and every other
    column of the input is as it was; the price per square metre is the
    price over the land size; year and month are those of the day; and
    the type label is House, Unit or Townhouse for the codes h, u and t,
    and missing for a missing code and for every other code. *)
Theorem X5_features_keep_rows (df : list raw_row) (out : list feat_row) :
  FeatureEngineering.add_features df = Ok out ->
  length out = length df
  /\ forall (i : nat) (r : raw_row),
       df !! i = Some r ->
       exists fr,
         out !! i = Some fr
         /\ Suburb (base fr) = Suburb r /\ Rooms (base fr) = Rooms r
         /\ Type_ (base fr) = Type_ r /\ Price (base fr) = Price r
         /\ Distance (base fr) = Distance r /\ Car (base fr) = Car r
         /\ Landsize (base fr) = Landsize r /\ other (base fr) = other r
         /\ Dates.parse_date (Date r) = Some (Date_parsed fr)
         /\ Price_per_sqm fr = fdiv (Price r) (Landsize r)
         /\ Year fr = Dates.year (Date_parsed fr)
         /\ Month fr = Dates.month (Date_parsed fr)
         /\ (Type_ r = Some "h" -> PropertyType fr = Some "House")
         /\ (Type_ r = Some "u" -> PropertyType fr = Some "Unit")
         /\ (Type_ r = Some "t" -> PropertyType fr = Some "Townhouse")
         /\ (Type_ r = None -> PropertyType fr = None)
         /\ (forall t, Type_ r = Some t ->
                       t <> "h" -> t <> "u" -> t <> "t" ->
                       PropertyType fr = None).
Proof.
  intros H. split; [exact (rmap_length _ _ _ H)|].
  intros i r Hi. destruct (rmap_lookup _ _ _ _ _ H Hi) as (fr & Hfr & Hr).
  exists fr. split; [exact Hfr|].
  apply add_features_row_ok in Hr as (d & Hd & ->).
  cbn [base Price_per_sqm Date_parsed Year Month PropertyType].
  repeat split; try assumption.
  - intros ->. reflexivity.
  - intros ->. reflexivity.
  - intros ->. reflexivity.
  - intros ->. reflexivity.
  - intros t -> Hh Hu Ht. unfold FeatureEngineering.type_map.
    rewrite !lookup_insert_ne by congruence. apply lookup_empty.
Qed.

Lemma X5_features_keep_rows_witness :
  length Samples.featured_sales = length Samples.cleaned_sales
  /\ exists fr,
       Samples.featured_sales !! 1%nat = Some fr
       /\ Suburb (base fr) = Some "Kew"
       /\ Date_parsed fr = Dates.mkdate 2016 6 17
       /\ PropertyType fr = Some "House".
Proof.
  destruct (X5_features_keep_rows Samples.cleaned_sales Samples.featured_sales
              eq_refl) as (Hlen & Hrows).
  split; [exact Hlen|].
  destruct (Hrows 1%nat Samples.sale_june eq_refl)
    as (fr & Hfr & Hs & _ & _ & _ & _ & _ & _ & _ & Hd & _ & _ & _ & Hh & _).
  exists fr. split; [exact Hfr|]. split; [exact Hs|]. split.
  - vm_compute in Hd. injection Hd as Hd. symmetry. exact Hd.
  - apply Hh. reflexivity.
Defined.



(** ** Cohort and outliers *)

Lemma analysis_subset_In (df : list feat_row) (n : nat) (r : feat_row) :
  In r (FeatureEngineering.analysis_subset df n)
  <-> In r df
      /\ isin (FeatureEngineering.get_top_suburbs df n) (suburb r) = true.
Proof. unfold FeatureEngineering.analysis_subset. apply filter_In. Qed.

(** X7.  The suburb median of the analysis data set is also the median
    over the whole featured table: the cohort filter keeps or drops a
    suburb as a whole, so the median price of a cohort suburb is the same
    before and after the filter. *)
Theorem X7_cohort_median_is_global (df : list feat_row) (n : nat) :
  exists f sm,
    FeatureEngineering.analysis_dataset df n = Some f
    /\ FeatureEngineering.extra f !! "Suburb_Median" = Some sm
    /\ forall (i : nat) (r : feat_row),
         FeatureEngineering.rows f !! i = Some r ->
         In r df
         /\ exists s,
              suburb r = Some s
              /\ sm !! i
                 = Some (median (List.map price (records_of df s))).
Proof.
  set (sub := FeatureEngineering.analysis_subset df n).
  exists (annotated (FeatureEngineering.mk_frame sub ∅)), (median_column sub).
  split; [apply analysis_dataset_run|].
  split; [unfold annotated; cbn [FeatureEngineering.extra
                                   FeatureEngineering.rows];
          rewrite lookup_insert_ne by discriminate; apply lookup_insert_eq|].
  intros i r Hr. cbn [annotated FeatureEngineering.rows] in Hr.
  pose proof (lookup_In _ _ _ Hr) as Hin.
  apply analysis_subset_In in Hin as (Hdf & Htop).
  split; [exact Hdf|].
  destruct (proj1 (isin_In _ _) Htop) as (s & Es & _).
  exists s. split; [exact Es|]. rewrite Es in Htop.
  rewrite <- (cohort_keeps_suburbs_whole df n s Htop).
  unfold median_column. rewrite (lookup_map (suburb_median sub) _ _ _ Hr).
  unfold suburb_median. rewrite Es. reflexivity.
Qed.

Lemma top_all_when_short (df : list feat_row) (n : nat) :
  (length (FeatureEngineering.get_top_suburbs df n) < n)%nat ->
  forall s, In (Some s) (List.map suburb df) ->
            In s (FeatureEngineering.get_top_suburbs df n).
Proof.
  rewrite top_is_prefix, length_take. intros Hlen s Hs.
  rewrite take_ge by lia. apply ranked_In. exact Hs.
Qed.

Lemma filter_ext_In' {A : Type} (p q : A -> bool) (l : list A) :
  (forall x, In x l -> p x = q x) -> List.filter p l = List.filter q l.
Proof.
  induction l as [|x l IH]; intros H; [reflexivity|].
  cbn [List.filter]. rewrite (H x (or_introl eq_refl)).
  rewrite IH; [reflexivity|]. intros y Hy. apply H. right. exact Hy.
Qed.

(** X8.  When the cohort has fewer than [n] suburbs the table has no
    other suburb, and the analysis subset is made of all the rows that
    have a suburb: the whole featured table when no row lacks one. *)
Theorem X8_small_table_kept_whole (df : list feat_row) (n : nat) :
  (length (FeatureEngineering.get_top_suburbs df n) < n)%nat ->
  FeatureEngineering.analysis_subset df n
  = List.filter (fun r => match suburb r with
                          | Some _ => true
                          | None => false
                          end) df
  /\ ((forall r, In r df -> suburb r <> None) ->
      FeatureEngineering.analysis_subset df n = df).
Proof.
  intros Hlen.
  assert (E : FeatureEngineering.analysis_subset df n
              = List.filter (fun r => match suburb r with
                                      | Some _ => true
                                      | None => false
                                      end) df).
  { unfold FeatureEngineering.analysis_subset. cbv zeta.
    apply filter_ext_In'. intros r Hr.
    destruct (suburb r) as [s|] eqn:Es; [|reflexivity].
    apply isin_In. exists s. split; [reflexivity|].
    apply (top_all_when_short df n Hlen). rewrite <- Es.
    apply in_map. exact Hr. }
  split; [exact E|]. intros Hall. rewrite E. apply filter_all.
  intros r Hr. specialize (Hall r Hr).
  destruct (suburb r); [reflexivity | congruence].
Qed.

Lemma X8_small_table_kept_whole_witness :
  FeatureEngineering.analysis_subset Samples.three_sales 20
  = Samples.three_sales.
Proof.
  apply (X8_small_table_kept_whole Samples.three_sales 20).
  - vm_compute. lia.
  - intros r [<-|[<-|[<-|[]]]]; discriminate.
Defined.

(** X9.  The cohort of a smaller size is the beginning of the cohort of
    a larger size: the five suburbs that [main] lists from its cohort of
    twenty are the cohort of size five. *)
Theorem X9_cohort_prefix (df : list feat_row) (n m : nat) :
  (n <= m)%nat ->
  FeatureEngineering.get_top_suburbs df n
  = take n (FeatureEngineering.get_top_suburbs df m).
Proof.
  intros H. rewrite !top_is_prefix, take_take.
  rewrite Nat.min_l by exact H. reflexivity.
Qed.

Lemma X9_cohort_prefix_witness :
  FeatureEngineering.get_top_suburbs Samples.three_sales 5
  = take 5 (FeatureEngineering.get_top_suburbs Samples.three_sales 20).
Proof.
  apply (X9_cohort_prefix Samples.three_sales 5 20). lia.
Defined.

Lemma outlier_classes_disjoint (dev : list fval) :
  (length (List.filter (fun d => fltb d (Fin (-3 # 10))) dev)
   + length (List.filter (fun d => fgtb d (Fin (1 # 2))) dev)
   + length (List.filter isna dev) <= length dev)%nat.
Proof.
  induction dev as [|d dev IH]; [reflexivity|].
  cbn [List.filter].
  assert (H : (fltb d (Fin (-3 # 10)) = false \/ fgtb d (Fin (1 # 2)) = false)
              /\ (isna d = true ->
                  fltb d (Fin (-3 # 10)) = false
                  /\ fgtb d (Fin (1 # 2)) = false)).
  { destruct d as [q| | |]; cbn; try (split; [auto|]; intros; auto;
                                       discriminate).
    split; [|discriminate].
    destruct (Qle_bool (-3 # 10) q) eqn:E1; [left; reflexivity|].
    destruct (Qle_bool q (1 # 2)) eqn:E2; [right; reflexivity|].
    exfalso. apply not_true_iff_false in E1, E2.
    rewrite Qle_bool_iff in E1, E2.
    apply Qnot_le_lt in E1, E2.
    assert (C : ((1 # 2) < (-3 # 10))%Q) by (eapply Qlt_trans; eassumption).
    revert C. vm_compute. discriminate. }
  destruct H as (H1 & H2).
  destruct (isna d) eqn:En.
  - destruct (H2 eq_refl) as (-> & ->). cbn [length]. lia.
  - destruct H1 as [-> | ->];
      destruct (fltb d _), (fgtb d _); cbn [length]; lia.
Qed.

(** X10.  In the counts of outliers that [main] prints, no sale is
    counted both as underpriced and as overpriced, and a sale without a
    deviation (no price, or no median to compare with) is counted as
    neither: the two counts and the number of sales without a deviation
    add up to at most the number of sales of the analysis data set. *)
Theorem X10_outlier_counts (df : list feat_row) (n : nat) :
  exists f dev,
    FeatureEngineering.analysis_dataset df n = Some f
    /\ FeatureEngineering.extra f !! "Price_Deviation" = Some dev
    /\ length dev = length (FeatureEngineering.rows f)
    /\ (fst (FeatureEngineering.outlier_counts f)
        + snd (FeatureEngineering.outlier_counts f)
        + length (List.filter isna dev)
        <= length (FeatureEngineering.rows f))%nat.
Proof.
  set (sub := FeatureEngineering.analysis_subset df n).
  exists (annotated (FeatureEngineering.mk_frame sub ∅)),
         (deviation_column sub).
  split; [apply analysis_dataset_run|].
  assert (Hd : FeatureEngineering.extra
                 (annotated (FeatureEngineering.mk_frame sub ∅))
               !! "Price_Deviation" = Some (deviation_column sub))
    by apply lookup_insert_eq.
  split; [exact Hd|].
  assert (Hl : length (deviation_column sub) = length sub)
    by apply length_map.
  split; [exact Hl|].
  unfold FeatureEngineering.outlier_counts. rewrite Hd. cbn [fst snd].
  cbn [annotated FeatureEngineering.rows]. rewrite <- Hl.
  apply outlier_classes_disjoint.
Qed.

(** ** Keys in order *)

Lemma ascii_compare_refl (a : ascii) : Ascii.compare a a = Eq.
Proof. unfold Ascii.compare. apply N.compare_refl. Qed.

Lemma ascii_compare_lt_trans (a b c : ascii) :
  Ascii.compare a b = Lt -> Ascii.compare b c = Lt -> Ascii.compare a c = Lt.
Proof.
  unfold Ascii.compare. rewrite !N.compare_lt_iff. apply N.lt_trans.
Qed.

Lemma string_compare_refl (s : string) : String.compare s s = Eq.
Proof.
  induction s as [|c s IH]; [reflexivity|].
  cbn. rewrite ascii_compare_refl. exact IH.
Qed.

Lemma string_compare_lt_trans (s1 : string) :
  forall s2 s3 : string,
    String.compare s1 s2 = Lt -> String.compare s2 s3 = Lt ->
    String.compare s1 s3 = Lt.
Proof.
  induction s1 as [|c1 s1 IH]; intros [|c2 s2] [|c3 s3]; cbn;
    try discriminate; try reflexivity.
  destruct (Ascii.compare c1 c2) eqn:E12; try discriminate;
    destruct (Ascii.compare c2 c3) eqn:E23; try discriminate.
  - apply Ascii.compare_eq_iff in E12, E23. subst.
    rewrite ascii_compare_refl. apply IH.
  - apply Ascii.compare_eq_iff in E12. subst. rewrite E23. reflexivity.
  - apply Ascii.compare_eq_iff in E23. subst. rewrite E12. reflexivity.
  - rewrite (ascii_compare_lt_trans _ _ _ E12 E23). reflexivity.
Qed.

Lemma string_leb_cases (a b : string) :
  String.leb a b = true <-> String.compare a b = Lt \/ a = b.
Proof.
  unfold String.leb. destruct (String.compare a b) eqn:E; split.
  - intros _. right. apply String.compare_eq_iff. exact E.
  - reflexivity.
  - intros _. left. reflexivity.
  - reflexivity.
  - discriminate.
  - intros [H| ->]; [discriminate|].
    rewrite string_compare_refl in E. discriminate.
Qed.

Lemma string_leb_trans (a b c : string) :
  String.leb a b = true -> String.leb b c = true -> String.leb a c = true.
Proof.
  rewrite !string_leb_cases. intros [Hab| ->] [Hbc| ->]; auto.
  left. exact (string_compare_lt_trans _ _ _ Hab Hbc).
Qed.

Section KeyOrder.
Context {K : Type} (eqb leb : K -> K -> bool).
Hypothesis eqb_eq : forall a b, eqb a b = true <-> a = b.
Hypothesis leb_total : forall a b, leb a b = true \/ leb b a = true.
Hypothesis leb_antisym : forall a b, leb a b = true -> leb b a = true -> a = b.
Hypothesis leb_trans :
  forall a b c, leb a b = true -> leb b c = true -> leb a c = true.

Lemma insert_key_sorted (k : K) (l : list K) :
  StronglySorted (fun a b => leb a b = true /\ a <> b) l ->
  StronglySorted (fun a b => leb a b = true /\ a <> b)
                 (insert_key eqb leb k l).
Proof.
  induction 1 as [|y t Hs IH Hy]; cbn [insert_key].
  - constructor; constructor.
  - destruct (eqb k y) eqn:E; [constructor; assumption|].
    assert (Hne : k <> y).
    { intros Heq. apply eqb_eq in Heq. congruence. }
    destruct (leb k y) eqn:L.
    + constructor; [constructor; assumption|].
      constructor; [split; assumption|].
      apply List.Forall_forall. intros z Hz.
      rewrite List.Forall_forall in Hy. destruct (Hy z Hz) as (Hyz & Hnz).
      split; [exact (leb_trans _ _ _ L Hyz)|].
      intros ->. apply Hnz. exact (leb_antisym _ _ Hyz L).
    + constructor; [exact IH|].
      apply List.Forall_forall. intros z Hz.
      apply (insert_key_In eqb leb eqb_eq) in Hz as [->|Hz].
      * split; [|congruence].
        destruct (leb_total k y) as [H|H]; [congruence|exact H].
      * rewrite List.Forall_forall in Hy. exact (Hy z Hz).
Qed.

Lemma sorted_keys_sorted (l : list K) :
  StronglySorted (fun a b => leb a b = true /\ a <> b)
                 (sorted_keys eqb leb l).
Proof.
  induction l as [|x t IH]; [constructor|].
  cbn [sorted_keys fold_right]. apply insert_key_sorted. exact IH.
Qed.

Lemma sorted_keys_NoDup (l : list K) : List.NoDup (sorted_keys eqb leb l).
Proof.
  apply (StronglySorted_NoDup (fun a b => leb a b = true /\ a <> b)).
  - intros x (_ & H). apply H. reflexivity.
  - apply sorted_keys_sorted.
Qed.

End KeyOrder.

Lemma text_keys_sorted (l : list string) :
  StronglySorted (fun a b => String.leb a b = true /\ a <> b)
                 (sorted_keys String.eqb String.leb l).
Proof.
  apply sorted_keys_sorted.
  - apply String.eqb_eq.
  - apply String.leb_total.
  - apply String.leb_antisym.
  - apply string_leb_trans.
Qed.

Lemma text_keys_NoDup (l : list string) :
  List.NoDup (sorted_keys String.eqb String.leb l).
Proof.
  apply (StronglySorted_NoDup
           (fun a b => String.leb a b = true /\ a <> b)).
  - intros x (_ & H). apply H. reflexivity.
  - apply text_keys_sorted.
Qed.

Lemma groupby_keys {A : Type} (key : A -> option string) (df : list A) :
  List.map fst (groupby key df)
  = sorted_keys String.eqb String.leb (omap key df).
Proof.
  unfold groupby. rewrite List.map_map. cbn [fst]. apply List.map_id.
Qed.

(** ** Summaries by suburb and by quarter *)

Lemma suburb_comparison_keys (df : list feat_row) :
  Permutation
    (List.map GenerateInsights.SuburbRow.Suburb
       (GenerateInsights.suburb_comparison df))
    (sorted_keys String.eqb String.leb (omap suburb df)).
Proof.
  unfold GenerateInsights.suburb_comparison.
  rewrite sort_values_desc_perm, List.map_map.
  cbn [GenerateInsights.SuburbRow.Suburb].
  rewrite <- groupby_keys. reflexivity.
Qed.


Lemma quarterly_trends_keys (df : list feat_row) :
  List.map GenerateInsights.QuarterRow.Quarter
           (GenerateInsights.quarterly_trends df)
  = sorted_keys String.eqb String.leb (List.map Quarter df).
Proof.
  unfold GenerateInsights.quarterly_trends. rewrite List.map_map.
  cbn [GenerateInsights.QuarterRow.Quarter].
  rewrite <- (omap_Some Quarter df). apply groupby_keys.
Qed.

(** X12.  The summary by quarter has one row for each quarter of the
    table and no other row, in strictly ascending order of the quarter
    label. *)
Theorem X12_quarterly_rows_ascending (df : list feat_row) :
  let q := List.map GenerateInsights.QuarterRow.Quarter
                    (GenerateInsights.quarterly_trends df) in
  (forall s, In s q <-> In s (List.map Quarter df))
  /\ forall (i j : nat) (a b : string),
       (i < j)%nat -> q !! i = Some a -> q !! j = Some b ->
       String.leb a b = true /\ a <> b.
Proof.
  intros q. unfold q. rewrite quarterly_trends_keys. split.
  - intros s. apply (sorted_keys_In String.eqb String.leb String.eqb_eq).
  - apply (StronglySorted_lookup
             (fun a b => String.leb a b = true /\ a <> b)).
    apply text_keys_sorted.
Qed.

Lemma sort_text_sorted {A : Type} (key : A -> string) (l : list A) :
  StronglySorted (fun a b => String.leb (key a) (key b) = true) l ->
  sort_text key l = l.
Proof.
  induction 1 as [|x t Hs IH Hx]; [reflexivity|].
  cbn [sort_text fold_right]. fold (sort_text key t). rewrite IH.
  destruct t as [|y t']; [reflexivity|].
  cbn [insert_text]. apply Forall_cons_iff in Hx as (Hxy & _).
  rewrite Hxy. reflexivity.
Qed.

Lemma StronglySorted_unmap {A B : Type} (R : B -> B -> Prop) (f : A -> B)
  (l : list A) :
  StronglySorted R (List.map f l) ->
  StronglySorted (fun a b => R (f a) (f b)) l.
Proof.
  induction l as [|x l IH]; intros H; [constructor|].
  cbn [List.map] in H. apply StronglySorted_inv in H as (Hs & Hx).
  constructor; [exact (IH Hs)|].
  apply List.Forall_forall. intros y Hy. rewrite List.Forall_forall in Hx.
  apply Hx. apply in_map. exact Hy.
Qed.

Lemma quarterly_stats_unchanged (df : list feat_row) :
  CreateDashboard.quarterly_stats df = GenerateInsights.quarterly_trends df.
Proof.
  unfold CreateDashboard.quarterly_stats. apply sort_text_sorted.
  apply (StronglySorted_weaken
           (fun a b =>
              String.leb (GenerateInsights.QuarterRow.Quarter a)
                         (GenerateInsights.QuarterRow.Quarter b) = true
              /\ GenerateInsights.QuarterRow.Quarter a
                 <> GenerateInsights.QuarterRow.Quarter b)).
  - intros x y _ _ (H & _). exact H.
  - apply (StronglySorted_unmap
             (fun a b => String.leb a b = true /\ a <> b)).
    rewrite quarterly_trends_keys. apply text_keys_sorted.
Qed.

(** X13.  The table of quarters behind the Market Trends sheet has the
    rows of [quarterly_trends] in the same order: grouping already leaves
    the quarters in ascending order, and sorting them again changes
    nothing. *)
Theorem X13_dashboard_quarters_in_order (df : list feat_row) :
  CreateDashboard.quarterly_stats df = GenerateInsights.quarterly_trends df.
Proof. exact (quarterly_stats_unchanged df). Qed.

(** ** The market trend *)




(** ** Columns of a pivot and the premium tables *)

Section PivotColumns.
Import GenerateInsights.
Context {K : Type} `{Countable K} (keqb kleb : K -> K -> bool).
Context (key2 : feat_row -> option K).
Hypothesis keqb_eq : forall a b, keqb a b = true <-> a = b.

Lemma pivot_has_column (df : list feat_row) (c : K) :
  mem_key keqb c (columns (median_pivot keqb kleb key2 df)) = true
  <-> exists r, In r df /\ suburb r <> None /\ key2 r = Some c.
Proof.
  unfold median_pivot. cbn [columns].
  rewrite (mem_key_In keqb keqb_eq), (sorted_keys_In keqb kleb keqb_eq),
    In_omap.
  split.
  - intros (r & Hr & Hk). apply filter_In in Hr as (Hr & Hv).
    exists r. split; [exact Hr|]. split; [|exact Hk].
    intros E. unfold has_keys in Hv. rewrite E in Hv. discriminate Hv.
  - intros (r & Hr & Hs & Hk). exists r. split; [|exact Hk].
    apply filter_In. split; [exact Hr|]. unfold has_keys. rewrite Hk.
    destruct (suburb r); [reflexivity | congruence].
Qed.

Lemma pivot_lacks_column (df : list feat_row) (c : K) :
  (forall r, In r df -> suburb r <> None -> key2 r <> Some c) ->
  mem_key keqb c (columns (median_pivot keqb kleb key2 df)) = false.
Proof.
  intros Hno. apply not_true_iff_false. intros Hc.
  apply pivot_has_column in Hc as (r & Hr & Hs & Hk). exact (Hno r Hr Hs Hk).
Qed.

End PivotColumns.

(** X15.  The premium of houses over units cannot be computed without
    both kinds of sale (among the rows that have a suburb): with no house
    in the table the function stops with a key error for the House
    column; with houses but no unit, with a key error for the Unit column;
    with both, it returns a table. *)
Theorem X15_premium_needs_both_types (df : list feat_row) :
  ((forall r, In r df -> suburb r <> None ->
              PropertyType r <> Some "House") ->
   GenerateInsights.property_type_premium df = Err (KeyError "House"))
  /\ ((exists r, In r df /\ suburb r <> None
                 /\ PropertyType r = Some "House") ->
      (forall r, In r df -> suburb r <> None ->
                 PropertyType r <> Some "Unit") ->
      GenerateInsights.property_type_premium df = Err (KeyError "Unit"))
  /\ ((exists r, In r df /\ suburb r <> None
                 /\ PropertyType r = Some "House") ->
      (exists r, In r df /\ suburb r <> None
                 /\ PropertyType r = Some "Unit") ->
      exists t, GenerateInsights.property_type_premium df = Ok t).
Proof.
  unfold GenerateInsights.property_type_premium, GenerateInsights.has_column.
  repeat split.
  - intros Hno.
    rewrite (pivot_lacks_column String.eqb String.leb PropertyType
               String.eqb_eq df "House" Hno).
    reflexivity.
  - intros Hh Hno.
    rewrite (proj2 (pivot_has_column String.eqb String.leb PropertyType
                      String.eqb_eq df "House") Hh).
    rewrite (pivot_lacks_column String.eqb String.leb PropertyType
               String.eqb_eq df "Unit" Hno).
    reflexivity.
  - intros Hh Hu.
    rewrite (proj2 (pivot_has_column String.eqb String.leb PropertyType
                      String.eqb_eq df "House") Hh).
    rewrite (proj2 (pivot_has_column String.eqb String.leb PropertyType
                      String.eqb_eq df "Unit") Hu).
    eexists. reflexivity.
Qed.

Lemma X15_premium_needs_both_types_witness :
  GenerateInsights.property_type_premium Samples.unpriced
  = Err (KeyError "Unit").
Proof.
  apply (proj1 (proj2 (X15_premium_needs_both_types Samples.unpriced))).
  - eexists. split; [left; reflexivity|]. split; [discriminate|reflexivity].
  - intros r [<-|[<-|[]]] _; discriminate.
Defined.

Lemma filter_filter_eq {A : Type} (p q p' q' : A -> bool) (l : list A) :
  (forall x, p x && q x = p' x && q' x) ->
  List.filter p (List.filter q l) = List.filter p' (List.filter q' l).
Proof.
  intros H. induction l as [|x l IH]; [reflexivity|].
  cbn [List.filter]. specialize (H x).
  destruct (q x), (q' x); cbn [List.filter];
    destruct (p x), (p' x); cbn in H; try discriminate;
    rewrite ?IH; reflexivity.
Qed.

Lemma houses_cell_median (df : list feat_row) (s : string) (c : Z) :
  GenerateInsights.cell_median Z.eqb (fun r => Some (Rooms (base r)))
    (List.filter
       (fun r => match PropertyType r with
                 | Some t => String.eqb t "House"
                 | None => false
                 end) df) s c
  = median
      (List.map price
         (List.filter (fun r => Z.eqb (Rooms (base r)) c)
                      (records_of_type df s "House"))).
Proof.
  unfold GenerateInsights.cell_median, records_of_type. do 2 f_equal.
  apply filter_filter_eq. intros r. unfold GenerateInsights.in_cell.
  destruct (cell_is s (suburb r)), (Z.eqb (Rooms (base r)) c),
    (PropertyType r) as [t|]; cbn; try reflexivity;
    destruct (String.eqb t "House"); reflexivity.
Qed.

(** X16.  The premium of four-room over three-room houses is an empty
    table, not an error, when no house of the table has three rooms or
    none has four.  Otherwise, for prices in whole dollars, every row of
    it has both medians present, the median prices of the houses of its
    suburb with four and with three rooms; its premium is the percentage
    (four - three) / three times 100 rounded to a whole number (a nearest
    whole number); and the rows are in descending order of premium, rows
    without a premium last. *)
Theorem X16_bedroom_premium (df : list feat_row) :
  let t := GenerateInsights.bedroom_premium df in
  let m := fun (s : string) (c : Z) =>
             median
               (List.map price
                  (List.filter (fun r => Z.eqb (Rooms (base r)) c)
                               (records_of_type df s "House"))) in
  ((forall r, In r df -> PropertyType r = Some "House" ->
              Rooms (base r) <> 3%Z) -> t = [])
  /\ ((forall r, In r df -> PropertyType r = Some "House" ->
                 Rooms (base r) <> 4%Z) -> t = [])
  /\ ((forall r, In r df -> whole_price (price r)) ->
      forall row, In row t ->
        let e := GenerateInsights.entity row in
        let s := GenerateInsights.index e in
        GenerateInsights.cell e 4%Z = m s 4%Z
        /\ GenerateInsights.cell e 3%Z = m s 3%Z
        /\ m s 4%Z <> NaN /\ m s 3%Z <> NaN
        /\ rounded (premium_percent (m s 4%Z) (m s 3%Z))
                   (GenerateInsights.premium row))
  /\ descending_nan_last (List.map GenerateInsights.premium t).
Proof.
  intros t m. unfold t, GenerateInsights.bedroom_premium.
  set (houses := List.filter _ df).
  set (key2 := fun r : feat_row => Some (Rooms (base r))).
  assert (Hno : forall c,
             (forall r, In r df -> PropertyType r = Some "House" ->
                        Rooms (base r) <> c) ->
             mem_key Z.eqb c
               (GenerateInsights.columns
                  (GenerateInsights.median_pivot Z.eqb Z.leb key2 houses))
             = false).
  { intros c H. apply (pivot_lacks_column Z.eqb Z.leb key2 Z.eqb_eq).
    intros r Hr _ Hk. apply filter_In in Hr as (Hr & Hh).
    destruct (PropertyType r) as [ty|] eqn:E; [|discriminate].
    apply String.eqb_eq in Hh. subst ty.
    apply (H r Hr E). unfold key2 in Hk. congruence. }
  split; [|split; [|split]].
  - intros H. rewrite (Hno 3%Z H). reflexivity.
  - intros H. rewrite (Hno 4%Z H), andb_false_r. reflexivity.
  - intros _ row Hrow.
    set (e := GenerateInsights.entity row).
    set (s := GenerateInsights.index e).
    destruct (mem_key Z.eqb 3%Z _) eqn:H3; [|destruct Hrow].
    destruct (mem_key Z.eqb 4%Z _) eqn:H4; [|destruct Hrow].
    cbn [andb] in Hrow.
    apply premium_table_rows in Hrow as (He & Hp & Hn4 & Hn3).
    fold e in He, Hp, Hn4, Hn3.
    pose proof (pivot_cell Z.eqb Z.leb key2 Z.eqb_eq houses e 4%Z He H4)
      as E4.
    pose proof (pivot_cell Z.eqb Z.leb key2 Z.eqb_eq houses e 3%Z He H3)
      as E3.
    fold s in E4, E3. unfold houses, key2 in E4, E3.
    rewrite houses_cell_median in E4, E3. fold (m s 4%Z) in E4.
    fold (m s 3%Z) in E3.
    rewrite E4, E3 in Hp. rewrite E4 in Hn4. rewrite E3 in Hn3.
    repeat split; try assumption.
    rewrite Hp. apply (fround_rounded (premium_percent (m s 4%Z) (m s 3%Z))).
  - destruct (_ && _); [apply sort_values_desc_descending|].
    intros i j x y _ Hi. destruct i; discriminate.
Qed.

Lemma X16_bedroom_premium_witness :
  List.map (fun row => (GenerateInsights.index (GenerateInsights.entity row),
                        GenerateInsights.premium row))
           (GenerateInsights.bedroom_premium Samples.bedroom_sales)
  = [("Kew", Fin 25)]
  /\ forall row,
       In row (GenerateInsights.bedroom_premium Samples.bedroom_sales) ->
       let m := fun (s : string) (c : Z) =>
                  median
                    (List.map price
                       (List.filter
                          (fun r => Z.eqb (Rooms (base r)) c)
                          (records_of_type Samples.bedroom_sales s "House"))) in
       let e := GenerateInsights.entity row in
       let s := GenerateInsights.index e in
       GenerateInsights.cell e 4%Z = m s 4%Z
       /\ GenerateInsights.cell e 3%Z = m s 3%Z
       /\ m s 4%Z <> NaN /\ m s 3%Z <> NaN
       /\ rounded (premium_percent (m s 4%Z) (m s 3%Z))
                  (GenerateInsights.premium row).
Proof.
  split; [vm_compute; reflexivity|].
  apply (proj1 (proj2 (proj2 (X16_bedroom_premium Samples.bedroom_sales)))).
  intros r [<-|[<-|[<-|[]]]]; right;
    [exists 800000%Z|exists 1000000%Z|exists 500000%Z];
    (split; [reflexivity | lia]).
Defined.

(** ** Edge cases of the gap comparison *)

Lemma round_half_even_comp (q q' : Q) :
  q == q' -> round_half_even q = round_half_even q'.
Proof.
  intros E. unfold round_half_even.
  assert (Hf : Qfloor q = Qfloor q') by (apply Qfloor_comp; exact E).
  assert (Hc : Qcompare (q - inject_Z (Qfloor q)) (1 # 2)
               = Qcompare (q' - inject_Z (Qfloor q')) (1 # 2)).
  { rewrite Hf. apply Qcompare_comp; [|reflexivity].
    rewrite E. reflexivity. }
  rewrite Hc, Hf. reflexivity.
Qed.

Lemma round_half_even_Z (z : Z) : round_half_even (inject_Z z) = z.
Proof.
  unfold round_half_even. rewrite Qfloor_Z.
  assert (E : Qcompare (inject_Z z - inject_Z z) (1 # 2) = Lt).
  { apply Qlt_alt. assert (E : inject_Z z - inject_Z z == 0) by ring.
    rewrite E. reflexivity. }
  rewrite E. reflexivity.
Qed.

Lemma pairs_key_unique (key v p v' p' : string) :
  In (key, (v, p)) GenerateInsights.pairs ->
  In (key, (v', p')) GenerateInsights.pairs ->
  v' = v /\ p' = p.
Proof.
  unfold GenerateInsights.pairs. cbn [In].
  intros [E|[E|[E|[]]]] [E'|[E'|[E'|[]]]]; split; congruence.
Qed.

Lemma gaps_entry (df : list feat_row)
  (gaps : list (string * gmap string GenerateInsights.pyval))
  (key v p : string) (comp : gmap string GenerateInsights.pyval) :
  GenerateInsights.value_suburb_gaps df = Ok gaps ->
  In (key, comp) gaps ->
  In (key, (v, p)) GenerateInsights.pairs ->
  GenerateInsights.add_discount
    (GenerateInsights.comparison (FeatureEngineering.suburb_medians df) v p)
  = Ok comp.
Proof.
  intros Hg Hin Hp. unfold GenerateInsights.value_suburb_gaps in Hg.
  destruct (rmap_In _ _ _ _ Hg Hin) as ((k & v' & p') & Hp' & Hx).
  cbn [fst snd] in Hx.
  destruct (GenerateInsights.add_discount _) as [c|e] eqn:E; [|discriminate].
  cbn [rbind] in Hx. injection Hx as -> ->.
  destruct (pairs_key_unique _ _ _ _ _ Hp Hp') as (-> & ->). exact E.
Qed.

(** X17.  A value suburb that has no sale in the table is read as a
    median price of 0: when its premium suburb has a positive median
    price, the comparison reports a value price of 0 and a discount of
    100 percent. *)
Theorem X17_absent_value_suburb (df : list feat_row)
  (gaps : list (string * gmap string GenerateInsights.pyval))
  (key v p : string) (comp : gmap string GenerateInsights.pyval) (q : Q) :
  GenerateInsights.value_suburb_gaps df = Ok gaps ->
  In (key, comp) gaps ->
  In (key, (v, p)) GenerateInsights.pairs ->
  series_get (FeatureEngineering.suburb_medians df) v = None ->
  series_get (FeatureEngineering.suburb_medians df) p = Some (Fin q) ->
  (0 < q)%Q ->
  comp !! "value_price" = Some (GenerateInsights.PInt 0)
  /\ comp !! "discount_pct" = Some (GenerateInsights.PInt 100).
Proof.
  intros Hg Hin Hp Hv Hq Hpos.
  pose proof (gaps_entry df gaps key v p comp Hg Hin Hp) as E.
  rewrite add_discount_comparison in E. unfold price_or_zero in E.
  rewrite Hv, Hq in E.
  assert (Hgt : fgtb (Fin q) (Fin 0) = true).
  { cbn. apply negb_true_iff, not_true_iff_false. rewrite Qle_bool_iff.
    apply Qlt_not_le. exact Hpos. }
  rewrite Hgt in E. unfold discount_percent in E. cbn [fsub fneg fadd fdiv] in E.
  assert (Hz : Qeq_bool q 0 = false).
  { apply not_true_iff_false. rewrite Qeq_bool_iff. intros Hz.
    rewrite Hz in Hpos. exact (Qlt_irrefl 0 Hpos). }
  rewrite Hz in E. cbn [fmul GenerateInsights.py_round rbind] in E.
  assert (Hr : round_half_even ((q + - 0) / q * 100) = 100%Z).
  { rewrite (round_half_even_comp _ (inject_Z 100)).
    - apply round_half_even_Z.
    - assert (Hq0 : ~ q == 0).
      { intros Hq0. rewrite Hq0 in Hpos. exact (Qlt_irrefl 0 Hpos). }
      change (inject_Z 100) with 100%Q. field. exact Hq0. }
  rewrite Hr in E. injection E as <-. split.
  - unfold GenerateInsights.comparison.
    rewrite !lookup_insert_ne by discriminate. rewrite lookup_insert_eq.
    unfold GenerateInsights.get_or_zero. rewrite Hv. reflexivity.
  - apply lookup_insert_eq.
Qed.

(** X18.  A value suburb whose sales all lack a price stops the gap
    comparison: when its median price is missing and the median price of
    its premium suburb is positive, rounding the discount raises an error,
    and neither [value_suburb_gaps] nor [main] returns a result. *)
Theorem X18_missing_value_price_stops (df : list feat_row) (key v p : string)
  (q : Q) :
  In (key, (v, p)) GenerateInsights.pairs ->
  series_get (FeatureEngineering.suburb_medians df) v = Some NaN ->
  series_get (FeatureEngineering.suburb_medians df) p = Some (Fin q) ->
  (0 < q)%Q ->
  (GenerateInsights.value_suburb_gaps df = Err ValueError
   \/ GenerateInsights.value_suburb_gaps df = Err OverflowError)
  /\ forall r, GenerateInsights.main df <> Ok r.
Proof.
  intros Hp Hv Hq Hpos.
  assert (Hgt : fgtb (Fin q) (Fin 0) = true).
  { cbn. apply negb_true_iff, not_true_iff_false. rewrite Qle_bool_iff.
    apply Qlt_not_le. exact Hpos. }
  assert (Hfail : (GenerateInsights.value_suburb_gaps df = Err ValueError
                   \/ GenerateInsights.value_suburb_gaps df
                      = Err OverflowError)).
  { destruct (GenerateInsights.value_suburb_gaps df) as [gaps|e] eqn:Hg.
    - exfalso. unfold GenerateInsights.value_suburb_gaps in Hg.
      destruct (In_lookup _ _ Hp) as (i & Hi).
      destruct (rmap_lookup _ _ _ _ _ Hg Hi) as (y & _ & Hy).
      cbn [fst snd] in Hy. rewrite add_discount_comparison in Hy.
      unfold price_or_zero in Hy. rewrite Hv, Hq, Hgt in Hy.
      discriminate Hy.
    - unfold GenerateInsights.value_suburb_gaps in Hg.
      apply rmap_err in Hg as (i & (k' & v' & p') & _ & Hx & _).
      cbn [fst snd] in Hx. rewrite add_discount_comparison in Hx.
      destruct (fgtb (price_or_zero _ p') (Fin 0));
        [|cbn [rbind] in Hx; discriminate Hx].
      destruct (discount_percent _ _);
        cbn [GenerateInsights.py_round rbind] in Hx;
        first [discriminate Hx | injection Hx as <-; auto]. }
  split; [exact Hfail|].
  intros r. unfold GenerateInsights.main.
  destruct Hfail as [-> | ->]; discriminate.
Qed.

Lemma X18_missing_value_price_stops_witness :
  (GenerateInsights.value_suburb_gaps Samples.reservoir_unpriced
   = Err ValueError
   \/ GenerateInsights.value_suburb_gaps Samples.reservoir_unpriced
      = Err OverflowError)
  /\ forall r, GenerateInsights.main Samples.reservoir_unpriced <> Ok r.
Proof.
  apply (X18_missing_value_price_stops Samples.reservoir_unpriced
           "Reservoir_vs_Northcote" "Reservoir" "Northcote" 1000000).
  - left. reflexivity.
  - reflexivity.
  - reflexivity.
  - reflexivity.
Defined.

Lemma X17_absent_value_suburb_witness :
  let stats := FeatureEngineering.suburb_medians Samples.northcote_only in
  let comp :=
    <["discount_pct" := GenerateInsights.PInt 100]>
      (GenerateInsights.comparison stats "Reservoir" "Northcote") in
  comp !! "value_price" = Some (GenerateInsights.PInt 0)
  /\ comp !! "discount_pct" = Some (GenerateInsights.PInt 100).
Proof.
  intros stats comp.
  set (gaps :=
         [ ("Reservoir_vs_Northcote", comp);
           ("Glenroy_vs_MooneePonds",
            GenerateInsights.comparison stats "Glenroy" "Moonee Ponds");
           ("Coburg_vs_Brunswick",
            GenerateInsights.comparison stats "Coburg" "Brunswick") ]).
  assert (Hg : GenerateInsights.value_suburb_gaps Samples.northcote_only
               = Ok gaps).
  { unfold GenerateInsights.value_suburb_gaps, GenerateInsights.pairs.
    cbn [rmap fst snd]. rewrite !add_discount_comparison. fold stats.
    change (price_or_zero stats "Northcote") with (Fin 1000000).
    change (price_or_zero stats "Reservoir") with (Fin 0).
    change (price_or_zero stats "Moonee Ponds") with (Fin 0).
    change (price_or_zero stats "Brunswick") with (Fin 0).
    change (fgtb (Fin 1000000) (Fin 0)) with true.
    change (fgtb (Fin 0) (Fin 0)) with false.
    change (GenerateInsights.py_round
              (discount_percent (Fin 1000000) (Fin 0)))
      with (Ok (A := Z) 100%Z).
    reflexivity. }
  exact (X17_absent_value_suburb Samples.northcote_only gaps
           "Reservoir_vs_Northcote" "Reservoir" "Northcote" comp 1000000
           Hg (or_introl eq_refl) (or_introl eq_refl) eq_refl eq_refl
           eq_refl).
Defined.

(** ** The tables of the dashboard *)

Lemma ffill_from_length (l : list fval) :
  forall last, length (ffill_from last l) = length l.
Proof.
  induction l as [|x l IH]; intros last; [reflexivity|].
  cbn [ffill_from length]. rewrite IH. reflexivity.
Qed.

Lemma ffill_from_lookup (l : list fval) :
  forall (last : fval) (i : nat) (x : fval),
    l !! i = Some x -> x <> NaN -> ffill_from last l !! i = Some x.
Proof.
  induction l as [|y l IH]; intros last [|i] x Hi Hx; try discriminate.
  - injection Hi as ->. cbn [ffill_from].
    destruct x; try reflexivity. congruence.
  - cbn [ffill_from]. exact (IH _ i x Hi Hx).
Qed.

Lemma removelast_lookup {A : Type} (l : list A) :
  forall i : nat, (S i < length l)%nat -> removelast l !! i = l !! i.
Proof.
  induction l as [|x l IH]; intros i Hi; [cbn in Hi; lia|].
  destruct l as [|y l]; [cbn in Hi; lia|].
  change (removelast (x :: y :: l)) with (x :: removelast (y :: l)).
  destruct i as [|i]; [reflexivity|].
  apply IH. cbn [length] in Hi |- *. lia.
Qed.

Lemma shift_lookup_S (l : list fval) (i : nat) :
  (S i < length l)%nat -> shift l !! S i = l !! i.
Proof.
  intros Hi. destruct l as [|x l]; [cbn in Hi; lia|].
  unfold shift. exact (removelast_lookup (x :: l) i Hi).
Qed.


Lemma pct_change_next (l : list fval) (i : nat) (a b : fval) :
  l !! i = Some a -> l !! S i = Some b -> a <> NaN -> b <> NaN ->
  pct_change l !! S i = Some (fsub (fdiv b a) (Fin 1)).
Proof.
  intros Ha Hb Hna Hnb. unfold pct_change. rewrite lookup_zip_with.
  unfold ffill. rewrite (ffill_from_lookup l NaN (S i) b Hb Hnb).
  cbn [mbind option_bind]. rewrite shift_lookup_S.
  - rewrite (ffill_from_lookup l NaN i a Ha Hna). reflexivity.
  - rewrite ffill_from_length. apply lookup_lt_Some in Hb. exact Hb.
Qed.

Lemma trend_row_lookup (df : list feat_row) (i : nat)
  (r : CreateDashboard.TrendRow.t) :
  CreateDashboard.create_quarterly_trends df !! i = Some r ->
  exists qr g,
    GenerateInsights.quarterly_trends df !! i = Some qr
    /\ pct_change (List.map GenerateInsights.QuarterRow.Median_Price
                            (GenerateInsights.quarterly_trends df)) !! i
       = Some g
    /\ CreateDashboard.TrendRow.Quarter r
       = GenerateInsights.QuarterRow.Quarter qr
    /\ CreateDashboard.TrendRow.Median_Price r
       = GenerateInsights.QuarterRow.Median_Price qr
    /\ CreateDashboard.TrendRow.QoQ_Growth r = g.
Proof.
  unfold CreateDashboard.create_quarterly_trends.
  rewrite quarterly_stats_unchanged. intros H.
  apply lookup_zip_with_Some in H as (qr & g & -> & Hq & Hg).
  exists qr, g. repeat split; assumption.
Qed.


Lemma house_premium_table_rows (p : GenerateInsights.pivot string)
  (r : GenerateInsights.premium_row string) :
  In r (CreateDashboard.house_premium_table p) ->
  In (GenerateInsights.entity r) (GenerateInsights.body p)
  /\ GenerateInsights.premium r
     = fdiv (fsub (GenerateInsights.cell (GenerateInsights.entity r) "House")
                  (GenerateInsights.cell (GenerateInsights.entity r) "Unit"))
            (GenerateInsights.cell (GenerateInsights.entity r) "Unit")
  /\ GenerateInsights.cell (GenerateInsights.entity r) "House" <> NaN
  /\ GenerateInsights.cell (GenerateInsights.entity r) "Unit" <> NaN.
Proof.
  unfold CreateDashboard.house_premium_table. intros Hr.
  apply sort_values_desc_In, filter_In in Hr as (Hr & Hd).
  apply andb_true_iff in Hd as (Ha & Hb).
  apply in_map_iff in Hr as (pr & <- & Hpr).
  cbn [GenerateInsights.entity GenerateInsights.premium] in *.
  repeat split; try assumption.
  - intros E. rewrite E in Ha. discriminate.
  - intros E. rewrite E in Hb. discriminate.
Qed.

(** X20.  The table behind the Property Types sheet is built when, and
    only when, the premium table of the insights is; every row of it has
    a House and a Unit median that are both present, the median prices of
    the houses and of the units of its suburb; its premium is the
    fraction (House - Unit) / Unit, neither rounded nor in percent; and
    the rows are in descending order of premium, rows without a premium
    last. *)
Theorem X20_property_type_sheet (df : list feat_row) :
  (forall e, CreateDashboard.create_property_type_analysis df = Err e
             <-> GenerateInsights.property_type_premium df = Err e)
  /\ forall t, CreateDashboard.create_property_type_analysis df = Ok t ->
       (forall row, In row t ->
          let e := GenerateInsights.entity row in
          let h :=
            median (List.map price
                      (records_of_type df (GenerateInsights.index e)
                                       "House")) in
          let u :=
            median (List.map price
                      (records_of_type df (GenerateInsights.index e)
                                       "Unit")) in
          GenerateInsights.cell e "House" = h
          /\ GenerateInsights.cell e "Unit" = u
          /\ h <> NaN /\ u <> NaN
          /\ GenerateInsights.premium row = fdiv (fsub h u) u)
       /\ descending_nan_last (List.map GenerateInsights.premium t).
Proof.
  unfold CreateDashboard.create_property_type_analysis,
    GenerateInsights.property_type_premium, GenerateInsights.has_column.
  set (pivot := GenerateInsights.median_pivot String.eqb String.leb
                  PropertyType df).
  destruct (mem_key String.eqb "House" (GenerateInsights.columns pivot))
    eqn:HH; cbn [negb];
    [|split; [intros e; reflexivity|intros t Ht; discriminate Ht]].
  destruct (mem_key String.eqb "Unit" (GenerateInsights.columns pivot))
    eqn:HU; cbn [negb];
    [|split; [intros e; reflexivity|intros t Ht; discriminate Ht]].
  split; [intros e; split; intros Ht; discriminate Ht|].
  intros t Ht. injection Ht as <-. split.
  - intros row Hrow.
    apply house_premium_table_rows in Hrow as (He & Hp & Hh & Hu).
    set (e := GenerateInsights.entity row) in *.
    pose proof (pivot_cell String.eqb String.leb PropertyType String.eqb_eq
                  df e "House" He HH) as Eh.
    pose proof (pivot_cell String.eqb String.leb PropertyType String.eqb_eq
                  df e "Unit" He HU) as Eu.
    rewrite Eh, Eu in Hp. rewrite Eh in Hh. rewrite Eu in Hu.
    rewrite Eh, Eu.
    repeat split; first [reflexivity | assumption].
  - apply sort_values_desc_descending.
Qed.

Lemma X20_property_type_sheet_witness :
  exists t,
    CreateDashboard.create_property_type_analysis Samples.house_and_unit
    = Ok t
    /\ List.map (fun row => (GenerateInsights.index
                               (GenerateInsights.entity row),
                             GenerateInsights.premium row)) t
       = [("Kew", Fin (100000 / 800000))]
    /\ (forall row, In row t ->
          let e := GenerateInsights.entity row in
          let h :=
            median (List.map price
                      (records_of_type Samples.house_and_unit
                                       (GenerateInsights.index e) "House")) in
          let u :=
            median (List.map price
                      (records_of_type Samples.house_and_unit
                                       (GenerateInsights.index e) "Unit")) in
          GenerateInsights.cell e "House" = h
          /\ GenerateInsights.cell e "Unit" = u
          /\ h <> NaN /\ u <> NaN
          /\ GenerateInsights.premium row = fdiv (fsub h u) u)
    /\ descending_nan_last (List.map GenerateInsights.premium t).
Proof.
  eexists. split; [reflexivity|]. split; [vm_compute; reflexivity|].
  exact (proj2 (X20_property_type_sheet Samples.house_and_unit) _ eq_refl).
Defined.

(** C1, amended.  Of the two chained ratios, stated for prices in whole
    dollars: the quarter-over-quarter growth of the Market Trends table is
    computed from the median prices of the quarters already rounded to
    whole dollars (the medians that the table shows), as the current
    rounded median over the previous one, less one; the premium of houses
    over units is computed from the unrounded medians of the two
    categories, and is rounded to a whole number of percent after the
    division. *)
Theorem C1_ratio_statistics (df : list feat_row) :
  (forall r, In r df -> whole_price (price r)) ->
  (forall (i : nat) (prev cur : CreateDashboard.TrendRow.t),
     CreateDashboard.create_quarterly_trends df !! i = Some prev ->
     CreateDashboard.create_quarterly_trends df !! S i = Some cur ->
     let m_prev :=
       fround (median
                 (List.map price
                    (records_of_quarter df
                       (CreateDashboard.TrendRow.Quarter prev)))) in
     let m_cur :=
       fround (median
                 (List.map price
                    (records_of_quarter df
                       (CreateDashboard.TrendRow.Quarter cur)))) in
     CreateDashboard.TrendRow.Median_Price prev = m_prev
     /\ CreateDashboard.TrendRow.Median_Price cur = m_cur
     /\ (m_prev <> NaN -> m_cur <> NaN ->
         CreateDashboard.TrendRow.QoQ_Growth cur
         = fsub (fdiv m_cur m_prev) (Fin 1)))
  /\ (forall t, GenerateInsights.property_type_premium df = Ok t ->
      forall row, In row t ->
        let e := GenerateInsights.entity row in
        let h :=
          median (List.map price
                    (records_of_type df (GenerateInsights.index e) "House")) in
        let u :=
          median (List.map price
                    (records_of_type df (GenerateInsights.index e) "Unit")) in
        h <> NaN /\ u <> NaN
        /\ rounded (premium_percent h u) (GenerateInsights.premium row)).
Proof.
  intros _. split.
  - intros i prev cur Hprev Hcur m_prev m_cur.
    apply trend_row_lookup in Hprev as (qp & gp & Hqp & _ & Hkp & Hmp & _).
    apply trend_row_lookup in Hcur as (qc & gc & Hqc & Hgc & Hkc & Hmc & Hgr).
    assert (Ep : CreateDashboard.TrendRow.Median_Price prev = m_prev).
    { rewrite Hmp. unfold m_prev. rewrite Hkp.
      exact (proj2 (quarterly_trends_rows df qp (lookup_In _ _ _ Hqp))). }
    assert (Ec : CreateDashboard.TrendRow.Median_Price cur = m_cur).
    { rewrite Hmc. unfold m_cur. rewrite Hkc.
      exact (proj2 (quarterly_trends_rows df qc (lookup_In _ _ _ Hqc))). }
    split; [exact Ep|]. split; [exact Ec|].
    intros Hnp Hnc. rewrite <- Ep in Hnp |- *. rewrite <- Ec in Hnc |- *.
    rewrite Hmp in Hnp |- *. rewrite Hmc in Hnc |- *. rewrite Hgr.
    rewrite (pct_change_next _ i
               (GenerateInsights.QuarterRow.Median_Price qp)
               (GenerateInsights.QuarterRow.Median_Price qc)) in Hgc.
    + congruence.
    + exact (lookup_map GenerateInsights.QuarterRow.Median_Price _ _ _ Hqp).
    + exact (lookup_map GenerateInsights.QuarterRow.Median_Price _ _ _ Hqc).
    + exact Hnp.
    + exact Hnc.
  - intros t Ht row Hrow e h u.
    destruct (house_unit_rows df t Ht row Hrow) as (_ & _ & Hh & Hu & Hp).
    fold e h u in Hh, Hu, Hp.
    split; [exact Hh|]. split; [exact Hu|].
    rewrite Hp. apply fround_rounded.
Qed.

Lemma C1_ratio_statistics_witness :
  (forall (i : nat) (prev cur : CreateDashboard.TrendRow.t),
     CreateDashboard.create_quarterly_trends Samples.three_sales !! i
     = Some prev ->
     CreateDashboard.create_quarterly_trends Samples.three_sales !! S i
     = Some cur ->
     let m_prev :=
       fround (median
                 (List.map price
                    (records_of_quarter Samples.three_sales
                       (CreateDashboard.TrendRow.Quarter prev)))) in
     let m_cur :=
       fround (median
                 (List.map price
                    (records_of_quarter Samples.three_sales
                       (CreateDashboard.TrendRow.Quarter cur)))) in
     CreateDashboard.TrendRow.Median_Price prev = m_prev
     /\ CreateDashboard.TrendRow.Median_Price cur = m_cur
     /\ (m_prev <> NaN -> m_cur <> NaN ->
         CreateDashboard.TrendRow.QoQ_Growth cur
         = fsub (fdiv m_cur m_prev) (Fin 1)))
  /\ (forall t,
        GenerateInsights.property_type_premium Samples.three_sales = Ok t ->
        forall row, In row t ->
          let e := GenerateInsights.entity row in
          let h :=
            median (List.map price
                      (records_of_type Samples.three_sales
                                       (GenerateInsights.index e) "House")) in
          let u :=
            median (List.map price
                      (records_of_type Samples.three_sales
                                       (GenerateInsights.index e) "Unit")) in
          h <> NaN /\ u <> NaN
          /\ rounded (premium_percent h u) (GenerateInsights.premium row)).
Proof.
  apply (C1_ratio_statistics Samples.three_sales).
  intros r [<-|[<-|[<-|[]]]]; right;
    [exists 1200000%Z|exists 400000%Z|exists 600000%Z];
    (split; [reflexivity | lia]).
Defined.

(** C1 as stated fails for the growth: with a first quarter whose median
    price is 1,000,001.5 and a second whose median is 2,000,000, the
    growth in the table is computed from 1,000,002, the rounded median,
    and is not (2,000,000 - 1,000,001.5) / 1,000,001.5. *)
Lemma C1_counterexample :
  exists prev cur,
    CreateDashboard.create_quarterly_trends Samples.half_dollar_sales
    = [prev; cur]
    /\ median (List.map price
                 (records_of_quarter Samples.half_dollar_sales "2016Q2"))
       = Fin (2000003 # 2)
    /\ median (List.map price
                 (records_of_quarter Samples.half_dollar_sales "2016Q3"))
       = Fin 2000000
    /\ CreateDashboard.TrendRow.Median_Price prev = Fin 1000002
    /\ feq (CreateDashboard.TrendRow.QoQ_Growth cur)
           (fsub (fdiv (Fin 2000000) (Fin 1000002)) (Fin 1))
    /\ ~ feq (CreateDashboard.TrendRow.QoQ_Growth cur)
             (fdiv (fsub (Fin 2000000) (Fin (2000003 # 2)))
                   (Fin (2000003 # 2))).
Proof.
  eexists. eexists. split; [vm_compute; reflexivity|].
  split; [vm_compute; reflexivity|]. split; [vm_compute; reflexivity|].
  split; [reflexivity|]. split; [vm_compute; reflexivity|].
  vm_compute. discriminate.
Qed.


(** ** The shape of the gap comparison and of the analysis run *)

Lemma rmap_keys {A B C : Type} (f : A -> result B) (g : B -> C) (h : A -> C)
  (l : list A) :
  (forall x y, f x = Ok y -> g y = h x) ->
  forall l', rmap f l = Ok l' -> List.map g l' = List.map h l.
Proof.
  intros Hg. induction l as [|a l IH]; intros l' H; cbn [rmap rbind] in H.
  - injection H as <-. reflexivity.
  - destruct (f a) as [b|e] eqn:Hfa; [|discriminate]. cbn [rbind] in H.
    destruct (rmap f l) as [bs|e] eqn:Hl; [|discriminate].
    cbn [rbind] in H. injection H as <-.
    cbn [List.map]. rewrite (Hg a b Hfa), (IH bs eq_refl). reflexivity.
Qed.

(** X21.  When the gap comparison returns, it has one entry for each
    configured pair, in the configured order; the entry of a pair names
    its two suburbs and holds their median prices (0 for a suburb without
    sales); and it holds a discount exactly when the median price of the
    premium suburb is greater than zero. *)
Theorem X21_gap_entries (df : list feat_row)
  (gaps : list (string * gmap string GenerateInsights.pyval)) :
  GenerateInsights.value_suburb_gaps df = Ok gaps ->
  List.map fst gaps
  = [ "Reservoir_vs_Northcote"; "Glenroy_vs_MooneePonds";
      "Coburg_vs_Brunswick" ]
  /\ forall (key v p : string) (comp : gmap string GenerateInsights.pyval),
       In (key, comp) gaps ->
       In (key, (v, p)) GenerateInsights.pairs ->
       let stats := FeatureEngineering.suburb_medians df in
       comp !! "value_suburb" = Some (GenerateInsights.PStr v)
       /\ comp !! "premium_suburb" = Some (GenerateInsights.PStr p)
       /\ comp !! "value_price"
          = Some (GenerateInsights.get_or_zero stats v)
       /\ comp !! "premium_price"
          = Some (GenerateInsights.get_or_zero stats p)
       /\ (comp !! "discount_pct" = None
           <-> fgtb (price_or_zero stats p) (Fin 0) = false).
Proof.
  intros Hg. split.
  - unfold GenerateInsights.value_suburb_gaps in Hg.
    apply (rmap_keys _ fst fst) in Hg; [exact Hg|].
    intros x y Hx.
    destruct (GenerateInsights.add_discount _) as [c|e];
      cbn [rbind] in Hx; [|discriminate].
    injection Hx as <-. reflexivity.
  - intros key v p comp Hin Hp stats.
    pose proof (gaps_entry df gaps key v p comp Hg Hin Hp) as E.
    rewrite add_discount_comparison in E. fold stats in E.
    assert (H1 : GenerateInsights.comparison stats v p !! "value_suburb"
                 = Some (GenerateInsights.PStr v))
      by apply lookup_insert_eq.
    assert (H2 : GenerateInsights.comparison stats v p !! "premium_suburb"
                 = Some (GenerateInsights.PStr p)).
    { unfold GenerateInsights.comparison.
      rewrite lookup_insert_ne by discriminate. apply lookup_insert_eq. }
    assert (H3 : GenerateInsights.comparison stats v p !! "value_price"
                 = Some (GenerateInsights.get_or_zero stats v)).
    { unfold GenerateInsights.comparison.
      rewrite !lookup_insert_ne by discriminate. apply lookup_insert_eq. }
    assert (H4 : GenerateInsights.comparison stats v p !! "premium_price"
                 = Some (GenerateInsights.get_or_zero stats p)).
    { unfold GenerateInsights.comparison.
      rewrite !lookup_insert_ne by discriminate. apply lookup_insert_eq. }
    pose proof (comparison_no_discount stats v p) as H5.
    destruct (fgtb (price_or_zero stats p) (Fin 0)).
    + destruct (GenerateInsights.py_round _) as [d|e];
        cbn [rbind] in E; [|discriminate].
      injection E as <-.
      rewrite !lookup_insert_ne by discriminate. rewrite lookup_insert_eq.
      repeat split; try assumption; discriminate.
    + injection E as <-. repeat split; assumption.
Qed.

Lemma X21_gap_entries_witness :
  let stats := FeatureEngineering.suburb_medians Samples.northcote_only in
  let gaps :=
    [ ("Reservoir_vs_Northcote",
       <["discount_pct" := GenerateInsights.PInt 100]>
         (GenerateInsights.comparison stats "Reservoir" "Northcote"));
      ("Glenroy_vs_MooneePonds",
       GenerateInsights.comparison stats "Glenroy" "Moonee Ponds");
      ("Coburg_vs_Brunswick",
       GenerateInsights.comparison stats "Coburg" "Brunswick") ] in
  GenerateInsights.value_suburb_gaps Samples.northcote_only = Ok gaps
  /\ List.map fst gaps
     = [ "Reservoir_vs_Northcote"; "Glenroy_vs_MooneePonds";
         "Coburg_vs_Brunswick" ].
Proof.
  intros stats gaps.
  assert (Hg : GenerateInsights.value_suburb_gaps Samples.northcote_only
               = Ok gaps).
  { unfold GenerateInsights.value_suburb_gaps, GenerateInsights.pairs.
    cbn [rmap fst snd]. rewrite !add_discount_comparison. fold stats.
    change (price_or_zero stats "Northcote") with (Fin 1000000).
    change (price_or_zero stats "Reservoir") with (Fin 0).
    change (price_or_zero stats "Moonee Ponds") with (Fin 0).
    change (price_or_zero stats "Brunswick") with (Fin 0).
    change (fgtb (Fin 1000000) (Fin 0)) with true.
    change (fgtb (Fin 0) (Fin 0)) with false.
    change (GenerateInsights.py_round
              (discount_percent (Fin 1000000) (Fin 0)))
      with (Ok (A := Z) 100%Z).
    reflexivity. }
  split; [exact Hg|].
  exact (proj1 (X21_gap_entries Samples.northcote_only gaps Hg)).
Defined.

Lemma add_features_base (df : list raw_row) (out : list feat_row) :
  FeatureEngineering.add_features df = Ok out ->
  forall fr, In fr out -> In (base fr) df.
Proof.
  intros H fr Hfr. destruct (rmap_In _ _ _ _ H Hfr) as (r & Hr & Hrow).
  apply add_features_row_ok in Hrow as (d & _ & ->). exact Hr.
Qed.

(** X22.  A run of the feature script on a cleaned table that is not
    empty and in which every date reads returns an analysis data set; its
    rows are featured rows of the cleaned table, each with a suburb, and
    their suburbs are among at most twenty suburbs, the cohort.  On an
    empty table the run does not return: before saving, the script
    divides by the number of rows. *)
Theorem X22_analysis_run (cleaned : list raw_row) :
  (forall r, In r cleaned -> Dates.parse_date (Date r) <> None) ->
  (cleaned = [] -> forall x, FeatureEngineering.main cleaned <> Ok x)
  /\ (cleaned <> [] ->
      exists df f,
        FeatureEngineering.add_features cleaned = Ok df
        /\ FeatureEngineering.main cleaned = Ok (Some f)
        /\ (length (FeatureEngineering.get_top_suburbs df 20) <= 20)%nat
        /\ forall r, In r (FeatureEngineering.rows f) ->
             In r df
             /\ In (base r) cleaned
             /\ exists s,
                  suburb r = Some s
                  /\ In s (FeatureEngineering.get_top_suburbs df 20)).
Proof.
  intros Hd. split.
  { intros -> x. discriminate. }
  intros Hne.
  destruct (add_features_total cleaned) as (df & Hdf).
  { intros r Hr. specialize (Hd r Hr).
    destruct (Dates.parse_date (Date r)) as [d|]; [exists d; reflexivity|].
    congruence. }
  exists df, (annotated (FeatureEngineering.mk_frame
                           (FeatureEngineering.analysis_subset df 20) ∅)).
  split; [exact Hdf|].
  split.
  { unfold FeatureEngineering.main. rewrite Hdf. cbn [rbind].
    rewrite analysis_dataset_run.
    pose proof (rmap_length _ _ _ Hdf) as Hlen.
    destruct df as [|x df]; [|reflexivity].
    destruct cleaned; [congruence | discriminate Hlen]. }
  split.
  { rewrite top_is_prefix, length_take. lia. }
  intros r Hr. cbn [annotated FeatureEngineering.rows] in Hr.
  apply analysis_subset_In in Hr as (Hr & Htop).
  split; [exact Hr|]. split.
  - exact (add_features_base cleaned df Hdf r Hr).
  - apply isin_In. exact Htop.
Qed.

Lemma X22_analysis_run_witness :
  exists df f,
    FeatureEngineering.add_features Samples.cleaned_sales = Ok df
    /\ FeatureEngineering.main Samples.cleaned_sales = Ok (Some f)
    /\ (length (FeatureEngineering.get_top_suburbs df 20) <= 20)%nat
    /\ forall r, In r (FeatureEngineering.rows f) ->
         In r df
         /\ In (base r) Samples.cleaned_sales
         /\ exists s,
              suburb r = Some s
              /\ In s (FeatureEngineering.get_top_suburbs df 20).
Proof.
  apply (X22_analysis_run Samples.cleaned_sales).
  - intros r [<-|[<-|[<-|[]]]]; vm_compute; discriminate.
  - discriminate.
Defined.

(** ** Figures of the Executive Summary and of the Suburb Lookup Tool *)

Lemma omap_length_le {A B : Type} (f : A -> option B) (l : list A) :
  (length (omap f l) <= length l)%nat.
Proof.
  induction l as [|x l IH]; [reflexivity|].
  cbn [omap list_omap]. destruct (f x); cbn [length]; lia.
Qed.

(** X23.  The number of suburbs shown in the Executive Summary is the
    number of rows of the summary by suburb, and is at most the number of
    sales. *)
Theorem X23_suburbs_analyzed (df : list feat_row) :
  CreateDashboard.suburbs_analyzed df
  = length (GenerateInsights.suburb_comparison df)
  /\ (CreateDashboard.suburbs_analyzed df <= length df)%nat.
Proof.
  unfold CreateDashboard.suburbs_analyzed. split.
  - rewrite <- (length_map GenerateInsights.SuburbRow.Suburb
                  (GenerateInsights.suburb_comparison df)).
    rewrite (Permutation_length (suburb_comparison_keys df)).
    apply Permutation_length.
    apply Stdlib.Sorting.Permutation.NoDup_Permutation.
    + apply unique_NoDup.
    + apply text_keys_NoDup.
    + intros s. rewrite unique_In.
      symmetry. apply (sorted_keys_In String.eqb String.leb String.eqb_eq).
  - apply (Nat.le_trans _ (length (omap suburb df))); [|apply omap_length_le].
    apply List.NoDup_incl_length; [apply unique_NoDup|].
    intros s Hs. apply unique_In. exact Hs.
Qed.

(** X24.  The suburb preselected in the Suburb Lookup Tool is a suburb of
    the table with the largest number of sales; on a table without a
    suburb (an empty table, for one) there is none, and reading it is an
    index error. *)
Theorem X24_default_suburb (df : list feat_row) :
  ((forall r, In r df -> suburb r = None) ->
   CreateDashboard.default_suburb df = Err IndexError)
  /\ ((exists r, In r df /\ suburb r <> None) ->
      exists s,
        CreateDashboard.default_suburb df = Ok s
        /\ FeatureEngineering.get_top_suburbs df 1 = [s]
        /\ In (Some s) (List.map suburb df)
        /\ forall s', In (Some s') (List.map suburb df) ->
             (occurrences s' (List.map suburb df)
              <= occurrences s (List.map suburb df))%nat).
Proof.
  set (col := List.map suburb df).
  pose proof (value_counts_falling col) as Hs.
  pose proof (ranked_In col) as Hin.
  unfold CreateDashboard.default_suburb, FeatureEngineering.get_top_suburbs.
  fold col.
  destruct (FeatureEngineering.value_counts col) as [|kc rest] eqn:E.
  - split; [reflexivity|]. intros (r & Hr & Hsub). exfalso.
    destruct (suburb r) as [s|] eqn:Es; [|congruence].
    apply (proj2 (Hin s)). unfold col. rewrite <- Es. apply in_map. exact Hr.
  - cbn [List.map] in Hs, Hin. split.
    + intros Hnone. exfalso.
      assert (H : In (Some (fst kc)) col) by (apply Hin; left; reflexivity).
      apply in_map_iff in H as (r & Er & Hr). rewrite (Hnone r Hr) in Er.
      discriminate Er.
    + intros _. exists (fst kc).
      split; [reflexivity|]. split; [reflexivity|].
      split; [apply Hin; left; reflexivity|].
      intros s' Hs'. apply (proj2 (Hin s')) in Hs' as [<-|Hs']; [lia|].
      apply StronglySorted_inv in Hs as (_ & Hall).
      rewrite List.Forall_forall in Hall. exact (Hall s' Hs').
Qed.

Lemma X24_default_suburb_witness :
  exists s,
    CreateDashboard.default_suburb Samples.three_sales = Ok s
    /\ FeatureEngineering.get_top_suburbs Samples.three_sales 1 = [s]
    /\ In (Some s) (List.map suburb Samples.three_sales)
    /\ forall s', In (Some s') (List.map suburb Samples.three_sales) ->
         (occurrences s' (List.map suburb Samples.three_sales)
          <= occurrences s (List.map suburb Samples.three_sales))%nat.
Proof.
  apply (proj2 (X24_default_suburb Samples.three_sales)).
  eexists. split; [left; reflexivity | discriminate].
Defined.
